(** * frequenz.client.electricity_trading: types and client

    A shallow embedding of [_types.py] (the domain types and their
    conversion to and from the protobuf messages) and of [_client.py]
    (the stream registries and the partial update of an order), with the
    properties the specification states about them. *)

From Stdlib Require Import ZArith List String Bool Lia.
From Stdlib Require Import DecimalString DecimalZ.
From Stdlib Require Import Permutation.
Import ListNotations.

Open Scope Z_scope.

(** * The Python runtime the module runs on *)

(** Exceptions the embedded code can raise or let through. *)
Inductive PyExc : Type :=
| ValueError (msg : string)
| TypeError (msg : string)
| KeyError
| InvalidOperation          (* decimal.InvalidOperation *)
| OverflowError             (* a date or time outside the range of [datetime] *)
| RpcError (status : Z).    (* grpc.aio.AioRpcError *)

(** A record handed to [_logger.warning]: the format string and its argument. *)
Record LogRecord : Type := { log_fmt : string; log_arg : Z }.

(** What conversions can change besides their result: the identity given to
    the next object that compares by identity, and the log. *)
Record Runtime : Type := {
  next_id : nat;
  warnings : list LogRecord
}.

(** State and exception monad. An exception keeps the effects that
    happened before it was raised. *)
Definition StE (S A : Type) : Type := S -> (PyExc + A) * S.

Definition ret {S A} (a : A) : StE S A := fun s => (inr a, s).

Definition raise {S A} (e : PyExc) : StE S A := fun s => (inl e, s).

Definition bind {S A B} (m : StE S A) (k : A -> StE S B) : StE S B :=
  fun s => match m s with
           | (inr a, s') => k a s'
           | (inl e, s') => (inl e, s')
           end.

Notation "x <- m ;; k" := (bind m (fun x => k))
  (at level 61, m at next level, right associativity).
Notation "m ;;; k" := (bind m (fun _ => k))
  (at level 61, right associativity).

Definition Py (A : Type) : Type := StE Runtime A.

(** A computation that returns or raises and has no other effect: the
    constructor of a message, a conversion of the protobuf library. *)
Definition Res (A : Type) : Type := (PyExc + A)%type.

Definition res_bind {A B} (r : Res A) (k : A -> Res B) : Res B :=
  match r with
  | inr a => k a
  | inl e => inl e
  end.

Notation "x <~ m ;; k" := (res_bind m (fun x => k))
  (at level 61, m at next level, right associativity).

(** The computation run where there is a state. *)
Definition try {S A} (r : Res A) : StE S A := fun s => (r, s).

(** A list comprehension whose element expression can raise. *)
Fixpoint res_map {A B} (f : A -> Res B) (l : list A) : Res (list B) :=
  match l with
  | [] => inr []
  | a :: l' => b <~ f a ;; bs <~ res_map f l' ;; inr (b :: bs)
  end.

(** [id(object())]: a fresh identity. *)
Definition fresh_id : Py nat :=
  fun rt => (inr (next_id rt),
             {| next_id := S (next_id rt); warnings := warnings rt |}).

(** [_logger.warning(fmt, arg)]. *)
Definition _logger_warning (fmt : string) (arg : Z) : Py unit :=
  fun rt => (inr tt,
             {| next_id := next_id rt;
                warnings := warnings rt ++ [{| log_fmt := fmt; log_arg := arg |}] |}).

(** [x if c is not None else d] on an optional value that is always truthy,
    and the monadic map over an optional field. *)
Definition opt_map_m {S A B} (f : A -> StE S B) (o : option A) : StE S (option B) :=
  match o with
  | Some a => b <- f a ;; ret (Some b)
  | None => ret None
  end.

(** A list comprehension whose element expression has effects. *)
Fixpoint list_map_m {S A B} (f : A -> StE S B) (l : list A) : StE S (list B) :=
  match l with
  | [] => ret []
  | a :: l' => b <- f a ;; bs <- list_map_m f l' ;; ret (b :: bs)
  end.

(** Truthiness of [str]. *)
Definition str_bool (s : string) : bool :=
  match s with EmptyString => false | _ => true end.

(** ** [enum.Enum] *)

(** The generated [ValueType] constant behind each member of an enum class:
    [price_pb2.Price.Currency.CURRENCY_USD] and the like. The generated
    modules are not part of the client, so the numbers are a parameter. *)
Class WireValues (E : Type) : Type := wire_value : E -> Z.

Section PyEnum.
Context {E : Type} (members : list E) (value : E -> Z).

(** [any(e.value == w for e in cls)] *)
Definition any_value (w : Z) : bool :=
  existsb (fun e => value e =? w) members.

(** [cls(w)]: the member with that value, [ValueError] when there is none. *)
Definition by_value {S} (w : Z) : StE S E :=
  match find (fun e => value e =? w) members with
  | Some e => ret e
  | None => raise (ValueError "not a valid member")
  end.
End PyEnum.

Module Currency.
Inductive t : Type :=
| UNSPECIFIED | USD | CAD | EUR | GBP | CHF | CNY | JPY | AUD | NZD | SGD.

Definition members : list t :=
  [UNSPECIFIED; USD; CAD; EUR; GBP; CHF; CNY; JPY; AUD; NZD; SGD].

Definition from_pb {V : WireValues t} (currency : Z) : Py t :=
  if negb (any_value members wire_value currency) then
    _logger_warning "Unknown currency %s. Returning UNSPECIFIED." currency ;;;
    ret UNSPECIFIED
  else by_value members wire_value currency.

Definition to_pb {V : WireValues t} (self : t) : Z := wire_value self.
End Currency.

Module EnergyMarketCodeType.
Inductive t : Type := UNSPECIFIED | EUROPE_EIC | US_NERC.

Definition members : list t := [UNSPECIFIED; EUROPE_EIC; US_NERC].

Definition from_pb {V : WireValues t} (energy_market_code_type : Z) : Py t :=
  if negb (any_value members wire_value energy_market_code_type) then
    _logger_warning "Unknown energy market code type %s. Returning UNSPECIFIED."
                    energy_market_code_type ;;;
    ret UNSPECIFIED
  else by_value members wire_value energy_market_code_type.

Definition to_pb {V : WireValues t} (self : t) : Z := wire_value self.
End EnergyMarketCodeType.

Module DeliveryDuration.
Inductive t : Type :=
| UNSPECIFIED | MINUTES_5 | MINUTES_15 | MINUTES_30 | MINUTES_60.

Definition members : list t :=
  [UNSPECIFIED; MINUTES_5; MINUTES_15; MINUTES_30; MINUTES_60].

Definition from_pb {V : WireValues t} (delivery_duration : Z) : Py t :=
  if negb (any_value members wire_value delivery_duration) then
    _logger_warning "Unknown delivery duration %s. Returning UNSPECIFIED."
                    delivery_duration ;;;
    ret UNSPECIFIED
  else by_value members wire_value delivery_duration.

Definition to_pb {V : WireValues t} (self : t) : Z := wire_value self.
End DeliveryDuration.

Module OrderExecutionOption.
Inductive t : Type := UNSPECIFIED | NONE | AON | FOK | IOC.

Definition members : list t := [UNSPECIFIED; NONE; AON; FOK; IOC].

Definition from_pb {V : WireValues t} (order_execution_option : Z) : Py t :=
  if negb (any_value members wire_value order_execution_option) then
    _logger_warning "Unknown forecast feature %s. Returning UNSPECIFIED."
                    order_execution_option ;;;
    ret UNSPECIFIED
  else by_value members wire_value order_execution_option.

Definition to_pb {V : WireValues t} (self : t) : Z := wire_value self.
End OrderExecutionOption.

Module OrderType.
Inductive t : Type :=
| UNSPECIFIED | LIMIT | STOP_LIMIT | ICEBERG | BLOCK | BALANCE
| PREARRANGED | PRIVATE.

Definition members : list t :=
  [UNSPECIFIED; LIMIT; STOP_LIMIT; ICEBERG; BLOCK; BALANCE; PREARRANGED; PRIVATE].

Definition from_pb {V : WireValues t} (order_type : Z) : Py t :=
  if negb (any_value members wire_value order_type) then
    _logger_warning "Unknown order type %s. Returning UNSPECIFIED." order_type ;;;
    ret UNSPECIFIED
  else by_value members wire_value order_type.

Definition to_pb {V : WireValues t} (self : t) : Z := wire_value self.
End OrderType.

Module MarketSide.
Inductive t : Type := UNSPECIFIED | BUY | SELL.

Definition members : list t := [UNSPECIFIED; BUY; SELL].

Definition from_pb {V : WireValues t} (market_side : Z) : Py t :=
  if negb (any_value members wire_value market_side) then
    _logger_warning "Unknown market side %s. Returning UNSPECIFIED." market_side ;;;
    ret UNSPECIFIED
  else by_value members wire_value market_side.

Definition to_pb {V : WireValues t} (self : t) : Z := wire_value self.
End MarketSide.

Module OrderState.
Inductive t : Type :=
| UNSPECIFIED | PENDING | ACTIVE | FILLED | CANCELED | CANCEL_REQUESTED
| CANCEL_REJECTED | EXPIRED | FAILED | HIBERNATE.

Definition members : list t :=
  [UNSPECIFIED; PENDING; ACTIVE; FILLED; CANCELED; CANCEL_REQUESTED;
   CANCEL_REJECTED; EXPIRED; FAILED; HIBERNATE].

Definition from_pb {V : WireValues t} (order_state : Z) : Py t :=
  if negb (any_value members wire_value order_state) then
    _logger_warning "Unknown order state %s. Returning UNSPECIFIED." order_state ;;;
    ret UNSPECIFIED
  else by_value members wire_value order_state.

Definition to_pb {V : WireValues t} (self : t) : Z := wire_value self.
End OrderState.

Module TradeState.
Inductive t : Type :=
| UNSPECIFIED | ACTIVE | CANCEL_REQUESTED | CANCEL_REJECTED | CANCELED
| RECALL | RECALL_REQUESTED | RECALL_REJECTED | APPROVAL_REQUESTED.

Definition members : list t :=
  [UNSPECIFIED; ACTIVE; CANCEL_REQUESTED; CANCEL_REJECTED; CANCELED;
   RECALL; RECALL_REQUESTED; RECALL_REJECTED; APPROVAL_REQUESTED].

Definition from_pb {V : WireValues t} (trade_state : Z) : Py t :=
  if negb (any_value members wire_value trade_state) then
    _logger_warning "Unknown trade state %s. Returning UNSPECIFIED." trade_state ;;;
    ret UNSPECIFIED
  else by_value members wire_value trade_state.

Definition to_pb {V : WireValues t} (self : t) : Z := wire_value self.
End TradeState.

Module StateReason.
Inductive t : Type :=
| UNSPECIFIED | ADD | MODIFY | DELETE | DEACTIVATE | REJECT
| FULL_EXECUTION | PARTIAL_EXECUTION | ICEBERG_SLICE_ADD | VALIDATION_FAIL
| UNKNOWN_STATE | QUOTE_ADD | QUOTE_FULL_EXECUTION | QUOTE_PARTIAL_EXECUTION.

Definition members : list t :=
  [UNSPECIFIED; ADD; MODIFY; DELETE; DEACTIVATE; REJECT; FULL_EXECUTION;
   PARTIAL_EXECUTION; ICEBERG_SLICE_ADD; VALIDATION_FAIL; UNKNOWN_STATE;
   QUOTE_ADD; QUOTE_FULL_EXECUTION; QUOTE_PARTIAL_EXECUTION].

Definition from_pb {V : WireValues t} (state_reason : Z) : Py t :=
  if negb (any_value members wire_value state_reason) then
    _logger_warning "Unknown state reason %s. Returning UNSPECIFIED." state_reason ;;;
    ret UNSPECIFIED
  else by_value members wire_value state_reason.

Definition to_pb {V : WireValues t} (self : t) : Z := wire_value self.
End StateReason.

Module MarketActor.
Inductive t : Type := UNSPECIFIED | USER | MARKET_OPERATOR | SYSTEM.

Definition members : list t := [UNSPECIFIED; USER; MARKET_OPERATOR; SYSTEM].

Definition from_pb {V : WireValues t} (market_actor : Z) : Py t :=
  if negb (any_value members wire_value market_actor) then
    _logger_warning "Unknown market actor %s. Returning UNSPECIFIED." market_actor ;;;
    ret UNSPECIFIED
  else by_value members wire_value market_actor.

Definition to_pb {V : WireValues t} (self : t) : Z := wire_value self.
End MarketActor.

(** The integer fields the client sets in a message, by the id or size
    they hold: an id has one integer type in every message that carries
    it. *)
Inductive IntField : Type :=
| GridpoolId      (* gridpool_id of a request *)
| OrderId         (* order_id of a request, a trade or an order detail *)
| TradeId         (* id of a trade, trade_id_lists of a trade filter *)
| PublicTradeId   (* id of a public trade *)
| PageSize.       (* page_size of the pagination parameters *)

(** What the generated modules fix: the constants of the ten enum classes
    and, for each integer field, the values its type accepts. *)
Class PbConstants : Type := {
  Currency_values :: WireValues Currency.t;
  EnergyMarketCodeType_values :: WireValues EnergyMarketCodeType.t;
  DeliveryDuration_values :: WireValues DeliveryDuration.t;
  OrderExecutionOption_values :: WireValues OrderExecutionOption.t;
  OrderType_values :: WireValues OrderType.t;
  MarketSide_values :: WireValues MarketSide.t;
  OrderState_values :: WireValues OrderState.t;
  TradeState_values :: WireValues TradeState.t;
  StateReason_values :: WireValues StateReason.t;
  MarketActor_values :: WireValues MarketActor.t;
  int_fits : IntField -> Z -> bool
}.

(** The constructor of a message refuses an integer outside the range of
    the field it is given for. *)
Definition out_of_range (value : Z) : PyExc :=
  ValueError ("Value out of range: " ++ NilZero.string_of_int (Z.to_int value))%string.

Definition int_field {C : PbConstants} (field : IntField) (value : Z) : Res Z :=
  if int_fits field value then inr value else inl (out_of_range value).

(** A field given [None] is left unset. *)
Definition optional_field {A B} (check : A -> Res B) (value : option A)
  : Res (option B) :=
  match value with
  | Some a => b <~ check a ;; inr (Some b)
  | None => inr None
  end.

(** What the protobuf compiler guarantees about them: the numbers of one
    enum are pairwise distinct, and the first one, [*_UNSPECIFIED], is the
    proto3 default [0]. *)
Definition distinct_values {E} (V : WireValues E) : Prop :=
  forall a b : E, wire_value a = wire_value b -> a = b.

Class PbConstantsLaws (C : PbConstants) : Prop := {
  Currency_distinct : distinct_values Currency_values;
  EnergyMarketCodeType_distinct : distinct_values EnergyMarketCodeType_values;
  DeliveryDuration_distinct : distinct_values DeliveryDuration_values;
  OrderExecutionOption_distinct : distinct_values OrderExecutionOption_values;
  OrderType_distinct : distinct_values OrderType_values;
  MarketSide_distinct : distinct_values MarketSide_values;
  OrderState_distinct : distinct_values OrderState_values;
  TradeState_distinct : distinct_values TradeState_values;
  StateReason_distinct : distinct_values StateReason_values;
  MarketActor_distinct : distinct_values MarketActor_values;
  DeliveryDuration_unspecified_zero :
    wire_value DeliveryDuration.UNSPECIFIED = 0
}.

(** ** Library values the conversions pass through

    [decimal.Decimal] with [str] and its constructor from a string, and the
    payload of an order: a Python [dict], the [struct_pb2.Struct] built from
    it and [json_format.MessageToDict]. *)
Class PyLib : Type := {
  Decimal : Type;
  Decimal_str : Decimal -> string;            (* str(d) *)
  Decimal_new : string -> option Decimal;     (* Decimal(s), None: InvalidOperation *)
  PyDict : Type;
  dict_bool : PyDict -> bool;                 (* bool(d): len(d) != 0 *)
  Struct : Type;
  Struct_bool : Struct -> bool;               (* bool(s): len(s.fields) != 0 *)
  Struct_default : Struct;                    (* struct_pb2.Struct() *)
  Struct_new : PyDict -> Struct;              (* struct_pb2.Struct(fields=d) *)
  MessageToDict : Struct -> PyDict
}.

Class PyLibLaws (L : PyLib) : Prop := {
  Decimal_new_str : forall d : Decimal, Decimal_new (Decimal_str d) = Some d;
  Struct_default_falsy : Struct_bool Struct_default = false
}.

(** [Decimal(s)] as a computation. *)
Definition Decimal_call {L : PyLib} (s : string) : Py Decimal :=
  match Decimal_new s with
  | Some d => ret d
  | None => raise InvalidOperation
  end.

(** ** [datetime] and [google.protobuf.Timestamp] *)

(** A [datetime]: its date and time fields as the microseconds they
    count from 1970-01-01 00:00:00, and [utcoffset()] in microseconds when
    it is aware, [None] when it is naive. The fields of a [datetime] lie
    between [datetime.min] and [datetime.max]. *)
Module datetime.
Record t : Type := { wall : Z; utcoffset : option Z }.

Definition min_wall : Z := -62135596800000000.   (* 0001-01-01 00:00:00 *)
Definition max_wall : Z := 253402300799999999.   (* 9999-12-31 23:59:59.999999 *)

Definition in_range (us : Z) : bool := (min_wall <=? us) && (us <=? max_wall).

(** The naive [datetime] with these fields. *)
Definition naive (us : Z) : t := {| wall := us; utcoffset := None |}.

(** The fields of [dt - dt.utcoffset()], of [dt] when it is naive. *)
Definition utc (dt : t) : Z :=
  match utcoffset dt with
  | Some offset => wall dt - offset
  | None => wall dt
  end.

(** [a == b]: a naive and an aware [datetime] are never equal, two aware
    ones are compared as instants. *)
Definition eqb (a b : t) : bool :=
  match utcoffset a, utcoffset b with
  | None, None => wall a =? wall b
  | Some _, Some _ => utc a =? utc b
  | _, _ => false
  end.
End datetime.

Definition datetime : Type := datetime.t.

(** A [timedelta], as microseconds. *)
Definition timedelta : Type := Z.

Definition timedelta_minutes (minutes : Z) : timedelta := minutes * 60000000.

Module Timestamp.
Record t : Type := { seconds : Z; nanos : Z }.

(** [timestamp_pb2.Timestamp()] *)
Definition new : t := {| seconds := 0; nanos := 0 |}.

(** [self.FromDatetime(dt)] fills [self] in place and returns [None]:
    the first component is [self] afterwards, the second the value of
    the call expression. The seconds are those of [dt.utctimetuple()],
    which subtracts the offset of an aware [dt] and raises
    [OverflowError] when that leaves the range of [datetime]; the
    nanoseconds are those of [dt.microsecond]. *)
Definition FromDatetime (self : t) (dt : datetime) : Res (t * option t) :=
  if datetime.in_range (datetime.utc dt) then
    inr ({| seconds := datetime.utc dt / 1000000;
            nanos := (datetime.wall dt mod 1000000) * 1000 |}, None)
  else inl OverflowError.

(** [self.ToDatetime()]: the epoch plus a [timedelta] of the seconds and
    of the nanoseconds rounded toward zero to microseconds, a naive
    [datetime]; [OverflowError] when the sum is outside the range of
    [datetime]. *)
Definition ToDatetime (self : t) : Res datetime :=
  let us := seconds self * 1000000 + Z.quot (nanos self) 1000 in
  if datetime.in_range us then inr (datetime.naive us) else inl OverflowError.

(** A protobuf message defines neither [__bool__] nor [__len__]. *)
Definition bool (self : t) : bool := true.
End Timestamp.

(** * The protobuf messages

    A field holds [Some] when it was given to the constructor, [None] when it
    was left out or given as [None]; reading a field that is not set yields
    the default of its type. A repeated field is a list. *)

Definition get {A} (default : A) (field : option A) : A :=
  match field with Some a => a | None => default end.

Definition HasField {A} (field : option A) : bool :=
  match field with Some _ => true | None => false end.

Module decimal_pb2.
Module Decimal.
Record t : Type := { value : option string }.
Definition default : t := {| value := None |}.
End Decimal.
End decimal_pb2.

Module price_pb2.
Module Price.
Record t : Type := { amount : option decimal_pb2.Decimal.t; currency : option Z }.
Definition default : t := {| amount := None; currency := None |}.
End Price.
End price_pb2.

Module energy_pb2.
Module Energy.
Record t : Type := { mwh : option decimal_pb2.Decimal.t }.
Definition default : t := {| mwh := None |}.
End Energy.
End energy_pb2.

Module delivery_area_pb2.
Module DeliveryArea.
Record t : Type := { code : option string; code_type : option Z }.
Definition default : t := {| code := None; code_type := None |}.
End DeliveryArea.
End delivery_area_pb2.

Module delivery_duration_pb2.
Module DeliveryPeriod.
Record t : Type := { start : option Timestamp.t; duration : option Z }.
Definition default : t := {| start := None; duration := None |}.
End DeliveryPeriod.
End delivery_duration_pb2.

Module pagination_params_pb2.
Module PaginationParams.
Record t : Type := { page_size : option Z; page_token : option string }.
Definition default : t := {| page_size := None; page_token := None |}.
End PaginationParams.
End pagination_params_pb2.

Module electricity_trading_pb2.
Module Order.
Record t {L : PyLib} : Type := {
  delivery_area : option delivery_area_pb2.DeliveryArea.t;
  delivery_period : option delivery_duration_pb2.DeliveryPeriod.t;
  type : option Z;
  side : option Z;
  price : option price_pb2.Price.t;
  quantity : option energy_pb2.Energy.t;
  stop_price : option price_pb2.Price.t;
  peak_price_delta : option price_pb2.Price.t;
  display_quantity : option energy_pb2.Energy.t;
  execution_option : option Z;
  valid_until : option Timestamp.t;
  payload : option Struct;
  tag : option string
}.
Definition default {L : PyLib} : t :=
  {| delivery_area := None; delivery_period := None; type := None;
     side := None; price := None; quantity := None; stop_price := None;
     peak_price_delta := None; display_quantity := None;
     execution_option := None; valid_until := None; payload := None;
     tag := None |}.
End Order.

Module Trade.
Record t : Type := {
  id : option Z;
  order_id : option Z;
  side : option Z;
  delivery_area : option delivery_area_pb2.DeliveryArea.t;
  delivery_period : option delivery_duration_pb2.DeliveryPeriod.t;
  execution_time : option Timestamp.t;
  price : option price_pb2.Price.t;
  quantity : option energy_pb2.Energy.t;
  state : option Z
}.
End Trade.

Module StateDetail.
Record t : Type := {
  state : option Z;
  state_reason : option Z;
  market_actor : option Z
}.
Definition default : t :=
  {| state := None; state_reason := None; market_actor := None |}.
End StateDetail.

Module OrderDetail.
Record t {L : PyLib} : Type := {
  order_id : option Z;
  order : option Order.t;
  state_detail : option StateDetail.t;
  open_quantity : option energy_pb2.Energy.t;
  filled_quantity : option energy_pb2.Energy.t;
  create_time : option Timestamp.t;
  modification_time : option Timestamp.t
}.
Definition default {L : PyLib} : t :=
  {| order_id := None; order := None; state_detail := None;
     open_quantity := None; filled_quantity := None; create_time := None;
     modification_time := None |}.
End OrderDetail.

Module PublicTrade.
Record t : Type := {
  id : option Z;
  buy_delivery_area : option delivery_area_pb2.DeliveryArea.t;
  sell_delivery_area : option delivery_area_pb2.DeliveryArea.t;
  delivery_period : option delivery_duration_pb2.DeliveryPeriod.t;
  modification_time : option Timestamp.t;
  price : option price_pb2.Price.t;
  quantity : option energy_pb2.Energy.t;
  state : option Z
}.
End PublicTrade.

Module GridpoolOrderFilter.
Record t : Type := {
  states : list Z;
  side : option Z;
  delivery_period : option delivery_duration_pb2.DeliveryPeriod.t;
  delivery_area : option delivery_area_pb2.DeliveryArea.t;
  tag : option string
}.
Definition default : t :=
  {| states := []; side := None; delivery_period := None;
     delivery_area := None; tag := None |}.
End GridpoolOrderFilter.

Module GridpoolTradeFilter.
Record t : Type := {
  states : list Z;
  trade_id_lists : list Z;
  side : option Z;
  delivery_period : option delivery_duration_pb2.DeliveryPeriod.t;
  delivery_area : option delivery_area_pb2.DeliveryArea.t
}.
Definition default : t :=
  {| states := []; trade_id_lists := []; side := None;
     delivery_period := None; delivery_area := None |}.
End GridpoolTradeFilter.

Module PublicTradeFilter.
Record t : Type := {
  states : list Z;
  delivery_period : option delivery_duration_pb2.DeliveryPeriod.t;
  buy_delivery_area : option delivery_area_pb2.DeliveryArea.t;
  sell_delivery_area : option delivery_area_pb2.DeliveryArea.t
}.
Definition default : t :=
  {| states := []; delivery_period := None; buy_delivery_area := None;
     sell_delivery_area := None |}.
End PublicTradeFilter.

Module UpdateOrder.
Record t {L : PyLib} : Type := {
  price : option price_pb2.Price.t;
  quantity : option energy_pb2.Energy.t;
  stop_price : option price_pb2.Price.t;
  peak_price_delta : option price_pb2.Price.t;
  display_quantity : option energy_pb2.Energy.t;
  execution_option : option Z;
  valid_until : option Timestamp.t;
  payload : option Struct;
  tag : option string
}.
End UpdateOrder.

(** [UpdateGridpoolOrderRequest], with the paths of its [FieldMask]. *)
Module UpdateGridpoolOrderRequest.
Record t {L : PyLib} : Type := {
  gridpool_id : option Z;
  order_id : option Z;
  update_order_fields : option UpdateOrder.t;
  update_mask : option (list string)
}.
End UpdateGridpoolOrderRequest.

Module UpdateGridpoolOrderResponse.
Record t {L : PyLib} : Type := { order_detail : option OrderDetail.t }.
End UpdateGridpoolOrderResponse.

(** The requests and responses of the other calls. *)
Module CreateGridpoolOrderRequest.
Record t {L : PyLib} : Type := { gridpool_id : option Z; order : option Order.t }.
End CreateGridpoolOrderRequest.

Module CreateGridpoolOrderResponse.
Record t {L : PyLib} : Type := { order_detail : option OrderDetail.t }.
End CreateGridpoolOrderResponse.

Module CancelGridpoolOrderRequest.
Record t : Type := { gridpool_id : option Z; order_id : option Z }.
End CancelGridpoolOrderRequest.

Module CancelGridpoolOrderResponse.
Record t {L : PyLib} : Type := { order_detail : option OrderDetail.t }.
End CancelGridpoolOrderResponse.

Module CancelAllGridpoolOrdersRequest.
Record t : Type := { gridpool_id : option Z }.
End CancelAllGridpoolOrdersRequest.

Module CancelAllGridpoolOrdersResponse.
Record t : Type := { gridpool_id : option Z }.
End CancelAllGridpoolOrdersResponse.

Module GetGridpoolOrderRequest.
Record t : Type := { gridpool_id : option Z; order_id : option Z }.
End GetGridpoolOrderRequest.

Module GetGridpoolOrderResponse.
Record t {L : PyLib} : Type := { order_detail : option OrderDetail.t }.
End GetGridpoolOrderResponse.

Module ListGridpoolOrdersRequest.
Record t : Type := {
  gridpool_id : option Z;
  filter : option GridpoolOrderFilter.t;
  pagination_params : option pagination_params_pb2.PaginationParams.t
}.
End ListGridpoolOrdersRequest.

Module ListGridpoolOrdersResponse.
Record t {L : PyLib} : Type := { order_detail_lists : list OrderDetail.t }.
End ListGridpoolOrdersResponse.

Module ListGridpoolTradesRequest.
Record t : Type := {
  gridpool_id : option Z;
  filter : option GridpoolTradeFilter.t;
  pagination_params : option pagination_params_pb2.PaginationParams.t
}.
End ListGridpoolTradesRequest.

Module ListGridpoolTradesResponse.
Record t : Type := { trade_lists : list Trade.t }.
End ListGridpoolTradesResponse.

Module ReceiveGridpoolOrdersStreamRequest.
Record t : Type := { gridpool_id : option Z; filter : option GridpoolOrderFilter.t }.
End ReceiveGridpoolOrdersStreamRequest.

Module ReceiveGridpoolTradesStreamRequest.
Record t : Type := { gridpool_id : option Z; filter : option GridpoolTradeFilter.t }.
End ReceiveGridpoolTradesStreamRequest.

Module ReceivePublicTradesStreamRequest.
Record t : Type := { filter : option PublicTradeFilter.t }.
End ReceivePublicTradesStreamRequest.
End electricity_trading_pb2.

(** * The domain types of [_types.py] *)

(** [f(x) if x else None] for an optional [x]: [None] is falsy, a value
    is tested with the truthiness of its type. *)
Definition py_if {A B} (truth : A -> bool) (x : option A) (f : A -> B) : option B :=
  match x with
  | Some a => if truth a then Some (f a) else None
  | None => None
  end.

(** The same where [f] can raise. *)
Definition py_if_res {A B} (truth : A -> bool) (x : option A) (f : A -> Res B)
  : Res (option B) :=
  match x with
  | Some a => if truth a then b <~ f a ;; inr (Some b) else inr None
  | None => inr None
  end.

(** Truthiness of an object whose class defines neither [__bool__] nor
    [__len__]: dataclass instances, enum members, [datetime]. *)
Definition always {A} (_ : A) : bool := true.

(** Truthiness of an optional value. *)
Definition truthy {A} (truth : A -> bool) (x : option A) : bool :=
  match x with Some a => truth a | None => false end.

(** Truthiness of [list]. *)
Definition list_bool {A} (l : list A) : bool :=
  match l with [] => false | _ => true end.

Module Price.
Record t {L : PyLib} : Type := { amount : Decimal; currency : Currency.t }.

Definition from_pb {L : PyLib} {C : PbConstants} (price : price_pb2.Price.t) : Py t :=
  amount <- Decimal_call
    (get EmptyString
       (decimal_pb2.Decimal.value
          (get decimal_pb2.Decimal.default (price_pb2.Price.amount price)))) ;;
  currency <- Currency.from_pb (get 0 (price_pb2.Price.currency price)) ;;
  ret {| amount := amount; currency := currency |}.

Definition to_pb {L : PyLib} {C : PbConstants} (self : t) : price_pb2.Price.t :=
  let decimal_amount :=
    {| decimal_pb2.Decimal.value := Some (Decimal_str (amount self)) |} in
  {| price_pb2.Price.amount := Some decimal_amount;
     price_pb2.Price.currency := Some (Currency.to_pb (currency self)) |}.
End Price.

Module Energy.
Record t {L : PyLib} : Type := { mwh : Decimal }.

Definition from_pb {L : PyLib} (energy : energy_pb2.Energy.t) : Py t :=
  mwh <- Decimal_call
    (get EmptyString
       (decimal_pb2.Decimal.value
          (get decimal_pb2.Decimal.default (energy_pb2.Energy.mwh energy)))) ;;
  ret {| mwh := mwh |}.

Definition to_pb {L : PyLib} (self : t) : energy_pb2.Energy.t :=
  let decimal_mwh :=
    {| decimal_pb2.Decimal.value := Some (Decimal_str (mwh self)) |} in
  {| energy_pb2.Energy.mwh := Some decimal_mwh |}.
End Energy.

Module DeliveryArea.
Record t : Type := { code : string; code_type : EnergyMarketCodeType.t }.

Definition from_pb {C : PbConstants}
    (delivery_area : delivery_area_pb2.DeliveryArea.t) : Py t :=
  code_type <- EnergyMarketCodeType.from_pb
    (get 0 (delivery_area_pb2.DeliveryArea.code_type delivery_area)) ;;
  ret {| code := get EmptyString (delivery_area_pb2.DeliveryArea.code delivery_area);
         code_type := code_type |}.

Definition to_pb {C : PbConstants} (self : t) : delivery_area_pb2.DeliveryArea.t :=
  {| delivery_area_pb2.DeliveryArea.code := Some (code self);
     delivery_area_pb2.DeliveryArea.code_type :=
       Some (EnergyMarketCodeType.to_pb (code_type self)) |}.
End DeliveryArea.

Module DeliveryPeriod.
(** The class is not a dataclass and defines neither [__eq__] nor
    [__hash__]: two periods compare by identity, which [oid] carries. *)
Record t : Type := {
  oid : nat;
  start : datetime;
  duration : DeliveryDuration.t
}.

Definition invalid_duration : PyExc :=
  ValueError "Invalid duration value. Duration must be 5, 15, 30, or 60 minutes.".

(** [minutes = duration.total_seconds() / 60] followed by [case m:]. A
    [timedelta] counts whole microseconds and the two float divisions are
    exact at 300, 900, 1800 and 3600 seconds, so the case is taken exactly
    when the duration is [m] minutes. *)
Definition minutes_is (duration : timedelta) (m : Z) : bool :=
  duration =? timedelta_minutes m.

Definition __init__ (start : datetime) (duration : timedelta) : Py t :=
  self <- fresh_id ;;
  if minutes_is duration 5 then
    ret {| oid := self; start := start; duration := DeliveryDuration.MINUTES_5 |}
  else if minutes_is duration 15 then
    ret {| oid := self; start := start; duration := DeliveryDuration.MINUTES_15 |}
  else if minutes_is duration 30 then
    ret {| oid := self; start := start; duration := DeliveryDuration.MINUTES_30 |}
  else if minutes_is duration 60 then
    ret {| oid := self; start := start; duration := DeliveryDuration.MINUTES_60 |}
  else raise invalid_duration.

Definition from_pb {C : PbConstants}
    (delivery_period : delivery_duration_pb2.DeliveryPeriod.t) : Py t :=
  start <- try (Timestamp.ToDatetime
                  (get Timestamp.new
                     (delivery_duration_pb2.DeliveryPeriod.start delivery_period))) ;;
  delivery_duration_enum <- DeliveryDuration.from_pb
    (get 0 (delivery_duration_pb2.DeliveryPeriod.duration delivery_period)) ;;
  duration <- match delivery_duration_enum with
              | DeliveryDuration.MINUTES_5 => ret (timedelta_minutes 5)
              | DeliveryDuration.MINUTES_15 => ret (timedelta_minutes 15)
              | DeliveryDuration.MINUTES_30 => ret (timedelta_minutes 30)
              | DeliveryDuration.MINUTES_60 => ret (timedelta_minutes 60)
              | _ => raise invalid_duration
              end ;;
  __init__ start duration.

Definition to_pb {C : PbConstants} (self : t)
  : Res delivery_duration_pb2.DeliveryPeriod.t :=
  filled <~ Timestamp.FromDatetime Timestamp.new (start self) ;;
  let start := fst filled in
  inr {| delivery_duration_pb2.DeliveryPeriod.start := Some start;
         delivery_duration_pb2.DeliveryPeriod.duration :=
           Some (DeliveryDuration.to_pb (duration self)) |}.
End DeliveryPeriod.

Module PaginationParams.
Record t : Type := { page_size : option Z; page_token : option string }.

Definition from_pb (pagination_params : pagination_params_pb2.PaginationParams.t) : t :=
  {| page_size :=
       Some (get 0 (pagination_params_pb2.PaginationParams.page_size pagination_params));
     page_token :=
       Some (get EmptyString
               (pagination_params_pb2.PaginationParams.page_token pagination_params)) |}.

Definition to_pb {C : PbConstants} (self : t)
  : Res pagination_params_pb2.PaginationParams.t :=
  page_size <~ optional_field (int_field PageSize) (page_size self) ;;
  inr {| pagination_params_pb2.PaginationParams.page_size := page_size;
         pagination_params_pb2.PaginationParams.page_token := page_token self |}.
End PaginationParams.

Module Order.
Record t {L : PyLib} : Type := {
  delivery_area : DeliveryArea.t;
  delivery_period : DeliveryPeriod.t;
  type : OrderType.t;
  side : MarketSide.t;
  price : Price.t;
  quantity : Energy.t;
  stop_price : option Price.t;
  peak_price_delta : option Price.t;
  display_quantity : option Energy.t;
  execution_option : option OrderExecutionOption.t;
  valid_until : option datetime;
  payload : option PyDict;
  tag : option string
}.

Definition from_pb {L : PyLib} {C : PbConstants}
    (order : electricity_trading_pb2.Order.t) : Py t :=
  delivery_area <- DeliveryArea.from_pb
    (get delivery_area_pb2.DeliveryArea.default
       (electricity_trading_pb2.Order.delivery_area order)) ;;
  delivery_period <- DeliveryPeriod.from_pb
    (get delivery_duration_pb2.DeliveryPeriod.default
       (electricity_trading_pb2.Order.delivery_period order)) ;;
  type <- OrderType.from_pb (get 0 (electricity_trading_pb2.Order.type order)) ;;
  side <- MarketSide.from_pb (get 0 (electricity_trading_pb2.Order.side order)) ;;
  price <- Price.from_pb
    (get price_pb2.Price.default (electricity_trading_pb2.Order.price order)) ;;
  quantity <- Energy.from_pb
    (get energy_pb2.Energy.default (electricity_trading_pb2.Order.quantity order)) ;;
  stop_price <-
    (if HasField (electricity_trading_pb2.Order.stop_price order)
     then p <- Price.from_pb
            (get price_pb2.Price.default
               (electricity_trading_pb2.Order.stop_price order)) ;; ret (Some p)
     else ret None) ;;
  peak_price_delta <-
    (if HasField (electricity_trading_pb2.Order.peak_price_delta order)
     then p <- Price.from_pb
            (get price_pb2.Price.default
               (electricity_trading_pb2.Order.peak_price_delta order)) ;; ret (Some p)
     else ret None) ;;
  display_quantity <-
    (if HasField (electricity_trading_pb2.Order.display_quantity order)
     then q <- Energy.from_pb
            (get energy_pb2.Energy.default
               (electricity_trading_pb2.Order.display_quantity order)) ;; ret (Some q)
     else ret None) ;;
  execution_option <-
    (if HasField (electricity_trading_pb2.Order.execution_option order)
     then o <- OrderExecutionOption.from_pb
            (get 0 (electricity_trading_pb2.Order.execution_option order)) ;;
          ret (Some o)
     else ret None) ;;
  let order_valid_until :=
    get Timestamp.new (electricity_trading_pb2.Order.valid_until order) in
  valid_until <-
    (if Timestamp.bool order_valid_until
     then d <- try (Timestamp.ToDatetime order_valid_until) ;; ret (Some d)
     else ret None) ;;
  let order_payload :=
    get Struct_default (electricity_trading_pb2.Order.payload order) in
  let order_tag := get EmptyString (electricity_trading_pb2.Order.tag order) in
  ret {| delivery_area := delivery_area;
         delivery_period := delivery_period;
         type := type;
         side := side;
         price := price;
         quantity := quantity;
         stop_price := stop_price;
         peak_price_delta := peak_price_delta;
         display_quantity := display_quantity;
         execution_option := execution_option;
         valid_until := valid_until;
         payload :=
           if Struct_bool order_payload
           then Some (MessageToDict order_payload) else None;
         tag := if str_bool order_tag then Some order_tag else None |}.

Definition to_pb {L : PyLib} {C : PbConstants} (self : t)
  : Res electricity_trading_pb2.Order.t :=
  valid_until <~
    py_if_res always (valid_until self)
      (fun dt => filled <~ Timestamp.FromDatetime Timestamp.new dt ;;
                 inr (fst filled)) ;;
  delivery_period <~ DeliveryPeriod.to_pb (delivery_period self) ;;
  inr {| electricity_trading_pb2.Order.delivery_area :=
           Some (DeliveryArea.to_pb (delivery_area self));
         electricity_trading_pb2.Order.delivery_period := Some delivery_period;
         electricity_trading_pb2.Order.type := Some (wire_value (type self));
         electricity_trading_pb2.Order.side := Some (wire_value (side self));
         electricity_trading_pb2.Order.price := Some (Price.to_pb (price self));
         electricity_trading_pb2.Order.quantity :=
           Some (Energy.to_pb (quantity self));
         electricity_trading_pb2.Order.stop_price :=
           py_if always (stop_price self) Price.to_pb;
         electricity_trading_pb2.Order.peak_price_delta :=
           py_if always (peak_price_delta self) Price.to_pb;
         electricity_trading_pb2.Order.display_quantity :=
           py_if always (display_quantity self) Energy.to_pb;
         electricity_trading_pb2.Order.execution_option :=
           py_if always (execution_option self) wire_value;
         electricity_trading_pb2.Order.valid_until := valid_until;
         electricity_trading_pb2.Order.payload :=
           py_if dict_bool (payload self) Struct_new;
         electricity_trading_pb2.Order.tag :=
           py_if str_bool (tag self) (fun s => s) |}.
End Order.

Module Trade.
Record t {L : PyLib} : Type := {
  id : Z;
  order_id : Z;
  side : MarketSide.t;
  delivery_area : DeliveryArea.t;
  delivery_period : DeliveryPeriod.t;
  execution_time : datetime;
  price : Price.t;
  quantity : Energy.t;
  state : TradeState.t
}.

Definition from_pb {L : PyLib} {C : PbConstants}
    (trade : electricity_trading_pb2.Trade.t) : Py t :=
  side <- MarketSide.from_pb (get 0 (electricity_trading_pb2.Trade.side trade)) ;;
  delivery_area <- DeliveryArea.from_pb
    (get delivery_area_pb2.DeliveryArea.default
       (electricity_trading_pb2.Trade.delivery_area trade)) ;;
  delivery_period <- DeliveryPeriod.from_pb
    (get delivery_duration_pb2.DeliveryPeriod.default
       (electricity_trading_pb2.Trade.delivery_period trade)) ;;
  execution_time <- try (Timestamp.ToDatetime
                           (get Timestamp.new
                              (electricity_trading_pb2.Trade.execution_time trade))) ;;
  price <- Price.from_pb
    (get price_pb2.Price.default (electricity_trading_pb2.Trade.price trade)) ;;
  quantity <- Energy.from_pb
    (get energy_pb2.Energy.default (electricity_trading_pb2.Trade.quantity trade)) ;;
  state <- TradeState.from_pb (get 0 (electricity_trading_pb2.Trade.state trade)) ;;
  ret {| id := get 0 (electricity_trading_pb2.Trade.id trade);
         order_id := get 0 (electricity_trading_pb2.Trade.order_id trade);
         side := side;
         delivery_area := delivery_area;
         delivery_period := delivery_period;
         execution_time := execution_time;
         price := price;
         quantity := quantity;
         state := state |}.

(** [execution_time] is given the value of the call
    [timestamp_pb2.Timestamp().FromDatetime(...)]. *)
Definition to_pb {L : PyLib} {C : PbConstants} (self : t)
  : Res electricity_trading_pb2.Trade.t :=
  delivery_period <~ DeliveryPeriod.to_pb (delivery_period self) ;;
  execution_time <~ Timestamp.FromDatetime Timestamp.new (execution_time self) ;;
  id <~ int_field TradeId (id self) ;;
  order_id <~ int_field OrderId (order_id self) ;;
  inr {| electricity_trading_pb2.Trade.id := Some id;
         electricity_trading_pb2.Trade.order_id := Some order_id;
         electricity_trading_pb2.Trade.side := Some (wire_value (side self));
         electricity_trading_pb2.Trade.delivery_area :=
           Some (DeliveryArea.to_pb (delivery_area self));
         electricity_trading_pb2.Trade.delivery_period := Some delivery_period;
         electricity_trading_pb2.Trade.execution_time := snd execution_time;
         electricity_trading_pb2.Trade.price := Some (Price.to_pb (price self));
         electricity_trading_pb2.Trade.quantity :=
           Some (Energy.to_pb (quantity self));
         electricity_trading_pb2.Trade.state := Some (wire_value (state self)) |}.
End Trade.

Module StateDetail.
Record t : Type := {
  state : OrderState.t;
  state_reason : StateReason.t;
  market_actor : MarketActor.t
}.

Definition from_pb {C : PbConstants}
    (state_detail : electricity_trading_pb2.StateDetail.t) : Py t :=
  state <- OrderState.from_pb
    (get 0 (electricity_trading_pb2.StateDetail.state state_detail)) ;;
  state_reason <- StateReason.from_pb
    (get 0 (electricity_trading_pb2.StateDetail.state_reason state_detail)) ;;
  market_actor <- MarketActor.from_pb
    (get 0 (electricity_trading_pb2.StateDetail.market_actor state_detail)) ;;
  ret {| state := state; state_reason := state_reason; market_actor := market_actor |}.

Definition to_pb {C : PbConstants} (self : t) : electricity_trading_pb2.StateDetail.t :=
  {| electricity_trading_pb2.StateDetail.state := Some (wire_value (state self));
     electricity_trading_pb2.StateDetail.state_reason :=
       Some (wire_value (state_reason self));
     electricity_trading_pb2.StateDetail.market_actor :=
       Some (wire_value (market_actor self)) |}.
End StateDetail.

Module OrderDetail.
Record t {L : PyLib} : Type := {
  order_id : Z;
  order : Order.t;
  state_detail : StateDetail.t;
  open_quantity : Energy.t;
  filled_quantity : Energy.t;
  create_time : datetime;
  modification_time : datetime
}.

Definition from_pb {L : PyLib} {C : PbConstants}
    (order_detail : electricity_trading_pb2.OrderDetail.t) : Py t :=
  order <- Order.from_pb
    (get electricity_trading_pb2.Order.default
       (electricity_trading_pb2.OrderDetail.order order_detail)) ;;
  state_detail <- StateDetail.from_pb
    (get electricity_trading_pb2.StateDetail.default
       (electricity_trading_pb2.OrderDetail.state_detail order_detail)) ;;
  open_quantity <- Energy.from_pb
    (get energy_pb2.Energy.default
       (electricity_trading_pb2.OrderDetail.open_quantity order_detail)) ;;
  filled_quantity <- Energy.from_pb
    (get energy_pb2.Energy.default
       (electricity_trading_pb2.OrderDetail.filled_quantity order_detail)) ;;
  create_time <- try (Timestamp.ToDatetime
                        (get Timestamp.new
                           (electricity_trading_pb2.OrderDetail.create_time
                              order_detail))) ;;
  modification_time <- try (Timestamp.ToDatetime
                              (get Timestamp.new
                                 (electricity_trading_pb2.OrderDetail.modification_time
                                    order_detail))) ;;
  ret {| order_id := get 0 (electricity_trading_pb2.OrderDetail.order_id order_detail);
         order := order;
         state_detail := state_detail;
         open_quantity := open_quantity;
         filled_quantity := filled_quantity;
         create_time := create_time;
         modification_time := modification_time |}.

Definition to_pb {L : PyLib} {C : PbConstants} (self : t)
    : Res electricity_trading_pb2.OrderDetail.t :=
  order <~ Order.to_pb (order self) ;;
  create_time <~ Timestamp.FromDatetime Timestamp.new (create_time self) ;;
  modification_time <~
    Timestamp.FromDatetime Timestamp.new (modification_time self) ;;
  order_id <~ int_field OrderId (order_id self) ;;
  inr {| electricity_trading_pb2.OrderDetail.order_id := Some order_id;
         electricity_trading_pb2.OrderDetail.order := Some order;
         electricity_trading_pb2.OrderDetail.state_detail :=
           Some (StateDetail.to_pb (state_detail self));
         electricity_trading_pb2.OrderDetail.open_quantity :=
           Some (Energy.to_pb (open_quantity self));
         electricity_trading_pb2.OrderDetail.filled_quantity :=
           Some (Energy.to_pb (filled_quantity self));
         electricity_trading_pb2.OrderDetail.create_time := snd create_time;
         electricity_trading_pb2.OrderDetail.modification_time :=
           snd modification_time |}.
End OrderDetail.

Module PublicTrade.
Record t {L : PyLib} : Type := {
  public_trade_id : Z;
  buy_delivery_area : DeliveryArea.t;
  sell_delivery_area : DeliveryArea.t;
  delivery_period : DeliveryPeriod.t;
  modification_time : datetime;
  price : Price.t;
  quantity : Energy.t;
  state : TradeState.t
}.

Definition from_pb {L : PyLib} {C : PbConstants}
    (public_trade : electricity_trading_pb2.PublicTrade.t) : Py t :=
  buy_delivery_area <- DeliveryArea.from_pb
    (get delivery_area_pb2.DeliveryArea.default
       (electricity_trading_pb2.PublicTrade.buy_delivery_area public_trade)) ;;
  sell_delivery_area <- DeliveryArea.from_pb
    (get delivery_area_pb2.DeliveryArea.default
       (electricity_trading_pb2.PublicTrade.sell_delivery_area public_trade)) ;;
  delivery_period <- DeliveryPeriod.from_pb
    (get delivery_duration_pb2.DeliveryPeriod.default
       (electricity_trading_pb2.PublicTrade.delivery_period public_trade)) ;;
  modification_time <- try (Timestamp.ToDatetime
                              (get Timestamp.new
                                 (electricity_trading_pb2.PublicTrade.modification_time
                                    public_trade))) ;;
  price <- Price.from_pb
    (get price_pb2.Price.default
       (electricity_trading_pb2.PublicTrade.price public_trade)) ;;
  quantity <- Energy.from_pb
    (get energy_pb2.Energy.default
       (electricity_trading_pb2.PublicTrade.quantity public_trade)) ;;
  state <- TradeState.from_pb
    (get 0 (electricity_trading_pb2.PublicTrade.state public_trade)) ;;
  ret {| public_trade_id := get 0 (electricity_trading_pb2.PublicTrade.id public_trade);
         buy_delivery_area := buy_delivery_area;
         sell_delivery_area := sell_delivery_area;
         delivery_period := delivery_period;
         modification_time := modification_time;
         price := price;
         quantity := quantity;
         state := state |}.

Definition to_pb {L : PyLib} {C : PbConstants} (self : t)
    : Res electricity_trading_pb2.PublicTrade.t :=
  delivery_period <~ DeliveryPeriod.to_pb (delivery_period self) ;;
  modification_time <~
    Timestamp.FromDatetime Timestamp.new (modification_time self) ;;
  id <~ int_field PublicTradeId (public_trade_id self) ;;
  inr {| electricity_trading_pb2.PublicTrade.id := Some id;
         electricity_trading_pb2.PublicTrade.buy_delivery_area :=
           Some (DeliveryArea.to_pb (buy_delivery_area self));
         electricity_trading_pb2.PublicTrade.sell_delivery_area :=
           Some (DeliveryArea.to_pb (sell_delivery_area self));
         electricity_trading_pb2.PublicTrade.delivery_period := Some delivery_period;
         electricity_trading_pb2.PublicTrade.modification_time :=
           snd modification_time;
         electricity_trading_pb2.PublicTrade.price := Some (Price.to_pb (price self));
         electricity_trading_pb2.PublicTrade.quantity :=
           Some (Energy.to_pb (quantity self));
         electricity_trading_pb2.PublicTrade.state :=
           Some (wire_value (state self)) |}.
End PublicTrade.

Module GridpoolOrderFilter.
Record t : Type := {
  order_states : option (list OrderState.t);
  side : option MarketSide.t;
  delivery_period : option DeliveryPeriod.t;
  delivery_area : option DeliveryArea.t;
  tag : option string
}.

Definition from_pb {C : PbConstants}
    (gridpool_order_filter : electricity_trading_pb2.GridpoolOrderFilter.t) : Py t :=
  order_states <- list_map_m OrderState.from_pb
    (electricity_trading_pb2.GridpoolOrderFilter.states gridpool_order_filter) ;;
  side <- MarketSide.from_pb
    (get 0 (electricity_trading_pb2.GridpoolOrderFilter.side gridpool_order_filter)) ;;
  delivery_period <- DeliveryPeriod.from_pb
    (get delivery_duration_pb2.DeliveryPeriod.default
       (electricity_trading_pb2.GridpoolOrderFilter.delivery_period
          gridpool_order_filter)) ;;
  delivery_area <- DeliveryArea.from_pb
    (get delivery_area_pb2.DeliveryArea.default
       (electricity_trading_pb2.GridpoolOrderFilter.delivery_area
          gridpool_order_filter)) ;;
  ret {| order_states := Some order_states;
         side := Some side;
         delivery_period := Some delivery_period;
         delivery_area := Some delivery_area;
         tag := Some (get EmptyString
                        (electricity_trading_pb2.GridpoolOrderFilter.tag
                           gridpool_order_filter)) |}.

Definition to_pb {C : PbConstants} (self : t)
    : Res electricity_trading_pb2.GridpoolOrderFilter.t :=
  delivery_period <~ py_if_res always (delivery_period self) DeliveryPeriod.to_pb ;;
  inr {| electricity_trading_pb2.GridpoolOrderFilter.states :=
           get [] (py_if list_bool (order_states self) (map wire_value));
         electricity_trading_pb2.GridpoolOrderFilter.side :=
           py_if always (side self) wire_value;
         electricity_trading_pb2.GridpoolOrderFilter.delivery_period :=
           delivery_period;
         electricity_trading_pb2.GridpoolOrderFilter.delivery_area :=
           py_if always (delivery_area self) DeliveryArea.to_pb;
         electricity_trading_pb2.GridpoolOrderFilter.tag :=
           py_if str_bool (tag self) (fun s => s) |}.
End GridpoolOrderFilter.

Module GridpoolTradeFilter.
Record t : Type := {
  trade_states : option (list TradeState.t);
  trade_id_lists : option (list Z);
  side : option MarketSide.t;
  delivery_period : option DeliveryPeriod.t;
  delivery_area : option DeliveryArea.t
}.

Definition from_pb {C : PbConstants}
    (gridpool_trade_filter : electricity_trading_pb2.GridpoolTradeFilter.t) : Py t :=
  trade_states <- list_map_m TradeState.from_pb
    (electricity_trading_pb2.GridpoolTradeFilter.states gridpool_trade_filter) ;;
  side <- MarketSide.from_pb
    (get 0 (electricity_trading_pb2.GridpoolTradeFilter.side gridpool_trade_filter)) ;;
  delivery_period <- DeliveryPeriod.from_pb
    (get delivery_duration_pb2.DeliveryPeriod.default
       (electricity_trading_pb2.GridpoolTradeFilter.delivery_period
          gridpool_trade_filter)) ;;
  delivery_area <- DeliveryArea.from_pb
    (get delivery_area_pb2.DeliveryArea.default
       (electricity_trading_pb2.GridpoolTradeFilter.delivery_area
          gridpool_trade_filter)) ;;
  ret {| trade_states := Some trade_states;
         trade_id_lists :=
           Some (electricity_trading_pb2.GridpoolTradeFilter.trade_id_lists
                   gridpool_trade_filter);
         side := Some side;
         delivery_period := Some delivery_period;
         delivery_area := Some delivery_area |}.

Definition to_pb {C : PbConstants} (self : t)
    : Res electricity_trading_pb2.GridpoolTradeFilter.t :=
  delivery_period <~ py_if_res always (delivery_period self) DeliveryPeriod.to_pb ;;
  trade_id_lists <~
    res_map (int_field TradeId)
      (get [] (py_if list_bool (trade_id_lists self) (fun l => l))) ;;
  inr {| electricity_trading_pb2.GridpoolTradeFilter.states :=
           get [] (py_if list_bool (trade_states self) (map TradeState.to_pb));
         electricity_trading_pb2.GridpoolTradeFilter.trade_id_lists :=
           trade_id_lists;
         electricity_trading_pb2.GridpoolTradeFilter.side :=
           py_if always (side self) MarketSide.to_pb;
         electricity_trading_pb2.GridpoolTradeFilter.delivery_period :=
           delivery_period;
         electricity_trading_pb2.GridpoolTradeFilter.delivery_area :=
           py_if always (delivery_area self) DeliveryArea.to_pb |}.
End GridpoolTradeFilter.

Module PublicTradeFilter.
Record t : Type := {
  states : option (list TradeState.t);
  delivery_period : option DeliveryPeriod.t;
  buy_delivery_area : option DeliveryArea.t;
  sell_delivery_area : option DeliveryArea.t
}.

Definition from_pb {C : PbConstants}
    (public_trade_filter : electricity_trading_pb2.PublicTradeFilter.t) : Py t :=
  states <- list_map_m TradeState.from_pb
    (electricity_trading_pb2.PublicTradeFilter.states public_trade_filter) ;;
  delivery_period <- DeliveryPeriod.from_pb
    (get delivery_duration_pb2.DeliveryPeriod.default
       (electricity_trading_pb2.PublicTradeFilter.delivery_period
          public_trade_filter)) ;;
  buy_delivery_area <- DeliveryArea.from_pb
    (get delivery_area_pb2.DeliveryArea.default
       (electricity_trading_pb2.PublicTradeFilter.buy_delivery_area
          public_trade_filter)) ;;
  sell_delivery_area <- DeliveryArea.from_pb
    (get delivery_area_pb2.DeliveryArea.default
       (electricity_trading_pb2.PublicTradeFilter.sell_delivery_area
          public_trade_filter)) ;;
  ret {| states := Some states;
         delivery_period := Some delivery_period;
         buy_delivery_area := Some buy_delivery_area;
         sell_delivery_area := Some sell_delivery_area |}.

Definition to_pb {C : PbConstants} (self : t)
    : Res electricity_trading_pb2.PublicTradeFilter.t :=
  delivery_period <~ py_if_res always (delivery_period self) DeliveryPeriod.to_pb ;;
  inr {| electricity_trading_pb2.PublicTradeFilter.states :=
           get [] (py_if list_bool (states self) (map wire_value));
         electricity_trading_pb2.PublicTradeFilter.delivery_period :=
           delivery_period;
         electricity_trading_pb2.PublicTradeFilter.buy_delivery_area :=
           py_if always (buy_delivery_area self) DeliveryArea.to_pb;
         electricity_trading_pb2.PublicTradeFilter.sell_delivery_area :=
           py_if always (sell_delivery_area self) DeliveryArea.to_pb |}.
End PublicTradeFilter.

Module UpdateOrder.
Record t {L : PyLib} : Type := {
  price : option Price.t;
  quantity : option Energy.t;
  stop_price : option Price.t;
  peak_price_delta : option Price.t;
  display_quantity : option Energy.t;
  execution_option : option OrderExecutionOption.t;
  valid_until : option datetime;
  payload : option PyDict;
  tag : option string
}.

Definition to_pb {L : PyLib} {C : PbConstants} (self : t)
    : Res electricity_trading_pb2.UpdateOrder.t :=
  valid_until <~
    py_if_res always (valid_until self)
      (fun dt => filled <~ Timestamp.FromDatetime Timestamp.new dt ;;
                 inr (fst filled)) ;;
  inr {| electricity_trading_pb2.UpdateOrder.price :=
           py_if always (price self) Price.to_pb;
         electricity_trading_pb2.UpdateOrder.quantity :=
           py_if always (quantity self) Energy.to_pb;
         electricity_trading_pb2.UpdateOrder.stop_price :=
           py_if always (stop_price self) Price.to_pb;
         electricity_trading_pb2.UpdateOrder.peak_price_delta :=
           py_if always (peak_price_delta self) Price.to_pb;
         electricity_trading_pb2.UpdateOrder.display_quantity :=
           py_if always (display_quantity self) Energy.to_pb;
         electricity_trading_pb2.UpdateOrder.execution_option :=
           py_if always (execution_option self) wire_value;
         electricity_trading_pb2.UpdateOrder.valid_until :=
           if truthy always (UpdateOrder.valid_until self) then valid_until else None;
         electricity_trading_pb2.UpdateOrder.payload :=
           py_if dict_bool (payload self) Struct_new;
         electricity_trading_pb2.UpdateOrder.tag :=
           py_if str_bool (tag self) (fun s => s) |}.

Definition from_pb {L : PyLib} {C : PbConstants}
    (update_order : electricity_trading_pb2.UpdateOrder.t) : Py t :=
  price <-
    (if HasField (electricity_trading_pb2.UpdateOrder.price update_order)
     then p <- Price.from_pb
            (get price_pb2.Price.default
               (electricity_trading_pb2.UpdateOrder.price update_order)) ;;
          ret (Some p)
     else ret None) ;;
  quantity <-
    (if HasField (electricity_trading_pb2.UpdateOrder.quantity update_order)
     then q <- Energy.from_pb
            (get energy_pb2.Energy.default
               (electricity_trading_pb2.UpdateOrder.quantity update_order)) ;;
          ret (Some q)
     else ret None) ;;
  stop_price <-
    (if HasField (electricity_trading_pb2.UpdateOrder.stop_price update_order)
     then p <- Price.from_pb
            (get price_pb2.Price.default
               (electricity_trading_pb2.UpdateOrder.stop_price update_order)) ;;
          ret (Some p)
     else ret None) ;;
  peak_price_delta <-
    (if HasField (electricity_trading_pb2.UpdateOrder.peak_price_delta update_order)
     then p <- Price.from_pb
            (get price_pb2.Price.default
               (electricity_trading_pb2.UpdateOrder.peak_price_delta update_order)) ;;
          ret (Some p)
     else ret None) ;;
  display_quantity <-
    (if HasField (electricity_trading_pb2.UpdateOrder.display_quantity update_order)
     then q <- Energy.from_pb
            (get energy_pb2.Energy.default
               (electricity_trading_pb2.UpdateOrder.display_quantity update_order)) ;;
          ret (Some q)
     else ret None) ;;
  execution_option <-
    (if HasField (electricity_trading_pb2.UpdateOrder.execution_option update_order)
     then o <- OrderExecutionOption.from_pb
            (get 0 (electricity_trading_pb2.UpdateOrder.execution_option update_order)) ;;
          ret (Some o)
     else ret None) ;;
  valid_until <-
    (if HasField (electricity_trading_pb2.UpdateOrder.valid_until update_order)
     then d <- try (Timestamp.ToDatetime
                      (get Timestamp.new
                         (electricity_trading_pb2.UpdateOrder.valid_until
                            update_order))) ;;
          ret (Some d)
     else ret None) ;;
  let update_order_payload :=
    get Struct_default (electricity_trading_pb2.UpdateOrder.payload update_order) in
  ret {| price := price;
         quantity := quantity;
         stop_price := stop_price;
         peak_price_delta := peak_price_delta;
         display_quantity := display_quantity;
         execution_option := execution_option;
         valid_until := valid_until;
         payload :=
           if Struct_bool update_order_payload
           then Some (MessageToDict update_order_payload) else None;
         tag :=
           if HasField (electricity_trading_pb2.UpdateOrder.tag update_order)
           then Some (get EmptyString
                        (electricity_trading_pb2.UpdateOrder.tag update_order))
           else None |}.
End UpdateOrder.

(** * Equality and hashing of dictionary keys *)

(** Members of an enum class are singletons: [==] is identity. *)
Definition OrderState_eqb (a b : OrderState.t) : bool :=
  match a, b with
  | OrderState.UNSPECIFIED, OrderState.UNSPECIFIED
  | OrderState.PENDING, OrderState.PENDING
  | OrderState.ACTIVE, OrderState.ACTIVE
  | OrderState.FILLED, OrderState.FILLED
  | OrderState.CANCELED, OrderState.CANCELED
  | OrderState.CANCEL_REQUESTED, OrderState.CANCEL_REQUESTED
  | OrderState.CANCEL_REJECTED, OrderState.CANCEL_REJECTED
  | OrderState.EXPIRED, OrderState.EXPIRED
  | OrderState.FAILED, OrderState.FAILED
  | OrderState.HIBERNATE, OrderState.HIBERNATE => true
  | _, _ => false
  end.

Definition TradeState_eqb (a b : TradeState.t) : bool :=
  match a, b with
  | TradeState.UNSPECIFIED, TradeState.UNSPECIFIED
  | TradeState.ACTIVE, TradeState.ACTIVE
  | TradeState.CANCEL_REQUESTED, TradeState.CANCEL_REQUESTED
  | TradeState.CANCEL_REJECTED, TradeState.CANCEL_REJECTED
  | TradeState.CANCELED, TradeState.CANCELED
  | TradeState.RECALL, TradeState.RECALL
  | TradeState.RECALL_REQUESTED, TradeState.RECALL_REQUESTED
  | TradeState.RECALL_REJECTED, TradeState.RECALL_REJECTED
  | TradeState.APPROVAL_REQUESTED, TradeState.APPROVAL_REQUESTED => true
  | _, _ => false
  end.

Definition MarketSide_eqb (a b : MarketSide.t) : bool :=
  match a, b with
  | MarketSide.UNSPECIFIED, MarketSide.UNSPECIFIED
  | MarketSide.BUY, MarketSide.BUY
  | MarketSide.SELL, MarketSide.SELL => true
  | _, _ => false
  end.

Definition EnergyMarketCodeType_eqb (a b : EnergyMarketCodeType.t) : bool :=
  match a, b with
  | EnergyMarketCodeType.UNSPECIFIED, EnergyMarketCodeType.UNSPECIFIED
  | EnergyMarketCodeType.EUROPE_EIC, EnergyMarketCodeType.EUROPE_EIC
  | EnergyMarketCodeType.US_NERC, EnergyMarketCodeType.US_NERC => true
  | _, _ => false
  end.

(** [==] between two values that are [None] or of a type with equality [eqb]. *)
Definition option_eqb {A} (eqb : A -> A -> bool) (x y : option A) : bool :=
  match x, y with
  | None, None => true
  | Some a, Some b => eqb a b
  | _, _ => false
  end.

(** [==] between two lists. *)
Fixpoint list_eqb {A} (eqb : A -> A -> bool) (x y : list A) : bool :=
  match x, y with
  | [], [] => true
  | a :: x', b :: y' => eqb a b && list_eqb eqb x' y'
  | _, _ => false
  end.

(** The [__eq__] a frozen dataclass generates compares the tuples of fields. *)
Definition DeliveryArea_eq (a b : DeliveryArea.t) : bool :=
  String.eqb (DeliveryArea.code a) (DeliveryArea.code b)
  && EnergyMarketCodeType_eqb (DeliveryArea.code_type a) (DeliveryArea.code_type b).

(** [object.__eq__]: identity. *)
Definition DeliveryPeriod_eq (a b : DeliveryPeriod.t) : bool :=
  Nat.eqb (DeliveryPeriod.oid a) (DeliveryPeriod.oid b).

(** Two optional periods are equal to [==] when both are [None] or both are
    the same object. *)
Definition same_period_object (x y : option DeliveryPeriod.t) : Prop :=
  option_map DeliveryPeriod.oid x = option_map DeliveryPeriod.oid y.

Definition GridpoolOrderFilter_eq (a b : GridpoolOrderFilter.t) : bool :=
  option_eqb (list_eqb OrderState_eqb)
             (GridpoolOrderFilter.order_states a) (GridpoolOrderFilter.order_states b)
  && option_eqb MarketSide_eqb (GridpoolOrderFilter.side a) (GridpoolOrderFilter.side b)
  && option_eqb DeliveryPeriod_eq
                (GridpoolOrderFilter.delivery_period a)
                (GridpoolOrderFilter.delivery_period b)
  && option_eqb DeliveryArea_eq
                (GridpoolOrderFilter.delivery_area a)
                (GridpoolOrderFilter.delivery_area b)
  && option_eqb String.eqb (GridpoolOrderFilter.tag a) (GridpoolOrderFilter.tag b).

Definition GridpoolTradeFilter_eq (a b : GridpoolTradeFilter.t) : bool :=
  option_eqb (list_eqb TradeState_eqb)
             (GridpoolTradeFilter.trade_states a) (GridpoolTradeFilter.trade_states b)
  && option_eqb (list_eqb Z.eqb)
                (GridpoolTradeFilter.trade_id_lists a)
                (GridpoolTradeFilter.trade_id_lists b)
  && option_eqb MarketSide_eqb (GridpoolTradeFilter.side a) (GridpoolTradeFilter.side b)
  && option_eqb DeliveryPeriod_eq
                (GridpoolTradeFilter.delivery_period a)
                (GridpoolTradeFilter.delivery_period b)
  && option_eqb DeliveryArea_eq
                (GridpoolTradeFilter.delivery_area a)
                (GridpoolTradeFilter.delivery_area b).

Definition PublicTradeFilter_eq (a b : PublicTradeFilter.t) : bool :=
  option_eqb (list_eqb TradeState_eqb)
             (PublicTradeFilter.states a) (PublicTradeFilter.states b)
  && option_eqb DeliveryPeriod_eq
                (PublicTradeFilter.delivery_period a)
                (PublicTradeFilter.delivery_period b)
  && option_eqb DeliveryArea_eq
                (PublicTradeFilter.buy_delivery_area a)
                (PublicTradeFilter.buy_delivery_area b)
  && option_eqb DeliveryArea_eq
                (PublicTradeFilter.sell_delivery_area a)
                (PublicTradeFilter.sell_delivery_area b).

(** [(gridpool_id, filter) == (gridpool_id', filter')] *)
Definition key_eq {F} (filter_eq : F -> F -> bool) (a b : Z * F) : bool :=
  Z.eqb (fst a) (fst b) && filter_eq (snd a) (snd b).

(** The [__hash__] of a frozen dataclass hashes the tuple of its fields, so
    it returns when every field is hashable: [None], an enum member, a
    string, a [DeliveryPeriod] (hashed by identity) and a [DeliveryArea] are,
    a [list] is not. *)
Definition hashable_opt_list {A} (x : option (list A)) : bool :=
  match x with None => true | Some _ => false end.

Definition GridpoolOrderFilter_hashable (f : GridpoolOrderFilter.t) : bool :=
  hashable_opt_list (GridpoolOrderFilter.order_states f).

Definition GridpoolTradeFilter_hashable (f : GridpoolTradeFilter.t) : bool :=
  hashable_opt_list (GridpoolTradeFilter.trade_states f)
  && hashable_opt_list (GridpoolTradeFilter.trade_id_lists f).

Definition PublicTradeFilter_hashable (f : PublicTradeFilter.t) : bool :=
  hashable_opt_list (PublicTradeFilter.states f).

Definition key_hashable {F} (filter_hashable : F -> bool) (k : Z * F) : bool :=
  filter_hashable (snd k).

(** ** [dict] *)

(** A dictionary in insertion order. Every operation hashes the key first;
    the entry of a key is the one whose stored key is equal to it. *)
Module dict.
Section Dict.
Context {K V : Type} (hashable : K -> bool) (eqb : K -> K -> bool).

Definition t : Type := list (K * V).

Definition unhashable : PyExc := TypeError "unhashable type: 'list'".

Definition lookup (d : t) (k : K) : option V :=
  match find (fun kv => eqb (fst kv) k) d with
  | Some kv => Some (snd kv)
  | None => None
  end.

Fixpoint replace (d : t) (k : K) (v : V) : t :=
  match d with
  | [] => [(k, v)]
  | (k', v') :: d' =>
      if eqb k' k then (k', v) :: d' else (k', v') :: replace d' k v
  end.

(** [k in d] *)
Definition contains {S} (d : t) (k : K) : StE S bool :=
  if hashable k
  then ret (match lookup d k with Some _ => true | None => false end)
  else raise unhashable.

(** [d[k] = v] *)
Definition setitem {S} (d : t) (k : K) (v : V) : StE S t :=
  if hashable k then ret (replace d k v) else raise unhashable.

(** [d[k]] *)
Definition getitem {S} (d : t) (k : K) : StE S V :=
  if hashable k
  then match lookup d k with Some v => ret v | None => raise KeyError end
  else raise unhashable.
End Dict.
End dict.

(** * The client of [_client.py] *)

(** ** [GrpcStreamingHelper] and the world the client acts on *)

Module GrpcStreamingHelper.
(** The [lambda] given as stream method, by the call it makes and the
    variables it closes over. *)
Inductive StreamMethod : Type :=
| ReceiveGridpoolOrdersStream (gridpool_id : Z) (filter : GridpoolOrderFilter.t)
| ReceiveGridpoolTradesStream (gridpool_id : Z) (filter : GridpoolTradeFilter.t)
| ReceivePublicTradesStream (filter : PublicTradeFilter.t).

(** The object formatted into the stream name after
    ["electricity-trading-"]. *)
Inductive StreamName : Type :=
| NameOfOrdersKey (stream_key : Z * GridpoolOrderFilter.t)
| NameOfTradeFilter (filter : GridpoolTradeFilter.t)
| NameOfPublicTradeFilter (filter : PublicTradeFilter.t).

(** A helper object: what it was constructed with, the number of
    receivers handed out, and whether its upstream stream is open. The
    last two belong to the helper and its channel; the client never
    reads them. *)
Record t : Type := {
  hid : nat;
  stream_name : StreamName;
  stream_method : StreamMethod;
  receivers : nat;
  running : bool
}.
End GrpcStreamingHelper.

(** A receiver: the object it is, the helper it was created by and its
    rank among the receivers of that helper. *)
Record Receiver : Type := { rid : nat; receiver_of : nat; receiver_index : nat }.

Module Client.
Section WithLib.
Context {L : PyLib}.

(** The stub: what the service answers to a request. *)
Record Stub : Type := {
  UpdateGridpoolOrder :
    electricity_trading_pb2.UpdateGridpoolOrderRequest.t ->
    PyExc + electricity_trading_pb2.UpdateGridpoolOrderResponse.t
}.

(** The client object. A registry maps a key to a helper, by reference. *)
Record t : Type := {
  _stub : Stub;
  _gridpool_orders_streams : dict.t (K := Z * GridpoolOrderFilter.t) (V := nat);
  _gridpool_trades_streams : dict.t (K := Z * GridpoolTradeFilter.t) (V := nat);
  _public_trades_streams : dict.t (K := PublicTradeFilter.t) (V := nat)
}.

(** The client, the helper objects that exist, and the requests sent
    through the stub so far. *)
Record World : Type := {
  runtime : Runtime;
  self : t;
  helper_objs : list GrpcStreamingHelper.t;
  rpc_log : list electricity_trading_pb2.UpdateGridpoolOrderRequest.t
}.

Definition Io (A : Type) : Type := StE World A.

(** [Client(grpc_channel)] *)
Definition __init__ (stub : Stub) : t :=
  {| _stub := stub;
     _gridpool_orders_streams := [];
     _gridpool_trades_streams := [];
     _public_trades_streams := [] |}.

Definition initial_world (stub : Stub) : World :=
  {| runtime := {| next_id := 0; warnings := [] |};
     self := __init__ stub;
     helper_objs := [];
     rpc_log := [] |}.

(** A conversion run inside the client. *)
Definition lift_py {A} (m : Py A) : Io A :=
  fun w => let (r, rt) := m (runtime w) in
           (r, {| runtime := rt; self := self w;
                  helper_objs := helper_objs w; rpc_log := rpc_log w |}).

Definition get_self : Io t := fun w => (inr (self w), w).

Definition set_self (c : t) : Io unit :=
  fun w => (inr tt, {| runtime := runtime w; self := c;
                       helper_objs := helper_objs w; rpc_log := rpc_log w |}).

(** [GrpcStreamingHelper(stream_name, stream_method, transform)]: a new
    helper object, running, without receivers. *)
Definition new_helper (name : GrpcStreamingHelper.StreamName)
    (method : GrpcStreamingHelper.StreamMethod) : Io nat :=
  h <- lift_py fresh_id ;;
  fun w => (inr h,
            {| runtime := runtime w; self := self w;
               helper_objs :=
                 helper_objs w ++
                 [{| GrpcStreamingHelper.hid := h;
                     GrpcStreamingHelper.stream_name := name;
                     GrpcStreamingHelper.stream_method := method;
                     GrpcStreamingHelper.receivers := 0;
                     GrpcStreamingHelper.running := true |}];
               rpc_log := rpc_log w |}).

Definition update_helper (h : nat)
    (f : GrpcStreamingHelper.t -> GrpcStreamingHelper.t)
    (objs : list GrpcStreamingHelper.t) : list GrpcStreamingHelper.t :=
  map (fun o => if Nat.eqb (GrpcStreamingHelper.hid o) h then f o else o) objs.

Definition add_receiver (o : GrpcStreamingHelper.t) : GrpcStreamingHelper.t :=
  {| GrpcStreamingHelper.hid := GrpcStreamingHelper.hid o;
     GrpcStreamingHelper.stream_name := GrpcStreamingHelper.stream_name o;
     GrpcStreamingHelper.stream_method := GrpcStreamingHelper.stream_method o;
     GrpcStreamingHelper.receivers := S (GrpcStreamingHelper.receivers o);
     GrpcStreamingHelper.running := GrpcStreamingHelper.running o |}.

Definition stop (o : GrpcStreamingHelper.t) : GrpcStreamingHelper.t :=
  {| GrpcStreamingHelper.hid := GrpcStreamingHelper.hid o;
     GrpcStreamingHelper.stream_name := GrpcStreamingHelper.stream_name o;
     GrpcStreamingHelper.stream_method := GrpcStreamingHelper.stream_method o;
     GrpcStreamingHelper.receivers := 0;
     GrpcStreamingHelper.running := false |}.

Definition receivers_of (h : nat) (objs : list GrpcStreamingHelper.t) : nat :=
  match find (fun o => Nat.eqb (GrpcStreamingHelper.hid o) h) objs with
  | Some o => GrpcStreamingHelper.receivers o
  | None => 0%nat
  end.

(** [helper.new_receiver()]: a new receiver object, added to the
    receivers of the helper. *)
Definition new_receiver (h : nat) : Io Receiver :=
  r <- lift_py fresh_id ;;
  fun w => (inr {| rid := r;
                   receiver_of := h;
                   receiver_index := receivers_of h (helper_objs w) |},
            {| runtime := runtime w; self := self w;
               helper_objs := update_helper h add_receiver (helper_objs w);
               rpc_log := rpc_log w |}).

(** The upstream stream of helper [h] ends, cleanly or with an error,
    and its receivers are gone. This happens inside the helper; the
    client has given it no callback and no reference to a registry. *)
Definition upstream_terminated (h : nat) : Io unit :=
  fun w => (inr tt,
            {| runtime := runtime w; self := self w;
               helper_objs := update_helper h stop (helper_objs w);
               rpc_log := rpc_log w |}).

Definition with_orders (c : t) d : t :=
  {| _stub := _stub c; _gridpool_orders_streams := d;
     _gridpool_trades_streams := _gridpool_trades_streams c;
     _public_trades_streams := _public_trades_streams c |}.

Definition with_trades (c : t) d : t :=
  {| _stub := _stub c; _gridpool_orders_streams := _gridpool_orders_streams c;
     _gridpool_trades_streams := d;
     _public_trades_streams := _public_trades_streams c |}.

Definition with_public (c : t) d : t :=
  {| _stub := _stub c; _gridpool_orders_streams := _gridpool_orders_streams c;
     _gridpool_trades_streams := _gridpool_trades_streams c;
     _public_trades_streams := d |}.

Definition orders_hashable := key_hashable GridpoolOrderFilter_hashable.
Definition orders_eq := key_eq GridpoolOrderFilter_eq.
Definition trades_hashable := key_hashable GridpoolTradeFilter_hashable.
Definition trades_eq := key_eq GridpoolTradeFilter_eq.

Definition stream_gridpool_orders
    (gridpool_id : Z)
    (order_states : option (list OrderState.t))
    (market_side : option MarketSide.t)
    (delivery_area : option DeliveryArea.t)
    (delivery_period : option DeliveryPeriod.t)
    (tag : option string) : Io Receiver :=
  let gridpool_order_filter :=
    {| GridpoolOrderFilter.order_states := order_states;
       GridpoolOrderFilter.side := market_side;
       GridpoolOrderFilter.delivery_area := delivery_area;
       GridpoolOrderFilter.delivery_period := delivery_period;
       GridpoolOrderFilter.tag := tag |} in
  let stream_key := (gridpool_id, gridpool_order_filter) in
  c <- get_self ;;
  present <- dict.contains orders_hashable orders_eq
               (_gridpool_orders_streams c) stream_key ;;
  (if negb present then
     h <- new_helper
            (GrpcStreamingHelper.NameOfOrdersKey stream_key)
            (GrpcStreamingHelper.ReceiveGridpoolOrdersStream
               gridpool_id gridpool_order_filter) ;;
     d <- dict.setitem orders_hashable orders_eq
            (_gridpool_orders_streams c) stream_key h ;;
     set_self (with_orders c d)
   else ret tt) ;;;
  c <- get_self ;;
  h <- dict.getitem orders_hashable orders_eq
         (_gridpool_orders_streams c) stream_key ;;
  new_receiver h.

Definition stream_gridpool_trades
    (gridpool_id : Z)
    (trade_states : option (list TradeState.t))
    (trade_ids : option (list Z))
    (market_side : option MarketSide.t)
    (delivery_period : option DeliveryPeriod.t)
    (delivery_area : option DeliveryArea.t) : Io Receiver :=
  let gridpool_trade_filter :=
    {| GridpoolTradeFilter.trade_states := trade_states;
       GridpoolTradeFilter.trade_id_lists := trade_ids;
       GridpoolTradeFilter.side := market_side;
       GridpoolTradeFilter.delivery_period := delivery_period;
       GridpoolTradeFilter.delivery_area := delivery_area |} in
  let stream_key := (gridpool_id, gridpool_trade_filter) in
  c <- get_self ;;
  present <- dict.contains trades_hashable trades_eq
               (_gridpool_trades_streams c) stream_key ;;
  (if negb present then
     h <- new_helper
            (GrpcStreamingHelper.NameOfTradeFilter gridpool_trade_filter)
            (GrpcStreamingHelper.ReceiveGridpoolTradesStream
               gridpool_id gridpool_trade_filter) ;;
     d <- dict.setitem trades_hashable trades_eq
            (_gridpool_trades_streams c) stream_key h ;;
     set_self (with_trades c d)
   else ret tt) ;;;
  c <- get_self ;;
  h <- dict.getitem trades_hashable trades_eq
         (_gridpool_trades_streams c) stream_key ;;
  new_receiver h.

Definition stream_public_trades
    (states : option (list TradeState.t))
    (delivery_period : option DeliveryPeriod.t)
    (buy_delivery_area : option DeliveryArea.t)
    (sell_delivery_area : option DeliveryArea.t) : Io Receiver :=
  let public_trade_filter :=
    {| PublicTradeFilter.states := states;
       PublicTradeFilter.delivery_period := delivery_period;
       PublicTradeFilter.buy_delivery_area := buy_delivery_area;
       PublicTradeFilter.sell_delivery_area := sell_delivery_area |} in
  c <- get_self ;;
  present <- dict.contains PublicTradeFilter_hashable PublicTradeFilter_eq
               (_public_trades_streams c) public_trade_filter ;;
  (if negb present then
     h <- new_helper
            (GrpcStreamingHelper.NameOfPublicTradeFilter public_trade_filter)
            (GrpcStreamingHelper.ReceivePublicTradesStream public_trade_filter) ;;
     d <- dict.setitem PublicTradeFilter_hashable PublicTradeFilter_eq
            (_public_trades_streams c) public_trade_filter h ;;
     set_self (with_public c d)
   else ret tt) ;;;
  c <- get_self ;;
  h <- dict.getitem PublicTradeFilter_hashable PublicTradeFilter_eq
         (_public_trades_streams c) public_trade_filter ;;
  new_receiver h.

(** ** Partial update of an order *)

(** An updatable argument: the sentinel [NO_VALUE] it defaults to, or
    what the caller passed, [None] included. *)
Inductive Arg (A : Type) : Type :=
| NO_VALUE
| Passed (value : option A).
Arguments NO_VALUE {A}.
Arguments Passed {A} value.

(** [value is NO_VALUE] *)
Definition is_NO_VALUE {A} (a : Arg A) : bool :=
  match a with NO_VALUE => true | Passed _ => false end.

(** [None if value is NO_VALUE else value] *)
Definition None_if_NO_VALUE {A} (a : Arg A) : option A :=
  match a with NO_VALUE => None | Passed v => v end.

(** [await self._stub.UpdateGridpoolOrder(request)] *)
Definition call_UpdateGridpoolOrder
    (request : electricity_trading_pb2.UpdateGridpoolOrderRequest.t)
    : Io electricity_trading_pb2.UpdateGridpoolOrderResponse.t :=
  fun w =>
    (UpdateGridpoolOrder (_stub (self w)) request,
     {| runtime := runtime w; self := self w; helper_objs := helper_objs w;
        rpc_log := rpc_log w ++ [request] |}).

Definition nothing_to_update : PyExc :=
  ValueError "At least one field to update must be provided.".

Definition update_gridpool_order {C : PbConstants}
    (gridpool_id : Z)
    (order_id : Z)
    (price : Arg Price.t)
    (quantity : Arg Energy.t)
    (stop_price : Arg Price.t)
    (peak_price_delta : Arg Price.t)
    (display_quantity : Arg Energy.t)
    (execution_option : Arg OrderExecutionOption.t)
    (valid_until : Arg datetime)
    (payload : Arg PyDict)
    (tag : Arg string) : Io OrderDetail.t :=
  (* the values of [params] enter the code only through [is NO_VALUE] *)
  let params : list (string * bool) :=
    [("price"%string, is_NO_VALUE price);
     ("quantity"%string, is_NO_VALUE quantity);
     ("stop_price"%string, is_NO_VALUE stop_price);
     ("peak_price_delta"%string, is_NO_VALUE peak_price_delta);
     ("display_quantity"%string, is_NO_VALUE display_quantity);
     ("execution_option"%string, is_NO_VALUE execution_option);
     ("valid_until"%string, is_NO_VALUE valid_until);
     ("payload"%string, is_NO_VALUE payload);
     ("tag"%string, is_NO_VALUE tag)] in
  if forallb snd params then raise nothing_to_update
  else
    let paths := map fst (filter (fun p => negb (snd p)) params) in
    let update_mask := paths in
    let update_order_fields :=
      {| UpdateOrder.price := None_if_NO_VALUE price;
         UpdateOrder.quantity := None_if_NO_VALUE quantity;
         UpdateOrder.stop_price := None_if_NO_VALUE stop_price;
         UpdateOrder.peak_price_delta := None_if_NO_VALUE peak_price_delta;
         UpdateOrder.display_quantity := None_if_NO_VALUE display_quantity;
         UpdateOrder.execution_option := None_if_NO_VALUE execution_option;
         UpdateOrder.valid_until := None_if_NO_VALUE valid_until;
         UpdateOrder.payload := None_if_NO_VALUE payload;
         UpdateOrder.tag := None_if_NO_VALUE tag |} in
    request <- try
      (update_order_pb <~ UpdateOrder.to_pb update_order_fields ;;
       gridpool_id <~ int_field GridpoolId gridpool_id ;;
       order_id <~ int_field OrderId order_id ;;
       inr {| electricity_trading_pb2.UpdateGridpoolOrderRequest.gridpool_id :=
                Some gridpool_id;
              electricity_trading_pb2.UpdateGridpoolOrderRequest.order_id :=
                Some order_id;
              electricity_trading_pb2.UpdateGridpoolOrderRequest.update_order_fields :=
                Some update_order_pb;
              electricity_trading_pb2.UpdateGridpoolOrderRequest.update_mask :=
                Some update_mask |}) ;;
    response <- call_UpdateGridpoolOrder request ;;
    lift_py
      (OrderDetail.from_pb
         (get electricity_trading_pb2.OrderDetail.default
            (electricity_trading_pb2.UpdateGridpoolOrderResponse.order_detail
               response))).
End WithLib.
End Client.

Arguments Client.NO_VALUE {A}.
Arguments Client.Passed {A} value.

(** ** The methods that make one call *)

(** The other methods of [Client] send one request and decode the response.
    They touch no registry; the calls of the stub they use are given by
    [Stub]. *)
Module Calls.
Section WithLib.
Context {L : PyLib} {C : PbConstants}.

Record Stub : Type := {
  CreateGridpoolOrder :
    electricity_trading_pb2.CreateGridpoolOrderRequest.t ->
    PyExc + electricity_trading_pb2.CreateGridpoolOrderResponse.t;
  CancelGridpoolOrder :
    electricity_trading_pb2.CancelGridpoolOrderRequest.t ->
    PyExc + electricity_trading_pb2.CancelGridpoolOrderResponse.t;
  CancelAllGridpoolOrders :
    electricity_trading_pb2.CancelAllGridpoolOrdersRequest.t ->
    PyExc + electricity_trading_pb2.CancelAllGridpoolOrdersResponse.t;
  GetGridpoolOrder :
    electricity_trading_pb2.GetGridpoolOrderRequest.t ->
    PyExc + electricity_trading_pb2.GetGridpoolOrderResponse.t;
  ListGridpoolOrders :
    electricity_trading_pb2.ListGridpoolOrdersRequest.t ->
    PyExc + electricity_trading_pb2.ListGridpoolOrdersResponse.t;
  ListGridpoolTrades :
    electricity_trading_pb2.ListGridpoolTradesRequest.t ->
    PyExc + electricity_trading_pb2.ListGridpoolTradesResponse.t
}.

(** [await call]: the response, or the error of the call raised. *)
Definition await {A} (answer : PyExc + A) : Py A :=
  match answer with
  | inr response => ret response
  | inl e => raise e
  end.

Definition create_gridpool_order (_stub : Stub)
    (gridpool_id : Z)
    (delivery_area : DeliveryArea.t)
    (delivery_period : DeliveryPeriod.t)
    (order_type : OrderType.t)
    (side : MarketSide.t)
    (price : Price.t)
    (quantity : Energy.t)
    (stop_price : option Price.t)
    (peak_price_delta : option Price.t)
    (display_quantity : option Energy.t)
    (execution_option : option OrderExecutionOption.t)
    (valid_until : option datetime)
    (payload : option PyDict)
    (tag : option string) : Py OrderDetail.t :=
  let order :=
    {| Order.delivery_area := delivery_area;
       Order.delivery_period := delivery_period;
       Order.type := order_type;
       Order.side := side;
       Order.price := price;
       Order.quantity := quantity;
       Order.stop_price := stop_price;
       Order.peak_price_delta := peak_price_delta;
       Order.display_quantity := display_quantity;
       Order.execution_option := execution_option;
       Order.valid_until := valid_until;
       Order.payload := payload;
       Order.tag := tag |} in
  request <- try
    (order_pb <~ Order.to_pb order ;;
     gridpool_id <~ int_field GridpoolId gridpool_id ;;
     inr {| electricity_trading_pb2.CreateGridpoolOrderRequest.gridpool_id :=
              Some gridpool_id;
            electricity_trading_pb2.CreateGridpoolOrderRequest.order :=
              Some order_pb |}) ;;
  response <- await (CreateGridpoolOrder _stub request) ;;
  OrderDetail.from_pb
    (get electricity_trading_pb2.OrderDetail.default
       (electricity_trading_pb2.CreateGridpoolOrderResponse.order_detail response)).

Definition cancel_gridpool_order (_stub : Stub) (gridpool_id order_id : Z)
  : Py OrderDetail.t :=
  request <- try
    (gridpool_id <~ int_field GridpoolId gridpool_id ;;
     order_id <~ int_field OrderId order_id ;;
     inr {| electricity_trading_pb2.CancelGridpoolOrderRequest.gridpool_id :=
              Some gridpool_id;
            electricity_trading_pb2.CancelGridpoolOrderRequest.order_id :=
              Some order_id |}) ;;
  response <- await (CancelGridpoolOrder _stub request) ;;
  OrderDetail.from_pb
    (get electricity_trading_pb2.OrderDetail.default
       (electricity_trading_pb2.CancelGridpoolOrderResponse.order_detail response)).

Definition cancel_all_gridpool_orders (_stub : Stub) (gridpool_id : Z) : Py Z :=
  request <- try
    (gridpool_id <~ int_field GridpoolId gridpool_id ;;
     inr {| electricity_trading_pb2.CancelAllGridpoolOrdersRequest.gridpool_id :=
              Some gridpool_id |}) ;;
  response <- await (CancelAllGridpoolOrders _stub request) ;;
  ret (get 0 (electricity_trading_pb2.CancelAllGridpoolOrdersResponse.gridpool_id
                response)).

Definition get_gridpool_order (_stub : Stub) (gridpool_id order_id : Z)
  : Py OrderDetail.t :=
  request <- try
    (gridpool_id <~ int_field GridpoolId gridpool_id ;;
     order_id <~ int_field OrderId order_id ;;
     inr {| electricity_trading_pb2.GetGridpoolOrderRequest.gridpool_id :=
              Some gridpool_id;
            electricity_trading_pb2.GetGridpoolOrderRequest.order_id :=
              Some order_id |}) ;;
  response <- await (GetGridpoolOrder _stub request) ;;
  OrderDetail.from_pb
    (get electricity_trading_pb2.OrderDetail.default
       (electricity_trading_pb2.GetGridpoolOrderResponse.order_detail response)).

Definition list_gridpool_orders (_stub : Stub)
    (gridpool_id : Z)
    (order_states : option (list OrderState.t))
    (side : option MarketSide.t)
    (delivery_period : option DeliveryPeriod.t)
    (delivery_area : option DeliveryArea.t)
    (tag : option string)
    (max_nr_orders : option Z)
    (page_token : option string) : Py (list OrderDetail.t) :=
  let gridpool_order_filer :=
    {| GridpoolOrderFilter.order_states := order_states;
       GridpoolOrderFilter.side := side;
       GridpoolOrderFilter.delivery_period := delivery_period;
       GridpoolOrderFilter.delivery_area := delivery_area;
       GridpoolOrderFilter.tag := tag |} in
  let pagination_params :=
    {| PaginationParams.page_size := max_nr_orders;
       PaginationParams.page_token := page_token |} in
  request <- try
    (filter <~ GridpoolOrderFilter.to_pb gridpool_order_filer ;;
     pagination_params <~ PaginationParams.to_pb pagination_params ;;
     gridpool_id <~ int_field GridpoolId gridpool_id ;;
     inr {| electricity_trading_pb2.ListGridpoolOrdersRequest.gridpool_id :=
              Some gridpool_id;
            electricity_trading_pb2.ListGridpoolOrdersRequest.filter := Some filter;
            electricity_trading_pb2.ListGridpoolOrdersRequest.pagination_params :=
              Some pagination_params |}) ;;
  response <- await (ListGridpoolOrders _stub request) ;;
  list_map_m OrderDetail.from_pb
    (electricity_trading_pb2.ListGridpoolOrdersResponse.order_detail_lists response).

Definition list_gridpool_trades (_stub : Stub)
    (gridpool_id : Z)
    (trade_states : option (list TradeState.t))
    (trade_id_lists : option (list Z))
    (market_side : option MarketSide.t)
    (delivery_period : option DeliveryPeriod.t)
    (delivery_area : option DeliveryArea.t)
    (max_nr_orders : option Z)
    (page_token : option string) : Py (list Trade.t) :=
  let gridpool_trade_filter :=
    {| GridpoolTradeFilter.trade_states := trade_states;
       GridpoolTradeFilter.trade_id_lists := trade_id_lists;
       GridpoolTradeFilter.side := market_side;
       GridpoolTradeFilter.delivery_period := delivery_period;
       GridpoolTradeFilter.delivery_area := delivery_area |} in
  let pagination_params :=
    {| PaginationParams.page_size := max_nr_orders;
       PaginationParams.page_token := page_token |} in
  request <- try
    (filter <~ GridpoolTradeFilter.to_pb gridpool_trade_filter ;;
     pagination_params <~ PaginationParams.to_pb pagination_params ;;
     gridpool_id <~ int_field GridpoolId gridpool_id ;;
     inr {| electricity_trading_pb2.ListGridpoolTradesRequest.gridpool_id :=
              Some gridpool_id;
            electricity_trading_pb2.ListGridpoolTradesRequest.filter := Some filter;
            electricity_trading_pb2.ListGridpoolTradesRequest.pagination_params :=
              Some pagination_params |}) ;;
  response <- await (ListGridpoolTrades _stub request) ;;
  list_map_m Trade.from_pb
    (electricity_trading_pb2.ListGridpoolTradesResponse.trade_lists response).
End WithLib.

(** The request a helper builds when it runs its stream method: the
    argument of the call in the [lambda] the [stream_*] method gave it. *)
Inductive StreamRequest : Type :=
| OrdersStreamRequest (r : electricity_trading_pb2.ReceiveGridpoolOrdersStreamRequest.t)
| TradesStreamRequest (r : electricity_trading_pb2.ReceiveGridpoolTradesStreamRequest.t)
| PublicStreamRequest (r : electricity_trading_pb2.ReceivePublicTradesStreamRequest.t).

Definition stream_request {C : PbConstants} (m : GrpcStreamingHelper.StreamMethod)
  : Res StreamRequest :=
  match m with
  | GrpcStreamingHelper.ReceiveGridpoolOrdersStream gridpool_id gridpool_order_filter =>
      filter <~ GridpoolOrderFilter.to_pb gridpool_order_filter ;;
      gridpool_id <~ int_field GridpoolId gridpool_id ;;
      inr (OrdersStreamRequest
             {| electricity_trading_pb2.ReceiveGridpoolOrdersStreamRequest.gridpool_id :=
                  Some gridpool_id;
                electricity_trading_pb2.ReceiveGridpoolOrdersStreamRequest.filter :=
                  Some filter |})
  | GrpcStreamingHelper.ReceiveGridpoolTradesStream gridpool_id gridpool_trade_filter =>
      filter <~ GridpoolTradeFilter.to_pb gridpool_trade_filter ;;
      gridpool_id <~ int_field GridpoolId gridpool_id ;;
      inr (TradesStreamRequest
             {| electricity_trading_pb2.ReceiveGridpoolTradesStreamRequest.gridpool_id :=
                  Some gridpool_id;
                electricity_trading_pb2.ReceiveGridpoolTradesStreamRequest.filter :=
                  Some filter |})
  | GrpcStreamingHelper.ReceivePublicTradesStream public_trade_filter =>
      filter <~ PublicTradeFilter.to_pb public_trade_filter ;;
      inr (PublicStreamRequest
             {| electricity_trading_pb2.ReceivePublicTradesStreamRequest.filter :=
                  Some filter |})
  end.
End Calls.

(** * An instance of the parameters

    The numbers a schema gives the constants in order of declaration, and a
    small decimal and payload library: integer-valued decimals printed in
    base ten, payloads as association lists. The examples run on it. *)
Module Schema.
Definition Currency_numbers : WireValues Currency.t :=
  fun e => match e with
           | Currency.UNSPECIFIED => 0 | Currency.USD => 1 | Currency.CAD => 2
           | Currency.EUR => 3 | Currency.GBP => 4 | Currency.CHF => 5
           | Currency.CNY => 6 | Currency.JPY => 7 | Currency.AUD => 8
           | Currency.NZD => 9 | Currency.SGD => 10
           end.

Definition EnergyMarketCodeType_numbers : WireValues EnergyMarketCodeType.t :=
  fun e => match e with
           | EnergyMarketCodeType.UNSPECIFIED => 0
           | EnergyMarketCodeType.EUROPE_EIC => 1
           | EnergyMarketCodeType.US_NERC => 2
           end.

Definition DeliveryDuration_numbers : WireValues DeliveryDuration.t :=
  fun e => match e with
           | DeliveryDuration.UNSPECIFIED => 0
           | DeliveryDuration.MINUTES_5 => 1
           | DeliveryDuration.MINUTES_15 => 2
           | DeliveryDuration.MINUTES_30 => 3
           | DeliveryDuration.MINUTES_60 => 4
           end.

Definition OrderExecutionOption_numbers : WireValues OrderExecutionOption.t :=
  fun e => match e with
           | OrderExecutionOption.UNSPECIFIED => 0
           | OrderExecutionOption.NONE => 1
           | OrderExecutionOption.AON => 2
           | OrderExecutionOption.FOK => 3
           | OrderExecutionOption.IOC => 4
           end.

Definition OrderType_numbers : WireValues OrderType.t :=
  fun e => match e with
           | OrderType.UNSPECIFIED => 0 | OrderType.LIMIT => 1
           | OrderType.STOP_LIMIT => 2 | OrderType.ICEBERG => 3
           | OrderType.BLOCK => 4 | OrderType.BALANCE => 5
           | OrderType.PREARRANGED => 6 | OrderType.PRIVATE => 7
           end.

Definition MarketSide_numbers : WireValues MarketSide.t :=
  fun e => match e with
           | MarketSide.UNSPECIFIED => 0 | MarketSide.BUY => 1 | MarketSide.SELL => 2
           end.

Definition OrderState_numbers : WireValues OrderState.t :=
  fun e => match e with
           | OrderState.UNSPECIFIED => 0 | OrderState.PENDING => 1
           | OrderState.ACTIVE => 2 | OrderState.FILLED => 3
           | OrderState.CANCELED => 4 | OrderState.CANCEL_REQUESTED => 5
           | OrderState.CANCEL_REJECTED => 6 | OrderState.EXPIRED => 7
           | OrderState.FAILED => 8 | OrderState.HIBERNATE => 9
           end.

Definition TradeState_numbers : WireValues TradeState.t :=
  fun e => match e with
           | TradeState.UNSPECIFIED => 0 | TradeState.ACTIVE => 1
           | TradeState.CANCEL_REQUESTED => 2 | TradeState.CANCEL_REJECTED => 3
           | TradeState.CANCELED => 4 | TradeState.RECALL => 5
           | TradeState.RECALL_REQUESTED => 6 | TradeState.RECALL_REJECTED => 7
           | TradeState.APPROVAL_REQUESTED => 8
           end.

Definition StateReason_numbers : WireValues StateReason.t :=
  fun e => match e with
           | StateReason.UNSPECIFIED => 0 | StateReason.ADD => 1
           | StateReason.MODIFY => 2 | StateReason.DELETE => 3
           | StateReason.DEACTIVATE => 4 | StateReason.REJECT => 5
           | StateReason.FULL_EXECUTION => 6 | StateReason.PARTIAL_EXECUTION => 7
           | StateReason.ICEBERG_SLICE_ADD => 8 | StateReason.VALIDATION_FAIL => 9
           | StateReason.UNKNOWN_STATE => 10 | StateReason.QUOTE_ADD => 11
           | StateReason.QUOTE_FULL_EXECUTION => 12
           | StateReason.QUOTE_PARTIAL_EXECUTION => 13
           end.

Definition MarketActor_numbers : WireValues MarketActor.t :=
  fun e => match e with
           | MarketActor.UNSPECIFIED => 0 | MarketActor.USER => 1
           | MarketActor.MARKET_OPERATOR => 2 | MarketActor.SYSTEM => 3
           end.

(** Ids are unsigned 64-bit integers, the page size an unsigned 32-bit
    one. *)
Definition int_ranges (field : IntField) (value : Z) : bool :=
  match field with
  | PageSize => (0 <=? value) && (value <? 2 ^ 32)
  | _ => (0 <=? value) && (value <? 2 ^ 64)
  end.

Definition constants : PbConstants :=
  {| Currency_values := Currency_numbers;
     EnergyMarketCodeType_values := EnergyMarketCodeType_numbers;
     DeliveryDuration_values := DeliveryDuration_numbers;
     OrderExecutionOption_values := OrderExecutionOption_numbers;
     OrderType_values := OrderType_numbers;
     MarketSide_values := MarketSide_numbers;
     OrderState_values := OrderState_numbers;
     TradeState_values := TradeState_numbers;
     StateReason_values := StateReason_numbers;
     MarketActor_values := MarketActor_numbers;
     int_fits := int_ranges |}.

Definition lib : PyLib :=
  {| Decimal := Z;
     Decimal_str := fun d => NilZero.string_of_int (Z.to_int d);
     Decimal_new := fun s => option_map Z.of_int (NilZero.int_of_string s);
     PyDict := list (string * Z);
     dict_bool := list_bool;
     Struct := list (string * Z);
     Struct_bool := list_bool;
     Struct_default := [];
     Struct_new := fun d => d;
     MessageToDict := fun s => s |}.

(** A stub that answers every update with an empty response. *)
Definition stub : Client.Stub (L := lib) :=
  {| Client.UpdateGridpoolOrder := fun _ =>
       inr {| electricity_trading_pb2.UpdateGridpoolOrderResponse.order_detail :=
                None |} |}.
End Schema.

(** * What the properties are stated with *)

(** A wire value is recognized by an enum class when a member has it. *)
Definition recognized {E} (members : list E) (V : WireValues E) (w : Z) : Prop :=
  exists e, In e members /\ wire_value e = w.

(** Decoding a wire value of an enum never fails; a recognized value decodes
    silently to a member that encodes back to it, any other value decodes to
    [unspecified] with one warning about it in the log. *)
Definition enum_decoding {E} (members : list E) (V : WireValues E) (unspecified : E)
    (from_pb : Z -> Py E) (to_pb : E -> Z) : Prop :=
  forall (w : Z) (rt : Runtime),
    exists (e : E) (rt' : Runtime),
      from_pb w rt = (inr e, rt')
      /\ (recognized members V w -> to_pb e = w /\ rt' = rt)
      /\ (~ recognized members V w ->
          e = unspecified
          /\ next_id rt' = next_id rt
          /\ exists fmt, warnings rt' =
                         warnings rt ++ [{| log_fmt := fmt; log_arg := w |}]).

(** The lengths a delivery period may have, in minutes, and the enum member
    that stands for each. *)
Definition valid_minutes (m : Z) : Prop := m = 5 \/ m = 15 \/ m = 30 \/ m = 60.

Definition duration_of_minutes (m : Z) : DeliveryDuration.t :=
  if m =? 5 then DeliveryDuration.MINUTES_5
  else if m =? 15 then DeliveryDuration.MINUTES_15
  else if m =? 30 then DeliveryDuration.MINUTES_30
  else if m =? 60 then DeliveryDuration.MINUTES_60
  else DeliveryDuration.UNSPECIFIED.

(** A [timedelta] of 5, 15, 30 or 60 minutes. *)
Definition valid_duration (duration : timedelta) : Prop :=
  exists m, valid_minutes m /\ duration = timedelta_minutes m.

(** A wire value that is the constant of one of the four lengths. *)
Definition valid_wire_duration {C : PbConstants} (w : Z) : Prop :=
  exists m, valid_minutes m /\ w = wire_value (duration_of_minutes m).

(** The name of an updatable field when its argument was passed. *)
Definition name_if_passed {A} (name : string) (a : Client.Arg A) : list string :=
  match a with
  | Client.NO_VALUE => []
  | Client.Passed _ => [name]
  end.

Section UpdateArguments.
Context {L : PyLib}.
Variables (price : Client.Arg Price.t) (quantity : Client.Arg Energy.t)
          (stop_price peak_price_delta : Client.Arg Price.t)
          (display_quantity : Client.Arg Energy.t)
          (execution_option : Client.Arg OrderExecutionOption.t)
          (valid_until : Client.Arg datetime)
          (payload : Client.Arg PyDict)
          (tag : Client.Arg string).

(** The names of the fields passed, as a value or as [None], in the
    order of the signature. *)
Definition passed_names : list string :=
  name_if_passed "price" price
  ++ name_if_passed "quantity" quantity
  ++ name_if_passed "stop_price" stop_price
  ++ name_if_passed "peak_price_delta" peak_price_delta
  ++ name_if_passed "display_quantity" display_quantity
  ++ name_if_passed "execution_option" execution_option
  ++ name_if_passed "valid_until" valid_until
  ++ name_if_passed "payload" payload
  ++ name_if_passed "tag" tag.

(** Every one of the nine arguments was left at [NO_VALUE]. *)
Definition nothing_passed : Prop :=
  price = Client.NO_VALUE /\ quantity = Client.NO_VALUE
  /\ stop_price = Client.NO_VALUE /\ peak_price_delta = Client.NO_VALUE
  /\ display_quantity = Client.NO_VALUE /\ execution_option = Client.NO_VALUE
  /\ valid_until = Client.NO_VALUE /\ payload = Client.NO_VALUE
  /\ tag = Client.NO_VALUE.
End UpdateArguments.

(** ** Histories of a client *)

(** What can happen to a client and its helpers: a call of one of the three
    [stream_*] methods, or the upstream stream of a helper ending. *)
Inductive Event : Type :=
| StreamGridpoolOrders
    (gridpool_id : Z) (order_states : option (list OrderState.t))
    (market_side : option MarketSide.t) (delivery_area : option DeliveryArea.t)
    (delivery_period : option DeliveryPeriod.t) (tag : option string)
| StreamGridpoolTrades
    (gridpool_id : Z) (trade_states : option (list TradeState.t))
    (trade_ids : option (list Z)) (market_side : option MarketSide.t)
    (delivery_period : option DeliveryPeriod.t)
    (delivery_area : option DeliveryArea.t)
| StreamPublicTrades
    (states : option (list TradeState.t))
    (delivery_period : option DeliveryPeriod.t)
    (buy_delivery_area sell_delivery_area : option DeliveryArea.t)
| UpstreamTerminated (helper : nat).

Section Histories.
Context {L : PyLib}.

(** The world after an event; an exception leaves it as it was when raised. *)
Definition step (w : Client.World) (e : Event) : Client.World :=
  match e with
  | StreamGridpoolOrders gridpool_id order_states market_side delivery_area
                         delivery_period tag =>
      snd (Client.stream_gridpool_orders gridpool_id order_states market_side
             delivery_area delivery_period tag w)
  | StreamGridpoolTrades gridpool_id trade_states trade_ids market_side
                         delivery_period delivery_area =>
      snd (Client.stream_gridpool_trades gridpool_id trade_states trade_ids
             market_side delivery_period delivery_area w)
  | StreamPublicTrades states delivery_period buy_delivery_area sell_delivery_area =>
      snd (Client.stream_public_trades states delivery_period buy_delivery_area
             sell_delivery_area w)
  | UpstreamTerminated helper => snd (Client.upstream_terminated helper w)
  end.

Definition run (events : list Event) (w : Client.World) : Client.World :=
  fold_left step events w.

(** The identities of the helpers constructed so far, oldest first. *)
Definition constructed (w : Client.World) : list nat :=
  map GrpcStreamingHelper.hid (Client.helper_objs w).

(** [r] is a new receiver of helper [h]: an object the call created, the
    next in rank among the receivers of [h], and [h] has one receiver
    more after the call than before. *)
Definition new_receiver_of (h : nat) (r : Receiver) (w w' : Client.World) : Prop :=
  receiver_of r = h
  /\ (next_id (Client.runtime w) <= rid r < next_id (Client.runtime w'))%nat
  /\ receiver_index r = Client.receivers_of h (Client.helper_objs w)
  /\ Client.receivers_of h (Client.helper_objs w')
     = S (Client.receivers_of h (Client.helper_objs w)).

(** The three methods as functions of their stream key. *)
Definition orders_call (k : Z * GridpoolOrderFilter.t) : Client.Io Receiver :=
  Client.stream_gridpool_orders
    (fst k) (GridpoolOrderFilter.order_states (snd k))
    (GridpoolOrderFilter.side (snd k)) (GridpoolOrderFilter.delivery_area (snd k))
    (GridpoolOrderFilter.delivery_period (snd k)) (GridpoolOrderFilter.tag (snd k)).

Definition trades_call (k : Z * GridpoolTradeFilter.t) : Client.Io Receiver :=
  Client.stream_gridpool_trades
    (fst k) (GridpoolTradeFilter.trade_states (snd k))
    (GridpoolTradeFilter.trade_id_lists (snd k)) (GridpoolTradeFilter.side (snd k))
    (GridpoolTradeFilter.delivery_period (snd k))
    (GridpoolTradeFilter.delivery_area (snd k)).

Definition public_call (k : PublicTradeFilter.t) : Client.Io Receiver :=
  Client.stream_public_trades
    (PublicTradeFilter.states k) (PublicTradeFilter.delivery_period k)
    (PublicTradeFilter.buy_delivery_area k) (PublicTradeFilter.sell_delivery_area k).

Section Registry.
Context {K : Type} (hashable : K -> bool) (eqb : K -> K -> bool)
        (registry : Client.t -> dict.t (K := K) (V := nat))
        (call : K -> Client.Io Receiver).

(** No two entries of a registry have equal keys. *)
Definition at_most_one (d : dict.t (K := K) (V := nat)) : Prop :=
  forall i j a b,
    nth_error d i = Some a -> nth_error d j = Some b ->
    eqb (fst a) (fst b) = true -> i = j.

(** What a call with a hashable key does, by whether the key has an
    entry: with one, it returns a new receiver of the helper of the
    entry, constructs no helper and leaves the registry as it is; without
    one, it constructs one helper, appends the entry of the key to the
    registry, bound to that helper, and returns a new receiver of it. *)
Definition call_reuses_or_opens (w : Client.World) (k : K) : Prop :=
  exists r w',
    call k w = (inr r, w')
    /\ match dict.lookup eqb (registry (Client.self w)) k with
       | Some h =>
           receiver_of r = h
           /\ new_receiver_of h r w w'
           /\ registry (Client.self w') = registry (Client.self w)
           /\ constructed w' = constructed w
       | None =>
           constructed w' = constructed w ++ [receiver_of r]
           /\ registry (Client.self w') =
              registry (Client.self w) ++ [(k, receiver_of r)]
           /\ new_receiver_of (receiver_of r) r w w'
       end.

Definition coalesces (w : Client.World) : Prop :=
  at_most_one (registry (Client.self w))
  /\ forall k, hashable k = true -> call_reuses_or_opens w k.

(** Once a key is bound to a helper it stays bound to it, whatever
    happens next, and a later call with the key is served by that helper
    without a helper being constructed. *)
Definition entry_persists (w : Client.World) (events : list Event)
           (k : K) (h : nat) : Prop :=
  let w' := run events w in
  dict.lookup eqb (registry (Client.self w')) k = Some h
  /\ exists r w'',
      call k w' = (inr r, w'')
      /\ receiver_of r = h
      /\ constructed w'' = constructed w'.

(** The reading of the specification: when the upstream stream of the
    helper of a key has ended, the entry of the key is gone and the next
    call with the key constructs a helper. *)
Definition entry_removed_on_termination (w : Client.World) (k : K) (h : nat)
  : Prop :=
  let w' := step w (UpstreamTerminated h) in
  dict.lookup eqb (registry (Client.self w')) k = None
  /\ exists r w'',
      call k w' = (inr r, w'')
      /\ constructed w'' = constructed w' ++ [receiver_of r].
End Registry.
End Histories.

(** ** What decoding an encoding returns *)

(** A period with the start and duration of [p], as the object [n]. *)
Definition rebuilt (n : nat) (p : DeliveryPeriod.t) : DeliveryPeriod.t :=
  {| DeliveryPeriod.oid := n;
     DeliveryPeriod.start := DeliveryPeriod.start p;
     DeliveryPeriod.duration := DeliveryPeriod.duration p |}.

(** The runtime after one object was created. *)
Definition one_object_later (rt : Runtime) : Runtime :=
  {| next_id := S (next_id rt); warnings := warnings rt |}.

(** A period the constructor can have built. *)
Definition constructible (p : DeliveryPeriod.t) : Prop :=
  DeliveryPeriod.duration p <> DeliveryDuration.UNSPECIFIED.

(** A [datetime] that [FromDatetime] accepts: every naive one, and an
    aware one unless subtracting its offset leaves the range of
    [datetime]. *)
Definition encodable (dt : datetime) : Prop :=
  datetime.in_range (datetime.utc dt) = true.

(** A naive [datetime]; its fields are within the range of [datetime]. *)
Definition plain (dt : datetime) : Prop :=
  datetime.utcoffset dt = None /\ datetime.in_range (datetime.wall dt) = true.

(** A period that comes back from its encoding but for its identity:
    built by the constructor, with a naive start. *)
Definition Period_round_trips (p : DeliveryPeriod.t) : Prop :=
  constructible p /\ plain (DeliveryPeriod.start p).

(** What [ToDatetime] returns on a [Timestamp] in which nothing is set. *)
Definition epoch : datetime := datetime.naive 0.

(** The [Timestamp] that [FromDatetime] fills in from [dt]: the seconds
    of [dt] since the epoch in UTC, and the microseconds of [dt]. *)
Definition filled_from (dt : datetime) : Timestamp.t :=
  {| Timestamp.seconds := datetime.utc dt / 1000000;
     Timestamp.nanos := (datetime.wall dt mod 1000000) * 1000 |}.

(** What [ToDatetime] returns on the [Timestamp] that [FromDatetime]
    filled in from [dt]: the seconds of [dt] in UTC with the microseconds
    of [dt], as a naive [datetime]. It is [dt] when [dt] is naive. *)
Definition returned (dt : datetime) : datetime :=
  datetime.naive (datetime.utc dt / 1000000 * 1000000 + datetime.wall dt mod 1000000).

(** A period with the duration of [p] and the start that is returned for
    the start of [p], as the object [n]. *)
Definition decoded_period (n : nat) (p : DeliveryPeriod.t) : DeliveryPeriod.t :=
  {| DeliveryPeriod.oid := n;
     DeliveryPeriod.start := returned (DeliveryPeriod.start p);
     DeliveryPeriod.duration := DeliveryPeriod.duration p |}.

(** The message [to_pb] builds for a period whose start [FromDatetime]
    accepts. *)
Definition period_encoding {C : PbConstants} (p : DeliveryPeriod.t)
  : delivery_duration_pb2.DeliveryPeriod.t :=
  {| delivery_duration_pb2.DeliveryPeriod.start :=
       Some (filled_from (DeliveryPeriod.start p));
     delivery_duration_pb2.DeliveryPeriod.duration :=
       Some (DeliveryDuration.to_pb (DeliveryPeriod.duration p)) |}.

(** [from_pb(v.to_pb())] *)
Definition decode_encoding {A M} (to_pb : A -> Res M) (from_pb : M -> Py A) (v : A)
  : Py A :=
  m <- try (to_pb v) ;; from_pb m.

Section Replacing.
Context {L : PyLib}.

Definition Order_with_period (v : Order.t) (p : DeliveryPeriod.t) : Order.t :=
  {| Order.delivery_area := Order.delivery_area v;
     Order.delivery_period := p;
     Order.type := Order.type v;
     Order.side := Order.side v;
     Order.price := Order.price v;
     Order.quantity := Order.quantity v;
     Order.stop_price := Order.stop_price v;
     Order.peak_price_delta := Order.peak_price_delta v;
     Order.display_quantity := Order.display_quantity v;
     Order.execution_option := Order.execution_option v;
     Order.valid_until := Order.valid_until v;
     Order.payload := Order.payload v;
     Order.tag := Order.tag v |}.

Definition Trade_with (v : Trade.t) (p : DeliveryPeriod.t) (execution_time : datetime)
  : Trade.t :=
  {| Trade.id := Trade.id v;
     Trade.order_id := Trade.order_id v;
     Trade.side := Trade.side v;
     Trade.delivery_area := Trade.delivery_area v;
     Trade.delivery_period := p;
     Trade.execution_time := execution_time;
     Trade.price := Trade.price v;
     Trade.quantity := Trade.quantity v;
     Trade.state := Trade.state v |}.

Definition PublicTrade_with (v : PublicTrade.t) (p : DeliveryPeriod.t)
           (modification_time : datetime) : PublicTrade.t :=
  {| PublicTrade.public_trade_id := PublicTrade.public_trade_id v;
     PublicTrade.buy_delivery_area := PublicTrade.buy_delivery_area v;
     PublicTrade.sell_delivery_area := PublicTrade.sell_delivery_area v;
     PublicTrade.delivery_period := p;
     PublicTrade.modification_time := modification_time;
     PublicTrade.price := PublicTrade.price v;
     PublicTrade.quantity := PublicTrade.quantity v;
     PublicTrade.state := PublicTrade.state v |}.

Definition OrderDetail_with (v : OrderDetail.t) (order : Order.t)
           (create_time modification_time : datetime) : OrderDetail.t :=
  {| OrderDetail.order_id := OrderDetail.order_id v;
     OrderDetail.order := order;
     OrderDetail.state_detail := OrderDetail.state_detail v;
     OrderDetail.open_quantity := OrderDetail.open_quantity v;
     OrderDetail.filled_quantity := OrderDetail.filled_quantity v;
     OrderDetail.create_time := create_time;
     OrderDetail.modification_time := modification_time |}.

(** An order whose fields survive the two conversions: a period that
    does, a time limit that is a naive [datetime], no payload, and a tag
    that is not the empty string. *)
Definition Order_round_trips (v : Order.t) : Prop :=
  Period_round_trips (Order.delivery_period v)
  /\ (exists dt, Order.valid_until v = Some dt /\ plain dt)
  /\ Order.payload v = None
  /\ Order.tag v <> Some EmptyString.
End Replacing.

Section RoundTripping.
Context {L : PyLib} {C : PbConstants}.

(** A trade whose fields survive the two conversions but for the time of
    execution: a period that does, a time of execution that is a naive
    [datetime], and identifiers within the range of their fields. *)
Definition Trade_round_trips (v : Trade.t) : Prop :=
  Period_round_trips (Trade.delivery_period v)
  /\ plain (Trade.execution_time v)
  /\ int_fits TradeId (Trade.id v) = true
  /\ int_fits OrderId (Trade.order_id v) = true.

Definition PublicTrade_round_trips (v : PublicTrade.t) : Prop :=
  Period_round_trips (PublicTrade.delivery_period v)
  /\ plain (PublicTrade.modification_time v)
  /\ int_fits PublicTradeId (PublicTrade.public_trade_id v) = true.

Definition OrderDetail_round_trips (v : OrderDetail.t) : Prop :=
  Order_round_trips (OrderDetail.order v)
  /\ plain (OrderDetail.create_time v)
  /\ plain (OrderDetail.modification_time v)
  /\ int_fits OrderId (OrderDetail.order_id v) = true.

(** A trade the two conversions accept: a period built by the
    constructor, times [FromDatetime] accepts, identifiers within the
    range of their fields. *)
Definition Trade_encodable (v : Trade.t) : Prop :=
  constructible (Trade.delivery_period v)
  /\ encodable (DeliveryPeriod.start (Trade.delivery_period v))
  /\ encodable (Trade.execution_time v)
  /\ int_fits TradeId (Trade.id v) = true
  /\ int_fits OrderId (Trade.order_id v) = true.
End RoundTripping.

(** ** Bodies the embedded methods share *)

(** The body every [from_pb] of an enum class has. *)
Definition decode {E} (members : list E) (V : WireValues E) (unspecified : E)
    (fmt : string) (w : Z) : Py E :=
  if negb (any_value members wire_value w) then
    _logger_warning fmt w ;;; ret unspecified
  else by_value members wire_value w.

Section Subscribe.
Context {L : PyLib} {K : Type}
        (hashable : K -> bool) (eqb : K -> K -> bool)
        (registry : Client.t -> dict.t (K := K) (V := nat))
        (with_registry : Client.t -> dict.t (K := K) (V := nat) -> Client.t)
        (name : K -> GrpcStreamingHelper.StreamName)
        (method : K -> GrpcStreamingHelper.StreamMethod).

(** The body the three [stream_*] methods share, on their stream key. *)
Definition subscribe (k : K) : Client.Io Receiver :=
  c <- Client.get_self ;;
  present <- dict.contains hashable eqb (registry c) k ;;
  (if negb present then
     h <- Client.new_helper (name k) (method k) ;;
     d <- dict.setitem hashable eqb (registry c) k h ;;
     Client.set_self (with_registry c d)
   else ret tt) ;;;
  c <- Client.get_self ;;
  h <- dict.getitem hashable eqb (registry c) k ;;
  Client.new_receiver h.

Definition new_obj (h : nat) (k : K) : GrpcStreamingHelper.t :=
  {| GrpcStreamingHelper.hid := h;
     GrpcStreamingHelper.stream_name := name k;
     GrpcStreamingHelper.stream_method := method k;
     GrpcStreamingHelper.receivers := 0;
     GrpcStreamingHelper.running := true |}.
End Subscribe.

Section Registries.
Context {L : PyLib}.

(** The three [stream_*] methods are that body on their registry. *)
Definition orders_subscribe :=
  subscribe Client.orders_hashable Client.orders_eq
    Client._gridpool_orders_streams Client.with_orders
    GrpcStreamingHelper.NameOfOrdersKey
    (fun k => GrpcStreamingHelper.ReceiveGridpoolOrdersStream (fst k) (snd k)).

Definition trades_subscribe :=
  subscribe Client.trades_hashable Client.trades_eq
    Client._gridpool_trades_streams Client.with_trades
    (fun k => GrpcStreamingHelper.NameOfTradeFilter (snd k))
    (fun k => GrpcStreamingHelper.ReceiveGridpoolTradesStream (fst k) (snd k)).

Definition public_subscribe :=
  subscribe PublicTradeFilter_hashable PublicTradeFilter_eq
    Client._public_trades_streams Client.with_public
    GrpcStreamingHelper.NameOfPublicTradeFilter
    GrpcStreamingHelper.ReceivePublicTradesStream.

(** The client after an event: as before, or with one entry appended to
    one registry for a key that had none. *)
Inductive grown (c : Client.t) : Client.t -> Prop :=
| grown_same : grown c c
| grown_orders k h :
    dict.lookup Client.orders_eq (Client._gridpool_orders_streams c) k = None ->
    grown c (Client.with_orders c (Client._gridpool_orders_streams c ++ [(k, h)]))
| grown_trades k h :
    dict.lookup Client.trades_eq (Client._gridpool_trades_streams c) k = None ->
    grown c (Client.with_trades c (Client._gridpool_trades_streams c ++ [(k, h)]))
| grown_public k h :
    dict.lookup PublicTradeFilter_eq (Client._public_trades_streams c) k = None ->
    grown c (Client.with_public c (Client._public_trades_streams c ++ [(k, h)])).

(** No registry of the client holds two entries with equal keys. *)
Definition registries_at_most_one (c : Client.t) : Prop :=
  at_most_one Client.orders_eq (Client._gridpool_orders_streams c)
  /\ at_most_one Client.trades_eq (Client._gridpool_trades_streams c)
  /\ at_most_one PublicTradeFilter_eq (Client._public_trades_streams c).
End Registries.

(** ** Values the examples use *)
Module Examples.
Definition rt0 : Runtime := {| next_id := 0; warnings := [] |}.

Definition world0 : Client.World (L := Schema.lib) :=
  Client.initial_world Schema.stub.

(** A filter with no field set, as [PublicTradeFilter()] builds it. *)
Definition any_public_trade : PublicTradeFilter.t :=
  {| PublicTradeFilter.states := None;
     PublicTradeFilter.delivery_period := None;
     PublicTradeFilter.buy_delivery_area := None;
     PublicTradeFilter.sell_delivery_area := None |}.

Definition any_gridpool_order : GridpoolOrderFilter.t :=
  {| GridpoolOrderFilter.order_states := None;
     GridpoolOrderFilter.side := None;
     GridpoolOrderFilter.delivery_period := None;
     GridpoolOrderFilter.delivery_area := None;
     GridpoolOrderFilter.tag := None |}.

Definition area : DeliveryArea.t :=
  {| DeliveryArea.code := "10YDE-EON------1";
     DeliveryArea.code_type := EnergyMarketCodeType.EUROPE_EIC |}.

(** A quarter of an hour from 2024-01-01 00:00:00 UTC. *)
Definition period : DeliveryPeriod.t :=
  {| DeliveryPeriod.oid := 0;
     DeliveryPeriod.start := datetime.naive 1704067200000000;
     DeliveryPeriod.duration := DeliveryDuration.MINUTES_15 |}.

(** The runtime in which [period] exists: one object was created. *)
Definition rt1 : Runtime := {| next_id := 1; warnings := [] |}.

Definition price : Price.t (L := Schema.lib) :=
  {| Price.amount := (50 : Decimal (PyLib := Schema.lib));
     Price.currency := Currency.EUR |}.

Definition energy : Energy.t (L := Schema.lib) :=
  {| Energy.mwh := (3 : Decimal (PyLib := Schema.lib)) |}.

(** An order with a time limit and a tag, and one where neither is given
    but for an empty tag. *)
Definition order : Order.t (L := Schema.lib) :=
  {| Order.delivery_area := area;
     Order.delivery_period := period;
     Order.type := OrderType.LIMIT;
     Order.side := MarketSide.BUY;
     Order.price := price;
     Order.quantity := energy;
     Order.stop_price := None;
     Order.peak_price_delta := None;
     Order.display_quantity := Some energy;
     Order.execution_option := Some OrderExecutionOption.AON;
     Order.valid_until := Some (datetime.naive 1704068100000000);
     Order.payload := None;
     Order.tag := Some "peak"%string |}.

Definition bare_order : Order.t (L := Schema.lib) :=
  {| Order.delivery_area := area;
     Order.delivery_period := period;
     Order.type := OrderType.LIMIT;
     Order.side := MarketSide.BUY;
     Order.price := price;
     Order.quantity := energy;
     Order.stop_price := None;
     Order.peak_price_delta := None;
     Order.display_quantity := None;
     Order.execution_option := None;
     Order.valid_until := None;
     Order.payload := None;
     Order.tag := Some EmptyString |}.

Definition trade : Trade.t (L := Schema.lib) :=
  {| Trade.id := 7;
     Trade.order_id := 12;
     Trade.side := MarketSide.SELL;
     Trade.delivery_area := area;
     Trade.delivery_period := period;
     Trade.execution_time := datetime.naive 1704067000000000;
     Trade.price := price;
     Trade.quantity := energy;
     Trade.state := TradeState.ACTIVE |}.

Definition public_trade : PublicTrade.t (L := Schema.lib) :=
  {| PublicTrade.public_trade_id := 99;
     PublicTrade.buy_delivery_area := area;
     PublicTrade.sell_delivery_area := area;
     PublicTrade.delivery_period := period;
     PublicTrade.modification_time := datetime.naive 1704067000000000;
     PublicTrade.price := price;
     PublicTrade.quantity := energy;
     PublicTrade.state := TradeState.ACTIVE |}.

Definition order_detail : OrderDetail.t (L := Schema.lib) :=
  {| OrderDetail.order_id := 12;
     OrderDetail.order := order;
     OrderDetail.state_detail :=
       {| StateDetail.state := OrderState.ACTIVE;
          StateDetail.state_reason := StateReason.ADD;
          StateDetail.market_actor := MarketActor.USER |};
     OrderDetail.open_quantity := energy;
     OrderDetail.filled_quantity := energy;
     OrderDetail.create_time := datetime.naive 1704067000000000;
     OrderDetail.modification_time := datetime.naive 1704067000000000 |}.

(** The encoding of [period]. *)
Definition period_pb : delivery_duration_pb2.DeliveryPeriod.t :=
  {| delivery_duration_pb2.DeliveryPeriod.start :=
       Some {| Timestamp.seconds := 1704067200; Timestamp.nanos := 0 |};
     delivery_duration_pb2.DeliveryPeriod.duration := Some 2 |}.

(** The encodings of [trade] and of [order_detail]. *)
Definition trade_pb : electricity_trading_pb2.Trade.t :=
  {| electricity_trading_pb2.Trade.id := Some 7;
     electricity_trading_pb2.Trade.order_id := Some 12;
     electricity_trading_pb2.Trade.side :=
       Some (Schema.MarketSide_numbers MarketSide.SELL);
     electricity_trading_pb2.Trade.delivery_area :=
       Some (DeliveryArea.to_pb (C := Schema.constants) area);
     electricity_trading_pb2.Trade.delivery_period := Some period_pb;
     electricity_trading_pb2.Trade.execution_time := None;
     electricity_trading_pb2.Trade.price :=
       Some (Price.to_pb (C := Schema.constants) price);
     electricity_trading_pb2.Trade.quantity := Some (Energy.to_pb energy);
     electricity_trading_pb2.Trade.state :=
       Some (Schema.TradeState_numbers TradeState.ACTIVE) |}.

Definition order_pb : electricity_trading_pb2.Order.t (L := Schema.lib) :=
  {| electricity_trading_pb2.Order.delivery_area :=
       Some (DeliveryArea.to_pb (C := Schema.constants) area);
     electricity_trading_pb2.Order.delivery_period := Some period_pb;
     electricity_trading_pb2.Order.type :=
       Some (Schema.OrderType_numbers OrderType.LIMIT);
     electricity_trading_pb2.Order.side :=
       Some (Schema.MarketSide_numbers MarketSide.BUY);
     electricity_trading_pb2.Order.price :=
       Some (Price.to_pb (C := Schema.constants) price);
     electricity_trading_pb2.Order.quantity := Some (Energy.to_pb energy);
     electricity_trading_pb2.Order.stop_price := None;
     electricity_trading_pb2.Order.peak_price_delta := None;
     electricity_trading_pb2.Order.display_quantity := Some (Energy.to_pb energy);
     electricity_trading_pb2.Order.execution_option :=
       Some (Schema.OrderExecutionOption_numbers
               OrderExecutionOption.AON);
     electricity_trading_pb2.Order.valid_until :=
       Some {| Timestamp.seconds := 1704068100; Timestamp.nanos := 0 |};
     electricity_trading_pb2.Order.payload := None;
     electricity_trading_pb2.Order.tag := Some "peak"%string |}.

Definition order_detail_pb : electricity_trading_pb2.OrderDetail.t (L := Schema.lib) :=
  {| electricity_trading_pb2.OrderDetail.order_id := Some 12;
     electricity_trading_pb2.OrderDetail.order := Some order_pb;
     electricity_trading_pb2.OrderDetail.state_detail :=
       Some (StateDetail.to_pb (C := Schema.constants)
               (OrderDetail.state_detail order_detail));
     electricity_trading_pb2.OrderDetail.open_quantity := Some (Energy.to_pb energy);
     electricity_trading_pb2.OrderDetail.filled_quantity :=
       Some (Energy.to_pb energy);
     electricity_trading_pb2.OrderDetail.create_time := None;
     electricity_trading_pb2.OrderDetail.modification_time := None |}.

(** A filter message in which only the delivery period is set. *)
Definition period_only_filter_pb : electricity_trading_pb2.GridpoolOrderFilter.t :=
  {| electricity_trading_pb2.GridpoolOrderFilter.states := [];
     electricity_trading_pb2.GridpoolOrderFilter.side := None;
     electricity_trading_pb2.GridpoolOrderFilter.delivery_period := Some period_pb;
     electricity_trading_pb2.GridpoolOrderFilter.delivery_area := None;
     electricity_trading_pb2.GridpoolOrderFilter.tag := None |}.

(** Two periods are built, each as [DeliveryPeriod(start, timedelta(minutes=15))]
    with the same start, and gridpool 1 is subscribed to once with each. *)
Definition subscribe_with_two_equal_periods
  : Client.Io (L := Schema.lib)
      (DeliveryPeriod.t * DeliveryPeriod.t * Receiver * Receiver) :=
  p1 <- Client.lift_py
          (DeliveryPeriod.__init__ (datetime.naive 0) (timedelta_minutes 15)) ;;
  p2 <- Client.lift_py
          (DeliveryPeriod.__init__ (datetime.naive 0) (timedelta_minutes 15)) ;;
  r1 <- Client.stream_gridpool_orders 1 None None None (Some p1) None ;;
  r2 <- Client.stream_gridpool_orders 1 None None None (Some p2) None ;;
  ret (p1, p2, r1, r2).
End Examples.

(** * What the further properties are stated with *)

(** The wire duration [DeliveryPeriod.from_pb] reads from the period field
    of a message, set or not. *)
Definition wire_duration_of
    (delivery_period : option delivery_duration_pb2.DeliveryPeriod.t) : Z :=
  get 0 (delivery_duration_pb2.DeliveryPeriod.duration
           (get delivery_duration_pb2.DeliveryPeriod.default delivery_period)).

(** The start [DeliveryPeriod.from_pb] reads from the period field of a
    message, set or not. *)
Definition wire_start_of
    (delivery_period : option delivery_duration_pb2.DeliveryPeriod.t) : Timestamp.t :=
  get Timestamp.new
    (delivery_duration_pb2.DeliveryPeriod.start
       (get delivery_duration_pb2.DeliveryPeriod.default delivery_period)).

(** A period field that decodes: its start is within the range of
    [datetime] and its duration is the constant of one of the four
    lengths. *)
Definition period_accepted {C : PbConstants}
    (delivery_period : option delivery_duration_pb2.DeliveryPeriod.t) : Prop :=
  (exists dt, Timestamp.ToDatetime (wire_start_of delivery_period) = inr dt)
  /\ valid_wire_duration (wire_duration_of delivery_period).

(** A [Timestamp] within the range of [datetime]: [ToDatetime] returns. *)
Definition readable (ts : Timestamp.t) : Prop :=
  exists dt, Timestamp.ToDatetime ts = inr dt.

(** A period field that does not decode: its start is out of the range of
    [datetime], or its duration is not the constant of one of the four
    lengths. *)
Definition period_refused {C : PbConstants}
    (delivery_period : option delivery_duration_pb2.DeliveryPeriod.t) : Prop :=
  ~ readable (wire_start_of delivery_period)
  \/ ~ valid_wire_duration (wire_duration_of delivery_period).

(** The error such a field is refused with: the start is read first. *)
Definition period_error
    (delivery_period : option delivery_duration_pb2.DeliveryPeriod.t) : PyExc :=
  match Timestamp.ToDatetime (wire_start_of delivery_period) with
  | inl e => e
  | inr _ => DeliveryPeriod.invalid_duration
  end.

(** The period field of the order of an order detail, set or not. *)
Definition period_of_detail {L : PyLib}
    (order_detail : electricity_trading_pb2.OrderDetail.t)
  : option delivery_duration_pb2.DeliveryPeriod.t :=
  electricity_trading_pb2.Order.delivery_period
    (get electricity_trading_pb2.Order.default
       (electricity_trading_pb2.OrderDetail.order order_detail)).

(** The name of a field of a message when the field is set. *)
Definition name_if_set {A} (name : string) (field : option A) : list string :=
  if HasField field then [name] else [].

(** The names of the fields set in an [UpdateOrder] message. *)
Definition set_fields {L : PyLib} (u : electricity_trading_pb2.UpdateOrder.t)
  : list string :=
  name_if_set "price" (electricity_trading_pb2.UpdateOrder.price u)
  ++ name_if_set "quantity" (electricity_trading_pb2.UpdateOrder.quantity u)
  ++ name_if_set "stop_price" (electricity_trading_pb2.UpdateOrder.stop_price u)
  ++ name_if_set "peak_price_delta"
       (electricity_trading_pb2.UpdateOrder.peak_price_delta u)
  ++ name_if_set "display_quantity"
       (electricity_trading_pb2.UpdateOrder.display_quantity u)
  ++ name_if_set "execution_option"
       (electricity_trading_pb2.UpdateOrder.execution_option u)
  ++ name_if_set "valid_until" (electricity_trading_pb2.UpdateOrder.valid_until u)
  ++ name_if_set "payload" (electricity_trading_pb2.UpdateOrder.payload u)
  ++ name_if_set "tag" (electricity_trading_pb2.UpdateOrder.tag u).

Section Backing.
Context {L : PyLib}.

(** The entries of the three registries, each with the stream name and
    the stream method its [stream_*] method gives the helper of the key. *)
Definition entries (c : Client.t)
  : list (GrpcStreamingHelper.StreamName * GrpcStreamingHelper.StreamMethod * nat) :=
  map (fun e : Z * GridpoolOrderFilter.t * nat =>
         (GrpcStreamingHelper.NameOfOrdersKey (fst e),
          GrpcStreamingHelper.ReceiveGridpoolOrdersStream (fst (fst e)) (snd (fst e)),
          snd e))
      (Client._gridpool_orders_streams c)
  ++ map (fun e : Z * GridpoolTradeFilter.t * nat =>
            (GrpcStreamingHelper.NameOfTradeFilter (snd (fst e)),
             GrpcStreamingHelper.ReceiveGridpoolTradesStream (fst (fst e)) (snd (fst e)),
             snd e))
         (Client._gridpool_trades_streams c)
  ++ map (fun e : PublicTradeFilter.t * nat =>
            (GrpcStreamingHelper.NameOfPublicTradeFilter (fst e),
             GrpcStreamingHelper.ReceivePublicTradesStream (fst e),
             snd e))
         (Client._public_trades_streams c).

(** The helpers the entries of the three registries refer to. *)
Definition helper_refs (c : Client.t) : list nat := map snd (entries c).

(** Among [objs] there is the helper [h], constructed with this name and
    this stream method. *)
Definition backed_by (objs : list GrpcStreamingHelper.t) (h : nat)
    (name : GrpcStreamingHelper.StreamName)
    (method : GrpcStreamingHelper.StreamMethod) : Prop :=
  exists o, In o objs
            /\ GrpcStreamingHelper.hid o = h
            /\ GrpcStreamingHelper.stream_name o = name
            /\ GrpcStreamingHelper.stream_method o = method.

(** Every entry of a registry refers to a helper among [objs] that was
    constructed for the key of the entry. *)
Definition entries_backed (c : Client.t) (objs : list GrpcStreamingHelper.t) : Prop :=
  Forall (fun e => backed_by objs (snd e) (fst (fst e)) (snd (fst e))) (entries c).

(** The registries of [c] and the helpers [objs] correspond: every entry
    is backed, every helper is referred to by one entry and no other, and
    the helpers are distinct objects created before object [n]. *)
Definition helpers_correspond (c : Client.t) (objs : list GrpcStreamingHelper.t)
    (n : nat) : Prop :=
  entries_backed c objs
  /\ Permutation (helper_refs c) (map GrpcStreamingHelper.hid objs)
  /\ NoDup (map GrpcStreamingHelper.hid objs)
  /\ Forall (fun o => (GrpcStreamingHelper.hid o < n)%nat) objs.

(** What [update_helper] may do to a helper: anything that leaves its
    identity, its name and its stream method as they are. *)
Definition keeps_construction (f : GrpcStreamingHelper.t -> GrpcStreamingHelper.t)
  : Prop :=
  forall o, GrpcStreamingHelper.hid (f o) = GrpcStreamingHelper.hid o
            /\ GrpcStreamingHelper.stream_name (f o) = GrpcStreamingHelper.stream_name o
            /\ GrpcStreamingHelper.stream_method (f o)
               = GrpcStreamingHelper.stream_method o.
End Backing.

Section Numbered.
Context {L : PyLib}.

(** The trades [vs] as decoding returns them: each around a new period
    with the start that is returned for its start, the periods numbered
    from [n] on, and with the epoch as time of execution. *)
Fixpoint Trades_decoded (n : nat) (vs : list Trade.t) : list Trade.t :=
  match vs with
  | [] => []
  | v :: vs' =>
      Trade_with v (decoded_period n (Trade.delivery_period v)) epoch
      :: Trades_decoded (S n) vs'
  end.
End Numbered.

(** The runtime after [n] objects were created. *)
Definition objects_later (n : nat) (rt : Runtime) : Runtime :=
  {| next_id := (n + next_id rt)%nat; warnings := warnings rt |}.

(** ** The exceptions of a computation *)

(** Whatever the state it is run in, the computation returns or raises
    one of the [allowed] exceptions. *)
Definition raises_only {S A} (allowed : list PyExc) (m : StE S A) : Prop :=
  forall s, match fst (m s) with
            | inl e => In e allowed
            | inr _ => True
            end.

(** The same with the allowed exceptions given by a property. *)
Definition raises_within {S A} (allowed : PyExc -> Prop) (m : StE S A) : Prop :=
  forall s, match fst (m s) with
            | inl e => allowed e
            | inr _ => True
            end.

(** A conversion to a message returns or raises one of the [allowed]
    exceptions. *)
Definition fails_only {A} (allowed : list PyExc) (r : Res A) : Prop :=
  forall e, r = inl e -> In e allowed.

(** The exception is what some call through the stub is answered with. *)
Definition answered_with {Req Resp} (call : Req -> PyExc + Resp) (e : PyExc) : Prop :=
  exists request, call request = inl e.

(** The exceptions of the conversions: the [ValueError] of a delivery
    period, [decimal.InvalidOperation], and the [OverflowError] of a time
    out of the range of [datetime]. *)
Definition conversion_errors : list PyExc :=
  [DeliveryPeriod.invalid_duration; InvalidOperation; OverflowError].

(** The page size that is passed, if any, and the trade identifiers
    that are sent. *)
Definition size_of (max_nr_orders : option Z) : list Z :=
  match max_nr_orders with Some size => [size] | None => [] end.

Definition ids_of (trade_id_lists : option (list Z)) : list Z :=
  get [] (py_if list_bool trade_id_lists (fun l => l)).

(** ** Values the further examples use *)
Module Answers.
(** An update that sets a price and a tag and passes no time limit. *)
Definition update_order : UpdateOrder.t (L := Schema.lib) :=
  {| UpdateOrder.price := Some Examples.price;
     UpdateOrder.quantity := None;
     UpdateOrder.stop_price := None;
     UpdateOrder.peak_price_delta := None;
     UpdateOrder.display_quantity := Some Examples.energy;
     UpdateOrder.execution_option := Some OrderExecutionOption.FOK;
     UpdateOrder.valid_until := None;
     UpdateOrder.payload := None;
     UpdateOrder.tag := Some "peak"%string |}.

(** A service that answers every call with the response in which no
    field is set, but lists the given trades and order details. *)
Definition service (trades : list electricity_trading_pb2.Trade.t)
    (details : list (electricity_trading_pb2.OrderDetail.t (L := Schema.lib)))
  : Calls.Stub (L := Schema.lib) :=
  {| Calls.CreateGridpoolOrder := fun _ =>
       inr {| electricity_trading_pb2.CreateGridpoolOrderResponse.order_detail := None |};
     Calls.CancelGridpoolOrder := fun _ =>
       inr {| electricity_trading_pb2.CancelGridpoolOrderResponse.order_detail := None |};
     Calls.CancelAllGridpoolOrders := fun _ =>
       inr {| electricity_trading_pb2.CancelAllGridpoolOrdersResponse.gridpool_id := None |};
     Calls.GetGridpoolOrder := fun _ =>
       inr {| electricity_trading_pb2.GetGridpoolOrderResponse.order_detail := None |};
     Calls.ListGridpoolOrders := fun _ =>
       inr {| electricity_trading_pb2.ListGridpoolOrdersResponse.order_detail_lists :=
                details |};
     Calls.ListGridpoolTrades := fun _ =>
       inr {| electricity_trading_pb2.ListGridpoolTradesResponse.trade_lists :=
                trades |} |}.
End Answers.

(** * Properties *)

Lemma Schema_constants_laws : PbConstantsLaws Schema.constants.
Proof.
  split; try reflexivity;
    intros a b; destruct a; destruct b; cbn; intro H;
    first [ reflexivity | discriminate H ].
Qed.

Lemma Schema_lib_laws : PyLibLaws Schema.lib.
Proof.
  split; [ | reflexivity ].
  intro d. cbn.
  rewrite NilZero.isi.
  - cbn. now rewrite DecimalZ.of_to.
  - destruct d; cbn; try discriminate.
    intros [= H]. now apply DecimalPos.Unsigned.to_uint_nonnil in H.
  - destruct d; cbn; try discriminate.
    intros [= H]. now apply DecimalPos.Unsigned.to_uint_nonnil in H.
Qed.

(** ** Enum classes *)

Section EnumFacts.
Context {E : Type} (members : list E) (V : WireValues E).

Lemma any_value_recognized (w : Z) :
  any_value members wire_value w = true <-> recognized members V w.
Proof.
  unfold any_value, recognized. rewrite existsb_exists.
  split; intros (e & Hin & He); exists e; split; auto.
  - now apply Z.eqb_eq.
  - now apply Z.eqb_eq.
Qed.

Lemma by_value_recognized {S} (w : Z) :
  recognized members V w ->
  exists e, In e members /\ wire_value e = w
            /\ forall s : S, by_value members wire_value w s = (inr e, s).
Proof.
  intros (e0 & Hin & He). unfold by_value.
  destruct (find (fun e => wire_value e =? w) members) as [e|] eqn:Hf.
  - apply find_some in Hf as [Hin' Heq]. apply Z.eqb_eq in Heq.
    exists e. auto.
  - exfalso. apply (find_none _ _ Hf) in Hin.
    apply Z.eqb_neq in Hin. contradiction.
Qed.

(** With pairwise distinct numbers, the member found for the number of a
    member is that member. *)
Lemma by_value_wire_value {S} (e : E) :
  distinct_values V -> In e members ->
  forall s : S, by_value members wire_value (wire_value e) s = (inr e, s).
Proof.
  intros Hd Hin s.
  destruct (by_value_recognized (S := S) (wire_value e)) as (e' & _ & He' & Hrun).
  - exists e. auto.
  - rewrite Hrun. now rewrite (Hd _ _ He').
Qed.

Section Decode.
Context (unspecified : E) (fmt : string).

Local Abbreviation dec := (decode members V unspecified fmt).

Lemma decode_enum_decoding :
  enum_decoding members V unspecified dec wire_value.
Proof.
  intros w rt. unfold decode.
  destruct (any_value members wire_value w) eqn:Hany; cbn [negb].
  - apply any_value_recognized in Hany.
    destruct (by_value_recognized (S := Runtime) w Hany) as (e & _ & He & Hrun).
    exists e, rt. rewrite Hrun. split; [reflexivity|]. split.
    + auto.
    + intro Hn. contradiction.
  - assert (Hn : ~ recognized members V w).
    { intro Hr. apply any_value_recognized in Hr. congruence. }
    eexists. eexists. split; [reflexivity|]. split.
    + intro Hr. contradiction.
    + intros _. cbn. split; [reflexivity|]. split; [reflexivity|].
      exists fmt. reflexivity.
Qed.

Lemma decode_wire_value (e : E) :
  distinct_values V -> In e members ->
  forall rt, dec (wire_value e) rt = (inr e, rt).
Proof.
  intros Hd Hin rt. unfold decode.
  assert (Hany : any_value members wire_value (wire_value e) = true).
  { apply any_value_recognized. exists e. auto. }
  rewrite Hany. cbn [negb]. now apply by_value_wire_value.
Qed.

Lemma decode_total (w : Z) (rt : Runtime) :
  exists e rt', dec w rt = (inr e, rt').
Proof.
  destruct (decode_enum_decoding w rt) as (e & rt' & H & _). eauto.
Qed.
End Decode.
End EnumFacts.

(** C7. For each of the ten enum classes, [from_pb] returns on every wire
    value: on a value no member has it returns [UNSPECIFIED] and logs one
    warning about that value, and on the value of a member it returns,
    without a warning, a member whose [to_pb] is that value. *)
Theorem enum_from_pb_total_and_to_pb_inverse (C : PbConstants) :
  enum_decoding Currency.members _ Currency.UNSPECIFIED
                Currency.from_pb Currency.to_pb
  /\ enum_decoding EnergyMarketCodeType.members _ EnergyMarketCodeType.UNSPECIFIED
                   EnergyMarketCodeType.from_pb EnergyMarketCodeType.to_pb
  /\ enum_decoding DeliveryDuration.members _ DeliveryDuration.UNSPECIFIED
                   DeliveryDuration.from_pb DeliveryDuration.to_pb
  /\ enum_decoding OrderExecutionOption.members _ OrderExecutionOption.UNSPECIFIED
                   OrderExecutionOption.from_pb OrderExecutionOption.to_pb
  /\ enum_decoding OrderType.members _ OrderType.UNSPECIFIED
                   OrderType.from_pb OrderType.to_pb
  /\ enum_decoding MarketSide.members _ MarketSide.UNSPECIFIED
                   MarketSide.from_pb MarketSide.to_pb
  /\ enum_decoding OrderState.members _ OrderState.UNSPECIFIED
                   OrderState.from_pb OrderState.to_pb
  /\ enum_decoding TradeState.members _ TradeState.UNSPECIFIED
                   TradeState.from_pb TradeState.to_pb
  /\ enum_decoding StateReason.members _ StateReason.UNSPECIFIED
                   StateReason.from_pb StateReason.to_pb
  /\ enum_decoding MarketActor.members _ MarketActor.UNSPECIFIED
                   MarketActor.from_pb MarketActor.to_pb.
Proof.
  repeat split; apply decode_enum_decoding.
Qed.

(** Decoding the constant of a member gives the member back. *)
Ltac member_of_list := repeat (first [ left; reflexivity | right ]).

Section EnumRoundTrip.
Context {C : PbConstants}.

Lemma Currency_from_pb_to_pb (e : Currency.t) rt :
  distinct_values Currency_values ->
  Currency.from_pb (Currency.to_pb e) rt = (inr e, rt).
Proof.
  intro Hd. apply (decode_wire_value Currency.members _); auto.
  destruct e; cbn; member_of_list.
Qed.

Lemma EnergyMarketCodeType_from_pb_to_pb (e : EnergyMarketCodeType.t) rt :
  distinct_values EnergyMarketCodeType_values ->
  EnergyMarketCodeType.from_pb (EnergyMarketCodeType.to_pb e) rt = (inr e, rt).
Proof.
  intro Hd. apply (decode_wire_value EnergyMarketCodeType.members _); auto.
  destruct e; cbn; member_of_list.
Qed.

Lemma DeliveryDuration_from_pb_to_pb (e : DeliveryDuration.t) rt :
  distinct_values DeliveryDuration_values ->
  DeliveryDuration.from_pb (DeliveryDuration.to_pb e) rt = (inr e, rt).
Proof.
  intro Hd. apply (decode_wire_value DeliveryDuration.members _); auto.
  destruct e; cbn; member_of_list.
Qed.

Lemma OrderExecutionOption_from_pb_to_pb (e : OrderExecutionOption.t) rt :
  distinct_values OrderExecutionOption_values ->
  OrderExecutionOption.from_pb (OrderExecutionOption.to_pb e) rt = (inr e, rt).
Proof.
  intro Hd. apply (decode_wire_value OrderExecutionOption.members _); auto.
  destruct e; cbn; member_of_list.
Qed.

Lemma OrderType_from_pb_to_pb (e : OrderType.t) rt :
  distinct_values OrderType_values ->
  OrderType.from_pb (OrderType.to_pb e) rt = (inr e, rt).
Proof.
  intro Hd. apply (decode_wire_value OrderType.members _); auto.
  destruct e; cbn; member_of_list.
Qed.

Lemma MarketSide_from_pb_to_pb (e : MarketSide.t) rt :
  distinct_values MarketSide_values ->
  MarketSide.from_pb (MarketSide.to_pb e) rt = (inr e, rt).
Proof.
  intro Hd. apply (decode_wire_value MarketSide.members _); auto.
  destruct e; cbn; member_of_list.
Qed.

Lemma OrderState_from_pb_to_pb (e : OrderState.t) rt :
  distinct_values OrderState_values ->
  OrderState.from_pb (OrderState.to_pb e) rt = (inr e, rt).
Proof.
  intro Hd. apply (decode_wire_value OrderState.members _); auto.
  destruct e; cbn; member_of_list.
Qed.

Lemma TradeState_from_pb_to_pb (e : TradeState.t) rt :
  distinct_values TradeState_values ->
  TradeState.from_pb (TradeState.to_pb e) rt = (inr e, rt).
Proof.
  intro Hd. apply (decode_wire_value TradeState.members _); auto.
  destruct e; cbn; member_of_list.
Qed.

Lemma StateReason_from_pb_to_pb (e : StateReason.t) rt :
  distinct_values StateReason_values ->
  StateReason.from_pb (StateReason.to_pb e) rt = (inr e, rt).
Proof.
  intro Hd. apply (decode_wire_value StateReason.members _); auto.
  destruct e; cbn; member_of_list.
Qed.

Lemma MarketActor_from_pb_to_pb (e : MarketActor.t) rt :
  distinct_values MarketActor_values ->
  MarketActor.from_pb (MarketActor.to_pb e) rt = (inr e, rt).
Proof.
  intro Hd. apply (decode_wire_value MarketActor.members _); auto.
  destruct e; cbn; member_of_list.
Qed.
End EnumRoundTrip.

(** ** Delivery periods *)

Lemma res_bind_ok {A B} (r : Res A) (k : A -> Res B) (a : A) :
  r = inr a -> res_bind r k = k a.
Proof. intros ->. reflexivity. Qed.

Lemma bind_try_ok {S A B} (r : Res A) (k : A -> StE S B) (a : A) (s : S) :
  r = inr a -> bind (try r) k s = k a s.
Proof. intros ->. reflexivity. Qed.

Lemma bind_try_raise {S A B} (r : Res A) (k : A -> StE S B) (e : PyExc) (s : S) :
  r = inl e -> bind (try r) k s = (inl e, s).
Proof. intros ->. reflexivity. Qed.

Lemma in_range_bounds (us : Z) :
  datetime.in_range us = true <-> datetime.min_wall <= us <= datetime.max_wall.
Proof. unfold datetime.in_range. rewrite andb_true_iff, !Z.leb_le. tauto. Qed.

Lemma plain_encodable (dt : datetime) : plain dt -> encodable dt.
Proof.
  intros [Hn Hr]. unfold encodable, datetime.utc. now rewrite Hn.
Qed.

Lemma returned_plain (dt : datetime) : plain dt -> returned dt = dt.
Proof.
  intros [Hn _]. destruct dt as [w o]. cbn in Hn. subst o.
  unfold returned, datetime.naive, datetime.utc. cbn. f_equal.
  pose proof (Z.div_mod w 1000000). lia.
Qed.

Lemma returned_in_range (dt : datetime) :
  encodable dt -> datetime.in_range (datetime.wall (returned dt)) = true.
Proof.
  unfold encodable. rewrite !in_range_bounds.
  unfold returned, datetime.naive, datetime.min_wall, datetime.max_wall.
  cbn [datetime.wall]. intro H.
  pose proof (Z.div_mod (datetime.utc dt) 1000000 ltac:(lia)) as Hq.
  pose proof (Z.mod_pos_bound (datetime.utc dt) 1000000 ltac:(lia)) as Hr.
  pose proof (Z.mod_pos_bound (datetime.wall dt) 1000000 ltac:(lia)) as Hw.
  lia.
Qed.

(** What [FromDatetime] fills in from a [datetime] it accepts, and what
    [ToDatetime] returns for that. *)
Lemma Timestamp_FromDatetime_encodable (dt : datetime) :
  encodable dt ->
  Timestamp.FromDatetime Timestamp.new dt = inr (filled_from dt, None).
Proof. unfold encodable, Timestamp.FromDatetime. now intros ->. Qed.

Lemma Timestamp_ToDatetime_filled (dt : datetime) :
  encodable dt ->
  Timestamp.ToDatetime (filled_from dt) = inr (returned dt).
Proof.
  intro H. pose proof (returned_in_range dt H) as Hr.
  unfold Timestamp.ToDatetime, filled_from.
  cbn [Timestamp.seconds Timestamp.nanos].
  rewrite Z.quot_mul by lia.
  unfold returned, datetime.naive in *. cbn [datetime.wall] in Hr.
  now rewrite Hr.
Qed.

Lemma ToDatetime_raises_only (ts : Timestamp.t) (e : PyExc) :
  Timestamp.ToDatetime ts = inl e -> e = OverflowError.
Proof.
  unfold Timestamp.ToDatetime. destruct (datetime.in_range _); congruence.
Qed.

Lemma FromDatetime_raises_only (dt : datetime) (e : PyExc) :
  Timestamp.FromDatetime Timestamp.new dt = inl e -> e = OverflowError.
Proof.
  unfold Timestamp.FromDatetime. destruct (datetime.in_range _); congruence.
Qed.

Lemma Timestamp_ToDatetime_new : Timestamp.ToDatetime Timestamp.new = inr epoch.
Proof. reflexivity. Qed.

Lemma Timestamp_FromDatetime_raises (dt : datetime) :
  ~ encodable dt -> Timestamp.FromDatetime Timestamp.new dt = inl OverflowError.
Proof.
  unfold encodable, Timestamp.FromDatetime.
  destruct (datetime.in_range (datetime.utc dt)); [now intros [] | reflexivity].
Qed.

Section PeriodFacts.
Context {C : PbConstants}.

Lemma DeliveryPeriod_init_valid (start : datetime) (m : Z) (rt : Runtime) :
  valid_minutes m ->
  DeliveryPeriod.__init__ start (timedelta_minutes m) rt =
  (inr {| DeliveryPeriod.oid := next_id rt;
          DeliveryPeriod.start := start;
          DeliveryPeriod.duration := duration_of_minutes m |},
   {| next_id := S (next_id rt); warnings := warnings rt |}).
Proof.
  intros [-> | [-> | [-> | ->]]]; reflexivity.
Qed.

Lemma DeliveryPeriod_init_invalid (start : datetime) (duration : timedelta)
      (rt : Runtime) :
  ~ valid_duration duration ->
  DeliveryPeriod.__init__ start duration rt =
  (inl DeliveryPeriod.invalid_duration,
   {| next_id := S (next_id rt); warnings := warnings rt |}).
Proof.
  intro Hn. unfold DeliveryPeriod.__init__, bind, fresh_id, DeliveryPeriod.minutes_is.
  destruct (duration =? timedelta_minutes 5) eqn:H5.
  { exfalso. apply Hn. exists 5. split; [left; reflexivity | now apply Z.eqb_eq]. }
  destruct (duration =? timedelta_minutes 15) eqn:H15.
  { exfalso. apply Hn. exists 15. split;
      [right; left; reflexivity | now apply Z.eqb_eq]. }
  destruct (duration =? timedelta_minutes 30) eqn:H30.
  { exfalso. apply Hn. exists 30. split;
      [right; right; left; reflexivity | now apply Z.eqb_eq]. }
  destruct (duration =? timedelta_minutes 60) eqn:H60.
  { exfalso. apply Hn. exists 60. split;
      [right; right; right; reflexivity | now apply Z.eqb_eq]. }
  reflexivity.
Qed.

(** The start is read first: a start outside the range of [datetime]
    raises before the duration is looked at. *)
Lemma DeliveryPeriod_from_pb_overflow
      (delivery_period : delivery_duration_pb2.DeliveryPeriod.t) (rt : Runtime) e :
  Timestamp.ToDatetime
    (get Timestamp.new (delivery_duration_pb2.DeliveryPeriod.start delivery_period))
  = inl e ->
  DeliveryPeriod.from_pb delivery_period rt = (inl e, rt).
Proof.
  intro H. unfold DeliveryPeriod.from_pb. now apply bind_try_raise.
Qed.

(** With a start that is read, decoding raises as soon as the duration
    decodes to [UNSPECIFIED]. *)
Lemma DeliveryPeriod_from_pb_invalid
      (delivery_period : delivery_duration_pb2.DeliveryPeriod.t) (rt : Runtime)
      (start : datetime) :
  Timestamp.ToDatetime
    (get Timestamp.new (delivery_duration_pb2.DeliveryPeriod.start delivery_period))
  = inr start ->
  ~ valid_wire_duration
      (get 0 (delivery_duration_pb2.DeliveryPeriod.duration delivery_period)) ->
  exists rt', DeliveryPeriod.from_pb delivery_period rt =
              (inl DeliveryPeriod.invalid_duration, rt').
Proof.
  intros Hs Hn. unfold DeliveryPeriod.from_pb.
  erewrite bind_try_ok by exact Hs. unfold bind.
  set (w := get 0 (delivery_duration_pb2.DeliveryPeriod.duration delivery_period)) in *.
  destruct (decode_enum_decoding DeliveryDuration.members _
              DeliveryDuration.UNSPECIFIED
              "Unknown delivery duration %s. Returning UNSPECIFIED."%string w rt)
    as (e & rt' & Hrun & Hrec & Hunrec).
  change (DeliveryDuration.from_pb w rt = (inr e, rt')) in Hrun.
  rewrite Hrun.
  assert (He : e = DeliveryDuration.UNSPECIFIED).
  { destruct (any_value DeliveryDuration.members wire_value w) eqn:Hany.
    - apply any_value_recognized in Hany. destruct (Hrec Hany) as [Hw _].
      destruct e; try reflexivity; exfalso; apply Hn.
      + exists 5. split; [left; reflexivity | now rewrite <- Hw].
      + exists 15. split; [right; left; reflexivity | now rewrite <- Hw].
      + exists 30. split; [right; right; left; reflexivity | now rewrite <- Hw].
      + exists 60. split; [right; right; right; reflexivity | now rewrite <- Hw].
    - apply Hunrec. intro Hr. apply any_value_recognized in Hr. congruence. }
  subst e. eexists. reflexivity.
Qed.

(** The encoding of a period whose start is accepted. *)
Lemma DeliveryPeriod_to_pb_encodable (p : DeliveryPeriod.t) :
  encodable (DeliveryPeriod.start p) ->
  DeliveryPeriod.to_pb p = inr (period_encoding p).
Proof.
  intro H. unfold DeliveryPeriod.to_pb.
  erewrite res_bind_ok by (apply Timestamp_FromDatetime_encodable; exact H).
  reflexivity.
Qed.

(** Decoding the encoding of a period whose duration is one of the four
    lengths builds a new period with the same duration, and with the
    start [ToDatetime] returns. *)
Lemma DeliveryPeriod_from_pb_encoding (p : DeliveryPeriod.t) (rt : Runtime) :
  distinct_values DeliveryDuration_values ->
  constructible p ->
  encodable (DeliveryPeriod.start p) ->
  DeliveryPeriod.from_pb (period_encoding p) rt =
  (inr (decoded_period (next_id rt) p), one_object_later rt).
Proof.
  intros Hd Hu He.
  unfold DeliveryPeriod.from_pb, period_encoding.
  cbn [get delivery_duration_pb2.DeliveryPeriod.duration
       delivery_duration_pb2.DeliveryPeriod.start].
  erewrite bind_try_ok by (apply Timestamp_ToDatetime_filled; exact He).
  unfold bind. rewrite DeliveryDuration_from_pb_to_pb by assumption.
  destruct p as [o s d]; cbn in *. destruct d; try reflexivity.
  now contradiction Hu.
Qed.

Lemma DeliveryPeriod_from_pb_to_pb (p : DeliveryPeriod.t) (rt : Runtime) :
  distinct_values DeliveryDuration_values ->
  constructible p ->
  encodable (DeliveryPeriod.start p) ->
  decode_encoding DeliveryPeriod.to_pb DeliveryPeriod.from_pb p rt =
  (inr (decoded_period (next_id rt) p), one_object_later rt).
Proof.
  intros Hd Hu He. unfold decode_encoding.
  erewrite bind_try_ok by (apply DeliveryPeriod_to_pb_encodable; exact He).
  now apply DeliveryPeriod_from_pb_encoding.
Qed.

Lemma decoded_period_plain (n : nat) (p : DeliveryPeriod.t) :
  plain (DeliveryPeriod.start p) -> decoded_period n p = rebuilt n p.
Proof.
  intro H. unfold decoded_period, rebuilt. now rewrite returned_plain.
Qed.
End PeriodFacts.

(** C3, as the code has it. Constructing a delivery period with a duration
    that is not 5, 15, 30 or 60 minutes raises the [ValueError] of the
    constructor, and so does decoding a message with such a duration
    whose start [ToDatetime] can read; for each of the four durations,
    construction returns a period of that duration, and when
    [FromDatetime] accepts its start, decoding its encoding returns a
    period with the same duration and with the start [ToDatetime]
    returns, which is the same start when it is naive. *)
Theorem DeliveryPeriod_duration_validated (C : PbConstants)
    (Hd : distinct_values DeliveryDuration_values) :
  (forall start duration rt,
      ~ valid_duration duration ->
      exists rt', DeliveryPeriod.__init__ start duration rt =
                  (inl DeliveryPeriod.invalid_duration, rt'))
  /\ (forall delivery_period rt start,
         Timestamp.ToDatetime
           (get Timestamp.new
              (delivery_duration_pb2.DeliveryPeriod.start delivery_period))
         = inr start ->
         ~ valid_wire_duration
             (get 0 (delivery_duration_pb2.DeliveryPeriod.duration delivery_period)) ->
         exists rt', DeliveryPeriod.from_pb delivery_period rt =
                     (inl DeliveryPeriod.invalid_duration, rt'))
  /\ (forall start m rt,
         valid_minutes m ->
         exists p rt1,
           DeliveryPeriod.__init__ start (timedelta_minutes m) rt = (inr p, rt1)
           /\ DeliveryPeriod.start p = start
           /\ DeliveryPeriod.duration p = duration_of_minutes m
           /\ (encodable start ->
               exists q rt2,
                 decode_encoding DeliveryPeriod.to_pb DeliveryPeriod.from_pb p rt1
                 = (inr q, rt2)
                 /\ DeliveryPeriod.duration q = DeliveryPeriod.duration p
                 /\ DeliveryPeriod.start q = returned start
                 /\ (plain start -> DeliveryPeriod.start q = start))).
Proof.
  split; [| split].
  - intros start duration rt Hn. eexists. now apply DeliveryPeriod_init_invalid.
  - intros delivery_period rt start Hs Hn.
    now apply (DeliveryPeriod_from_pb_invalid delivery_period rt start).
  - intros start m rt Hm. eexists. eexists.
    split; [now apply DeliveryPeriod_init_valid|].
    split; [reflexivity|]. split; [reflexivity|].
    intro He. eexists. eexists. split.
    + apply DeliveryPeriod_from_pb_to_pb; [assumption | | exact He].
      unfold constructible. cbn.
      destruct Hm as [-> | [-> | [-> | ->]]]; discriminate.
    + cbn [decoded_period DeliveryPeriod.duration DeliveryPeriod.start].
      split; [reflexivity|]. split; [reflexivity|].
      intro Hp. now apply returned_plain.
Qed.

(** C3, as stated, fails for decoding: in a message whose start is one
    second after the last [datetime], the start is read first and raises
    [OverflowError]; the duration, which no member has, is never looked
    at and the [ValueError] is not raised. *)
Lemma DeliveryPeriod_from_pb_start_out_of_range :
  let delivery_period :=
    {| delivery_duration_pb2.DeliveryPeriod.start :=
         Some {| Timestamp.seconds := 253402300800; Timestamp.nanos := 0 |};
       delivery_duration_pb2.DeliveryPeriod.duration := Some 9 |} in
  ~ valid_wire_duration (C := Schema.constants)
      (get 0 (delivery_duration_pb2.DeliveryPeriod.duration delivery_period))
  /\ DeliveryPeriod.from_pb (C := Schema.constants) delivery_period Examples.rt0
     = (inl OverflowError, Examples.rt0)
  /\ ~ exists rt',
        DeliveryPeriod.from_pb (C := Schema.constants) delivery_period Examples.rt0
        = (inl DeliveryPeriod.invalid_duration, rt').
Proof.
  cbv zeta. split; [| split].
  - intros (m & [-> | [-> | [-> | ->]]] & H); vm_compute in H; discriminate H.
  - reflexivity.
  - intros (rt' & H). vm_compute in H. discriminate H.
Qed.

(** ** Partial update *)

Section UpdateFacts.
Context {L : PyLib} {C : PbConstants}.

Lemma name_if_passed_flag {A} (name : string) (a : Client.Arg A) :
  name_if_passed name a = if Client.is_NO_VALUE a then [] else [name].
Proof. destruct a; reflexivity. Qed.

Lemma is_NO_VALUE_true {A} (a : Client.Arg A) :
  Client.is_NO_VALUE a = true <-> a = Client.NO_VALUE.
Proof. destruct a; cbn; split; intro H; congruence. Qed.

Lemma lift_py_rpc_log {A} (m : Py A) (w : Client.World) :
  Client.rpc_log (snd (Client.lift_py m w)) = Client.rpc_log w.
Proof.
  unfold Client.lift_py. destruct (m (Client.runtime w)). reflexivity.
Qed.

(** A call through the stub is logged whatever the service answers. *)
Lemma call_then_rpc_log {A} request
      (k : electricity_trading_pb2.UpdateGridpoolOrderResponse.t -> Py A)
      (w : Client.World) :
  Client.rpc_log
    (snd (bind (Client.call_UpdateGridpoolOrder request)
               (fun response => Client.lift_py (k response)) w))
  = Client.rpc_log w ++ [request].
Proof.
  unfold bind, Client.call_UpdateGridpoolOrder.
  destruct (Client.UpdateGridpoolOrder (Client._stub (Client.self w)) request).
  - reflexivity.
  - rewrite lift_py_rpc_log. reflexivity.
Qed.

(** The comprehension that builds [paths], on the nine flags. *)
Lemma paths_of_flags (n1 n2 n3 n4 n5 n6 n7 n8 n9 : string)
      (b1 b2 b3 b4 b5 b6 b7 b8 b9 : bool) :
  map fst (filter (fun p : string * bool => negb (snd p))
             [(n1, b1); (n2, b2); (n3, b3); (n4, b4); (n5, b5); (n6, b6);
              (n7, b7); (n8, b8); (n9, b9)])
  = (if b1 then [] else [n1]) ++ (if b2 then [] else [n2])
    ++ (if b3 then [] else [n3]) ++ (if b4 then [] else [n4])
    ++ (if b5 then [] else [n5]) ++ (if b6 then [] else [n6])
    ++ (if b7 then [] else [n7]) ++ (if b8 then [] else [n8])
    ++ (if b9 then [] else [n9]).
Proof.
  destruct b1, b2, b3, b4, b5, b6, b7, b8, b9; reflexivity.
Qed.

Lemma forallb_flags (n1 n2 n3 n4 n5 n6 n7 n8 n9 : string)
      (b1 b2 b3 b4 b5 b6 b7 b8 b9 : bool) :
  forallb snd [(n1, b1); (n2, b2); (n3, b3); (n4, b4); (n5, b5); (n6, b6);
               (n7, b7); (n8, b8); (n9, b9)]
  = b1 && (b2 && (b3 && (b4 && (b5 && (b6 && (b7 && (b8 && (b9 && true)))))))).
Proof. reflexivity. Qed.

Lemma list_neq_app_one {A} (l : list A) (x : A) : l ++ [x] <> l.
Proof.
  intro H. apply (f_equal (@List.length A)) in H.
  rewrite length_app in H. cbn in H. lia.
Qed.
(** What [FromDatetime] leaves of an optional time limit. *)
Lemma valid_until_filled (x : option datetime) :
  (forall dt, x = Some dt -> encodable dt) ->
  py_if_res always x
    (fun dt => filled <~ Timestamp.FromDatetime Timestamp.new dt ;; inr (fst filled))
  = inr (option_map filled_from x).
Proof.
  intro H. destruct x as [dt|]; [| reflexivity].
  unfold py_if_res, always.
  erewrite res_bind_ok
    by (erewrite res_bind_ok
          by (apply Timestamp_FromDatetime_encodable; now apply H);
        reflexivity).
  reflexivity.
Qed.

Lemma valid_until_overflow (dt : datetime) :
  ~ encodable dt ->
  py_if_res always (Some dt)
    (fun dt => filled <~ Timestamp.FromDatetime Timestamp.new dt ;; inr (fst filled))
  = inl (B := option Timestamp.t) OverflowError.
Proof.
  intro H. unfold py_if_res, always.
  now rewrite (Timestamp_FromDatetime_raises dt H).
Qed.

Lemma None_if_NO_VALUE_Some {A} (a : Client.Arg A) (v : A) :
  Client.None_if_NO_VALUE a = Some v -> a = Client.Passed (Some v).
Proof. destruct a as [| [x|]]; cbn; congruence. Qed.
End UpdateFacts.



(** ** Keys: [==] is reflexive and symmetric *)

Section EqFacts.
Context {A : Type} (eqb : A -> A -> bool).
Hypothesis eqb_refl : forall a, eqb a a = true.
Hypothesis eqb_sym : forall a b, eqb a b = eqb b a.

Lemma option_eqb_refl (x : option A) : option_eqb eqb x x = true.
Proof. destruct x; cbn; auto. Qed.

Lemma option_eqb_sym (x y : option A) : option_eqb eqb x y = option_eqb eqb y x.
Proof. destruct x, y; cbn; auto. Qed.

Lemma list_eqb_refl (x : list A) : list_eqb eqb x x = true.
Proof. induction x as [|a x IH]; cbn; [reflexivity|]. now rewrite eqb_refl, IH. Qed.

Lemma list_eqb_sym (x y : list A) : list_eqb eqb x y = list_eqb eqb y x.
Proof.
  revert y. induction x as [|a x IH]; intros [|b y]; cbn; try reflexivity.
  now rewrite eqb_sym, IH.
Qed.
End EqFacts.

Lemma OrderState_eqb_refl a : OrderState_eqb a a = true.
Proof. destruct a; reflexivity. Qed.

Lemma OrderState_eqb_sym a b : OrderState_eqb a b = OrderState_eqb b a.
Proof. destruct a, b; reflexivity. Qed.

Lemma TradeState_eqb_refl a : TradeState_eqb a a = true.
Proof. destruct a; reflexivity. Qed.

Lemma TradeState_eqb_sym a b : TradeState_eqb a b = TradeState_eqb b a.
Proof. destruct a, b; reflexivity. Qed.

Lemma MarketSide_eqb_refl a : MarketSide_eqb a a = true.
Proof. destruct a; reflexivity. Qed.

Lemma MarketSide_eqb_sym a b : MarketSide_eqb a b = MarketSide_eqb b a.
Proof. destruct a, b; reflexivity. Qed.

Lemma EnergyMarketCodeType_eqb_refl a : EnergyMarketCodeType_eqb a a = true.
Proof. destruct a; reflexivity. Qed.

Lemma EnergyMarketCodeType_eqb_sym a b :
  EnergyMarketCodeType_eqb a b = EnergyMarketCodeType_eqb b a.
Proof. destruct a, b; reflexivity. Qed.

Lemma DeliveryArea_eq_refl a : DeliveryArea_eq a a = true.
Proof.
  unfold DeliveryArea_eq.
  now rewrite String.eqb_refl, EnergyMarketCodeType_eqb_refl.
Qed.

Lemma DeliveryArea_eq_sym a b : DeliveryArea_eq a b = DeliveryArea_eq b a.
Proof.
  unfold DeliveryArea_eq.
  now rewrite String.eqb_sym, EnergyMarketCodeType_eqb_sym.
Qed.

Lemma DeliveryPeriod_eq_refl a : DeliveryPeriod_eq a a = true.
Proof. apply Nat.eqb_refl. Qed.

Lemma DeliveryPeriod_eq_sym a b : DeliveryPeriod_eq a b = DeliveryPeriod_eq b a.
Proof. apply Nat.eqb_sym. Qed.

Lemma GridpoolOrderFilter_eq_refl a : GridpoolOrderFilter_eq a a = true.
Proof.
  unfold GridpoolOrderFilter_eq.
  rewrite (option_eqb_refl _ (list_eqb_refl _ OrderState_eqb_refl)),
          (option_eqb_refl _ MarketSide_eqb_refl),
          (option_eqb_refl _ DeliveryPeriod_eq_refl),
          (option_eqb_refl _ DeliveryArea_eq_refl),
          (option_eqb_refl _ String.eqb_refl).
  reflexivity.
Qed.

Lemma GridpoolOrderFilter_eq_sym a b :
  GridpoolOrderFilter_eq a b = GridpoolOrderFilter_eq b a.
Proof.
  unfold GridpoolOrderFilter_eq.
  rewrite (option_eqb_sym _ (list_eqb_sym _ OrderState_eqb_sym)
                          (GridpoolOrderFilter.order_states a)),
          (option_eqb_sym _ MarketSide_eqb_sym (GridpoolOrderFilter.side a)),
          (option_eqb_sym _ DeliveryPeriod_eq_sym (GridpoolOrderFilter.delivery_period a)),
          (option_eqb_sym _ DeliveryArea_eq_sym (GridpoolOrderFilter.delivery_area a)),
          (option_eqb_sym _ String.eqb_sym (GridpoolOrderFilter.tag a)).
  reflexivity.
Qed.

Lemma GridpoolTradeFilter_eq_refl a : GridpoolTradeFilter_eq a a = true.
Proof.
  unfold GridpoolTradeFilter_eq.
  rewrite (option_eqb_refl _ (list_eqb_refl _ TradeState_eqb_refl)),
          (option_eqb_refl _ (list_eqb_refl _ Z.eqb_refl)),
          (option_eqb_refl _ MarketSide_eqb_refl),
          (option_eqb_refl _ DeliveryPeriod_eq_refl),
          (option_eqb_refl _ DeliveryArea_eq_refl).
  reflexivity.
Qed.

Lemma GridpoolTradeFilter_eq_sym a b :
  GridpoolTradeFilter_eq a b = GridpoolTradeFilter_eq b a.
Proof.
  unfold GridpoolTradeFilter_eq.
  rewrite (option_eqb_sym _ (list_eqb_sym _ TradeState_eqb_sym)
                          (GridpoolTradeFilter.trade_states a)),
          (option_eqb_sym _ (list_eqb_sym _ Z.eqb_sym)
                          (GridpoolTradeFilter.trade_id_lists a)),
          (option_eqb_sym _ MarketSide_eqb_sym (GridpoolTradeFilter.side a)),
          (option_eqb_sym _ DeliveryPeriod_eq_sym (GridpoolTradeFilter.delivery_period a)),
          (option_eqb_sym _ DeliveryArea_eq_sym (GridpoolTradeFilter.delivery_area a)).
  reflexivity.
Qed.

Lemma PublicTradeFilter_eq_refl a : PublicTradeFilter_eq a a = true.
Proof.
  unfold PublicTradeFilter_eq.
  rewrite (option_eqb_refl _ (list_eqb_refl _ TradeState_eqb_refl)),
          (option_eqb_refl _ DeliveryPeriod_eq_refl),
          !(option_eqb_refl _ DeliveryArea_eq_refl).
  reflexivity.
Qed.

Lemma PublicTradeFilter_eq_sym a b :
  PublicTradeFilter_eq a b = PublicTradeFilter_eq b a.
Proof.
  unfold PublicTradeFilter_eq.
  rewrite (option_eqb_sym _ (list_eqb_sym _ TradeState_eqb_sym)
                          (PublicTradeFilter.states a)),
          (option_eqb_sym _ DeliveryPeriod_eq_sym (PublicTradeFilter.delivery_period a)),
          (option_eqb_sym _ DeliveryArea_eq_sym (PublicTradeFilter.buy_delivery_area a)),
          (option_eqb_sym _ DeliveryArea_eq_sym (PublicTradeFilter.sell_delivery_area a)).
  reflexivity.
Qed.

Lemma key_eq_refl {F} (filter_eq : F -> F -> bool) :
  (forall f, filter_eq f f = true) -> forall k, key_eq filter_eq k k = true.
Proof. intros H k. unfold key_eq. now rewrite Z.eqb_refl, H. Qed.

Lemma key_eq_sym {F} (filter_eq : F -> F -> bool) :
  (forall f g, filter_eq f g = filter_eq g f) ->
  forall k l, key_eq filter_eq k l = key_eq filter_eq l k.
Proof. intros H k l. unfold key_eq. now rewrite Z.eqb_sym, H. Qed.

(** ** Dictionaries *)

Section DictFacts.
Context {K V : Type} (eqb : K -> K -> bool).

Lemma lookup_app_found (d l : dict.t (K := K) (V := V)) (k : K) (v : V) :
  dict.lookup eqb d k = Some v -> dict.lookup eqb (d ++ l) k = Some v.
Proof.
  unfold dict.lookup. induction d as [|[k' v'] d IH]; cbn; [discriminate|].
  destruct (eqb k' k); auto.
Qed.

Lemma lookup_none_forall (d : dict.t (K := K) (V := V)) (k : K) :
  dict.lookup eqb d k = None -> forall a, In a d -> eqb (fst a) k = false.
Proof.
  unfold dict.lookup. intros H a Hin.
  destruct (find (fun kv => eqb (fst kv) k) d) eqn:Hf; [discriminate|].
  apply (find_none _ _ Hf a Hin).
Qed.

Lemma lookup_app_new (d : dict.t (K := K) (V := V)) (k : K) (v : V) :
  eqb k k = true ->
  dict.lookup eqb d k = None -> dict.lookup eqb (d ++ [(k, v)]) k = Some v.
Proof.
  intros Hr. unfold dict.lookup. induction d as [|[k' v'] d IH]; cbn.
  - now rewrite Hr.
  - destruct (eqb k' k); [discriminate | auto].
Qed.

Lemma replace_absent (d : dict.t (K := K) (V := V)) (k : K) (v : V) :
  dict.lookup eqb d k = None -> dict.replace eqb d k v = d ++ [(k, v)].
Proof.
  unfold dict.lookup. induction d as [|[k' v'] d IH]; cbn; [reflexivity|].
  destruct (eqb k' k); [discriminate|]. intro H. now rewrite IH.
Qed.

End DictFacts.

Section AtMostOne.
Context {K : Type} (eqb : K -> K -> bool).

Lemma at_most_one_nil : at_most_one (K := K) eqb [].
Proof. intros i j a b Hi. destruct i; discriminate. Qed.

Lemma at_most_one_app (d : dict.t (K := K) (V := nat)) (k : K) (h : nat) :
  (forall a b, eqb a b = eqb b a) ->
  at_most_one eqb d -> dict.lookup eqb d k = None ->
  at_most_one eqb (d ++ [(k, h)]).
Proof.
  intros Hsym Hd Hnone i j a b Hi Hj Heq.
  pose proof (lookup_none_forall eqb d k Hnone) as Hall.
  destruct (Nat.lt_ge_cases i (List.length d)) as [Hil | Hil];
    destruct (Nat.lt_ge_cases j (List.length d)) as [Hjl | Hjl].
  - rewrite nth_error_app1 in Hi, Hj by assumption. eauto.
  - rewrite nth_error_app1 in Hi by assumption.
    rewrite nth_error_app2 in Hj by assumption.
    destruct (j - List.length d)%nat as [|n]; cbn in Hj;
      [| destruct n; discriminate].
    injection Hj as <-. cbn in Heq.
    apply nth_error_In in Hi. rewrite (Hall a Hi) in Heq. discriminate.
  - rewrite nth_error_app2 in Hi by assumption.
    rewrite nth_error_app1 in Hj by assumption.
    destruct (i - List.length d)%nat as [|n]; cbn in Hi;
      [| destruct n; discriminate].
    injection Hi as <-. cbn in Heq. rewrite Hsym in Heq.
    apply nth_error_In in Hj. rewrite (Hall b Hj) in Heq. discriminate.
  - rewrite nth_error_app2 in Hi, Hj by assumption.
    destruct (i - List.length d)%nat as [|n] eqn:Ei; cbn in Hi;
      [| destruct n; discriminate].
    destruct (j - List.length d)%nat as [|m] eqn:Ej; cbn in Hj;
      [| destruct m; discriminate].
    lia.
Qed.
End AtMostOne.

(** ** The stream registries *)

Section SubscribeFacts.
Context {L : PyLib} {K : Type}
        (hashable : K -> bool) (eqb : K -> K -> bool)
        (registry : Client.t -> dict.t (K := K) (V := nat))
        (with_registry : Client.t -> dict.t (K := K) (V := nat) -> Client.t)
        (name : K -> GrpcStreamingHelper.StreamName)
        (method : K -> GrpcStreamingHelper.StreamMethod).
Hypothesis registry_with : forall c d, registry (with_registry c d) = d.
Hypothesis eqb_refl : forall k, eqb k k = true.

Local Abbreviation sub := (subscribe hashable eqb registry with_registry name method).
Local Abbreviation obj := (new_obj name method).

Lemma subscribe_unhashable (k : K) (w : Client.World) :
  hashable k = false -> sub k w = (inl dict.unhashable, w).
Proof.
  intro Hh. unfold subscribe, bind, Client.get_self, dict.contains.
  rewrite Hh. reflexivity.
Qed.

Lemma subscribe_present (k : K) (h : nat) (w : Client.World) :
  hashable k = true ->
  dict.lookup eqb (registry (Client.self w)) k = Some h ->
  sub k w =
  (inr {| rid := next_id (Client.runtime w);
          receiver_of := h;
          receiver_index := Client.receivers_of h (Client.helper_objs w) |},
   {| Client.runtime := one_object_later (Client.runtime w);
      Client.self := Client.self w;
      Client.helper_objs :=
        Client.update_helper h Client.add_receiver (Client.helper_objs w);
      Client.rpc_log := Client.rpc_log w |}).
Proof.
  intros Hh Hl.
  unfold subscribe, bind, Client.get_self, dict.contains, dict.getitem, ret.
  rewrite Hh, Hl. cbn. rewrite Hl. reflexivity.
Qed.

Lemma subscribe_absent (k : K) (w : Client.World) :
  hashable k = true ->
  dict.lookup eqb (registry (Client.self w)) k = None ->
  let h := next_id (Client.runtime w) in
  let objs := Client.helper_objs w ++ [obj h k] in
  sub k w =
  (inr {| rid := S h; receiver_of := h;
          receiver_index := Client.receivers_of h objs |},
   {| Client.runtime :=
        {| next_id := S (S h); warnings := warnings (Client.runtime w) |};
      Client.self :=
        with_registry (Client.self w) (registry (Client.self w) ++ [(k, h)]);
      Client.helper_objs := Client.update_helper h Client.add_receiver objs;
      Client.rpc_log := Client.rpc_log w |}).
Proof.
  intros Hh Hl. cbv zeta.
  unfold subscribe, bind, Client.get_self, dict.contains, dict.getitem,
    dict.setitem, ret, Client.new_helper, Client.lift_py, fresh_id,
    Client.set_self.
  rewrite Hh, Hl. cbn. rewrite ?Hh. cbn.
  rewrite (replace_absent eqb _ _ _ Hl).
  rewrite registry_with.
  rewrite (lookup_app_new eqb _ k _ (eqb_refl k) Hl).
  reflexivity.
Qed.

Lemma constructed_update_helper (h : nat) (objs : list GrpcStreamingHelper.t)
      (f : GrpcStreamingHelper.t -> GrpcStreamingHelper.t) :
  (forall o, GrpcStreamingHelper.hid (f o) = GrpcStreamingHelper.hid o) ->
  map GrpcStreamingHelper.hid (Client.update_helper h f objs)
  = map GrpcStreamingHelper.hid objs.
Proof.
  intro Hf. unfold Client.update_helper. rewrite map_map.
  apply map_ext. intro o. destruct (Nat.eqb _ h); auto.
Qed.

(** The receivers of a helper, before and after one is added. *)
Lemma receivers_of_added (h : nat) (objs : list GrpcStreamingHelper.t) :
  In h (map GrpcStreamingHelper.hid objs) ->
  Client.receivers_of h (Client.update_helper h Client.add_receiver objs)
  = S (Client.receivers_of h objs).
Proof.
  unfold Client.receivers_of, Client.update_helper.
  induction objs as [|o objs IH]; cbn; [contradiction|].
  intros [Ho | Hin].
  - rewrite Ho, Nat.eqb_refl. cbn. rewrite Ho, Nat.eqb_refl. reflexivity.
  - destruct (Nat.eqb (GrpcStreamingHelper.hid o) h) eqn:E.
    + cbn. rewrite E. reflexivity.
    + rewrite E. now apply IH.
Qed.

Lemma receivers_of_unknown (h : nat) (objs l : list GrpcStreamingHelper.t) :
  ~ In h (map GrpcStreamingHelper.hid objs) ->
  Client.receivers_of h (objs ++ l) = Client.receivers_of h l.
Proof.
  unfold Client.receivers_of.
  induction objs as [|o objs IH]; cbn; [reflexivity|].
  intro Hn. destruct (Nat.eqb (GrpcStreamingHelper.hid o) h) eqn:E.
  - apply Nat.eqb_eq in E. exfalso. apply Hn. now left.
  - apply IH. intro Hin. apply Hn. now right.
Qed.

(** A call whose key has an entry is served by the helper of the entry,
    and no helper is constructed. *)
Lemma subscribe_served (k : K) (h : nat) (w : Client.World) :
  hashable k = true ->
  dict.lookup eqb (registry (Client.self w)) k = Some h ->
  exists r w',
    sub k w = (inr r, w')
    /\ receiver_of r = h
    /\ constructed w' = constructed w.
Proof.
  intros Hh Hl. rewrite (subscribe_present k h w Hh Hl).
  eexists. eexists. split; [reflexivity|]. split; [reflexivity|].
  unfold constructed. cbn. now apply constructed_update_helper.
Qed.

(** In a world where the entry of a key refers to a helper that exists
    and every helper was created before the next object, a call returns a
    new receiver of the helper of the entry, or of the helper it
    constructs for the key. *)
Lemma subscribe_reuses_or_opens (k : K) (w : Client.World) :
  hashable k = true ->
  (forall h, dict.lookup eqb (registry (Client.self w)) k = Some h ->
             In h (constructed w)) ->
  Forall (fun o => (GrpcStreamingHelper.hid o < next_id (Client.runtime w))%nat)
         (Client.helper_objs w) ->
  call_reuses_or_opens eqb registry sub w k.
Proof.
  intros Hh Hback Hbefore. unfold call_reuses_or_opens.
  destruct (dict.lookup eqb (registry (Client.self w)) k) as [h|] eqn:Hl.
  - rewrite (subscribe_present k h w Hh Hl).
    eexists. eexists. split; [reflexivity|].
    unfold new_receiver_of, constructed.
    cbn [receiver_of rid receiver_index Client.runtime Client.self
         Client.helper_objs one_object_later next_id].
    rewrite receivers_of_added by (now apply Hback).
    rewrite constructed_update_helper by reflexivity.
    repeat split; lia.
  - rewrite (subscribe_absent k w Hh Hl).
    eexists. eexists. split; [reflexivity|].
    assert (Hnew : ~ In (next_id (Client.runtime w))
                        (map GrpcStreamingHelper.hid (Client.helper_objs w))).
    { intro Hin. apply in_map_iff in Hin. destruct Hin as (o & Ho & Hin).
      rewrite Forall_forall in Hbefore. specialize (Hbefore o Hin). lia. }
    unfold new_receiver_of, constructed.
    cbn [receiver_of rid receiver_index Client.runtime Client.self
         Client.helper_objs next_id].
    rewrite registry_with.
    rewrite constructed_update_helper by reflexivity.
    rewrite receivers_of_added
      by (rewrite map_app; apply in_or_app; right; left; reflexivity).
    rewrite (receivers_of_unknown _ _ _ Hnew).
    assert (Hnone : Client.receivers_of (next_id (Client.runtime w))
                      (Client.helper_objs w) = 0%nat).
    { rewrite <- (app_nil_r (Client.helper_objs w)).
      now rewrite (receivers_of_unknown _ _ [] Hnew). }
    rewrite Hnone.
    unfold Client.receivers_of at 1 2. cbn. rewrite Nat.eqb_refl. cbn.
    rewrite map_app. repeat split; lia.
Qed.

(** What a call does to the client object. *)
Lemma subscribe_self (k : K) (w : Client.World) :
  Client.self (snd (sub k w)) = Client.self w
  \/ (dict.lookup eqb (registry (Client.self w)) k = None
      /\ Client.self (snd (sub k w)) =
         with_registry (Client.self w)
           (registry (Client.self w) ++ [(k, next_id (Client.runtime w))])).
Proof.
  destruct (hashable k) eqn:Hh.
  - destruct (dict.lookup eqb (registry (Client.self w)) k) as [h|] eqn:Hl.
    + left. now rewrite (subscribe_present k h w Hh Hl).
    + right. split; [reflexivity|]. now rewrite (subscribe_absent k w Hh Hl).
  - left. now rewrite (subscribe_unhashable k w Hh).
Qed.
End SubscribeFacts.

Section ClientFacts.
Context {L : PyLib}.


Lemma orders_call_subscribe k : orders_call k = orders_subscribe k.
Proof. destruct k as [g []]. reflexivity. Qed.

Lemma trades_call_subscribe k : trades_call k = trades_subscribe k.
Proof. destruct k as [g []]. reflexivity. Qed.

Lemma public_call_subscribe k : public_call k = public_subscribe k.
Proof. destruct k. reflexivity. Qed.

Lemma orders_eq_refl k : Client.orders_eq k k = true.
Proof. apply key_eq_refl, GridpoolOrderFilter_eq_refl. Qed.

Lemma trades_eq_refl k : Client.trades_eq k k = true.
Proof. apply key_eq_refl, GridpoolTradeFilter_eq_refl. Qed.

Lemma orders_eq_sym k l : Client.orders_eq k l = Client.orders_eq l k.
Proof. apply key_eq_sym, GridpoolOrderFilter_eq_sym. Qed.

Lemma trades_eq_sym k l : Client.trades_eq k l = Client.trades_eq l k.
Proof. apply key_eq_sym, GridpoolTradeFilter_eq_sym. Qed.


Lemma step_grown (w : Client.World) (e : Event) :
  grown (Client.self w) (Client.self (step w e)).
Proof.
  destruct e as [g os ms da dp tg | g ts ti ms dp da | ss dp ba sa | h]; cbn [step].
  - change (Client.stream_gridpool_orders g os ms da dp tg)
      with (orders_subscribe
              (g, {| GridpoolOrderFilter.order_states := os;
                     GridpoolOrderFilter.side := ms;
                     GridpoolOrderFilter.delivery_period := dp;
                     GridpoolOrderFilter.delivery_area := da;
                     GridpoolOrderFilter.tag := tg |})).
    unfold orders_subscribe.
    match goal with
    | |- context [subscribe ?a ?b ?c ?d ?n ?m ?k w] =>
        destruct (subscribe_self a b c d n m (fun _ _ => eq_refl) orders_eq_refl k w)
          as [-> | [Hl ->]]
    end; [constructor | now constructor].
  - change (Client.stream_gridpool_trades g ts ti ms dp da)
      with (trades_subscribe
              (g, {| GridpoolTradeFilter.trade_states := ts;
                     GridpoolTradeFilter.trade_id_lists := ti;
                     GridpoolTradeFilter.side := ms;
                     GridpoolTradeFilter.delivery_period := dp;
                     GridpoolTradeFilter.delivery_area := da |})).
    unfold trades_subscribe.
    match goal with
    | |- context [subscribe ?a ?b ?c ?d ?n ?m ?k w] =>
        destruct (subscribe_self a b c d n m (fun _ _ => eq_refl) trades_eq_refl k w)
          as [-> | [Hl ->]]
    end; [constructor | now constructor].
  - change (Client.stream_public_trades ss dp ba sa)
      with (public_subscribe
              {| PublicTradeFilter.states := ss;
                 PublicTradeFilter.delivery_period := dp;
                 PublicTradeFilter.buy_delivery_area := ba;
                 PublicTradeFilter.sell_delivery_area := sa |}).
    unfold public_subscribe.
    match goal with
    | |- context [subscribe ?a ?b ?c ?d ?n ?m ?k w] =>
        destruct (subscribe_self a b c d n m (fun _ _ => eq_refl)
                                 PublicTradeFilter_eq_refl k w)
          as [-> | [Hl ->]]
    end; [constructor | now constructor].
  - constructor.
Qed.


Lemma grown_at_most_one c c' :
  grown c c' -> registries_at_most_one c -> registries_at_most_one c'.
Proof.
  intros Hg (Ho & Ht & Hp). destruct Hg; cbn.
  - repeat split; assumption.
  - repeat split; cbn; try assumption.
    apply at_most_one_app; auto using orders_eq_sym.
  - repeat split; cbn; try assumption.
    apply at_most_one_app; auto using trades_eq_sym.
  - repeat split; cbn; try assumption.
    apply at_most_one_app; auto using PublicTradeFilter_eq_sym.
Qed.

Lemma run_at_most_one (events : list Event) (w : Client.World) :
  registries_at_most_one (Client.self w) ->
  registries_at_most_one (Client.self (run events w)).
Proof.
  revert w. induction events as [|e events IH]; intros w Hw; cbn; [assumption|].
  apply IH. eapply grown_at_most_one; [apply step_grown | assumption].
Qed.

Lemma grown_lookup_orders c c' k h :
  grown c c' ->
  dict.lookup Client.orders_eq (Client._gridpool_orders_streams c) k = Some h ->
  dict.lookup Client.orders_eq (Client._gridpool_orders_streams c') k = Some h.
Proof.
  intros Hg Hl. destruct Hg; cbn; auto. now apply lookup_app_found.
Qed.

Lemma grown_lookup_trades c c' k h :
  grown c c' ->
  dict.lookup Client.trades_eq (Client._gridpool_trades_streams c) k = Some h ->
  dict.lookup Client.trades_eq (Client._gridpool_trades_streams c') k = Some h.
Proof.
  intros Hg Hl. destruct Hg; cbn; auto. now apply lookup_app_found.
Qed.

Lemma grown_lookup_public c c' k h :
  grown c c' ->
  dict.lookup PublicTradeFilter_eq (Client._public_trades_streams c) k = Some h ->
  dict.lookup PublicTradeFilter_eq (Client._public_trades_streams c') k = Some h.
Proof.
  intros Hg Hl. destruct Hg; cbn; auto. now apply lookup_app_found.
Qed.

Lemma run_lookup_orders events w k h :
  dict.lookup Client.orders_eq
    (Client._gridpool_orders_streams (Client.self w)) k = Some h ->
  dict.lookup Client.orders_eq
    (Client._gridpool_orders_streams (Client.self (run events w))) k = Some h.
Proof.
  revert w. induction events as [|e events IH]; intros w Hl; cbn; [assumption|].
  apply IH. eapply grown_lookup_orders; [apply step_grown | assumption].
Qed.

Lemma run_lookup_trades events w k h :
  dict.lookup Client.trades_eq
    (Client._gridpool_trades_streams (Client.self w)) k = Some h ->
  dict.lookup Client.trades_eq
    (Client._gridpool_trades_streams (Client.self (run events w))) k = Some h.
Proof.
  revert w. induction events as [|e events IH]; intros w Hl; cbn; [assumption|].
  apply IH. eapply grown_lookup_trades; [apply step_grown | assumption].
Qed.

Lemma run_lookup_public events w k h :
  dict.lookup PublicTradeFilter_eq
    (Client._public_trades_streams (Client.self w)) k = Some h ->
  dict.lookup PublicTradeFilter_eq
    (Client._public_trades_streams (Client.self (run events w))) k = Some h.
Proof.
  revert w. induction events as [|e events IH]; intros w Hl; cbn; [assumption|].
  apply IH. eapply grown_lookup_public; [apply step_grown | assumption].
Qed.

End ClientFacts.

(** ** The helpers behind the registries *)

Section Correspondence.
Context {L : PyLib}.

Lemma backed_by_update_helper objs h' f h n m :
  keeps_construction f ->
  backed_by objs h n m -> backed_by (Client.update_helper h' f objs) h n m.
Proof.
  intros Hf (o & Hin & Hh & Hn & Hm).
  exists (if Nat.eqb (GrpcStreamingHelper.hid o) h' then f o else o). split.
  - unfold Client.update_helper.
    apply (in_map (fun o => if Nat.eqb (GrpcStreamingHelper.hid o) h' then f o else o)
                  _ _ Hin).
  - destruct (Nat.eqb _ h'); [destruct (Hf o) as (-> & -> & ->)|]; auto.
Qed.

Lemma backed_by_app objs l h n m :
  backed_by objs h n m -> backed_by (objs ++ l) h n m.
Proof.
  intros (o & Hin & H). exists o. split; [apply in_or_app; now left | exact H].
Qed.

Lemma add_receiver_keeps : keeps_construction Client.add_receiver.
Proof. intro o. repeat split. Qed.

Lemma stop_keeps : keeps_construction Client.stop.
Proof. intro o. repeat split. Qed.

Lemma correspond_update_helper c objs n h f :
  keeps_construction f ->
  helpers_correspond c objs n ->
  helpers_correspond c (Client.update_helper h f objs) n.
Proof.
  intros Hf (Hb & Hp & Hd & Hlt).
  assert (Hids : map GrpcStreamingHelper.hid (Client.update_helper h f objs)
                 = map GrpcStreamingHelper.hid objs)
    by (apply constructed_update_helper; intro o; apply Hf).
  repeat split.
  - unfold entries_backed in *. eapply Forall_impl; [|exact Hb].
    intros e. now apply backed_by_update_helper.
  - now rewrite Hids.
  - now rewrite Hids.
  - unfold Client.update_helper. apply Forall_map.
    eapply Forall_impl; [|exact Hlt]. intros o Ho. cbv beta.
    destruct (Nat.eqb _ h); [rewrite (proj1 (Hf o))|]; exact Ho.
Qed.

Lemma correspond_later c objs n m :
  (n <= m)%nat -> helpers_correspond c objs n -> helpers_correspond c objs m.
Proof.
  intros Hle (Hb & Hp & Hd & Hlt). repeat split; try assumption.
  eapply Forall_impl; [|exact Hlt]. intros o Ho. cbv beta in *. lia.
Qed.

Lemma correspond_new c c' objs n name method :
  helpers_correspond c objs n ->
  Permutation (entries c') ((name, method, n) :: entries c) ->
  helpers_correspond c'
    (objs ++ [{| GrpcStreamingHelper.hid := n;
                 GrpcStreamingHelper.stream_name := name;
                 GrpcStreamingHelper.stream_method := method;
                 GrpcStreamingHelper.receivers := 0;
                 GrpcStreamingHelper.running := true |}])
    (S n).
Proof.
  intros (Hb & Hp & Hd & Hlt) He.
  assert (Hfresh : ~ In n (map GrpcStreamingHelper.hid objs)).
  { intro Hin. apply in_map_iff in Hin. destruct Hin as (o & Ho & Hin).
    rewrite Forall_forall in Hlt. specialize (Hlt o Hin). lia. }
  repeat split.
  - unfold entries_backed in *.
    eapply Permutation_Forall; [apply Permutation_sym; exact He|].
    constructor.
    + cbn [fst snd]. eexists. split; [apply in_or_app; right; left; reflexivity|].
      repeat split.
    + eapply Forall_impl; [|exact Hb]. intros e. apply backed_by_app.
  - unfold helper_refs in *. rewrite map_app. cbn [map GrpcStreamingHelper.hid].
    eapply Permutation_trans; [apply Permutation_map; exact He|].
    cbn [map snd].
    eapply Permutation_trans; [apply perm_skip; exact Hp|].
    apply Permutation_cons_append.
  - rewrite map_app. cbn [map GrpcStreamingHelper.hid].
    eapply Permutation_NoDup; [apply Permutation_cons_append|].
    now constructor.
  - apply Forall_app. split.
    + eapply Forall_impl; [|exact Hlt]. intros o Ho. cbv beta in *. lia.
    + constructor; [cbn; lia | constructor].
Qed.

Lemma entries_with_orders c k h :
  Permutation
    (entries (Client.with_orders c (Client._gridpool_orders_streams c ++ [(k, h)])))
    ((GrpcStreamingHelper.NameOfOrdersKey k,
      GrpcStreamingHelper.ReceiveGridpoolOrdersStream (fst k) (snd k), h)
       :: entries c).
Proof.
  unfold entries, Client.with_orders.
  cbn [Client._gridpool_orders_streams Client._gridpool_trades_streams
       Client._public_trades_streams].
  rewrite map_app. cbn [map fst snd]. rewrite <- app_assoc. cbn [app].
  apply Permutation_sym, Permutation_middle.
Qed.

Lemma entries_with_trades c k h :
  Permutation
    (entries (Client.with_trades c (Client._gridpool_trades_streams c ++ [(k, h)])))
    ((GrpcStreamingHelper.NameOfTradeFilter (snd k),
      GrpcStreamingHelper.ReceiveGridpoolTradesStream (fst k) (snd k), h)
       :: entries c).
Proof.
  unfold entries, Client.with_trades.
  cbn [Client._gridpool_orders_streams Client._gridpool_trades_streams
       Client._public_trades_streams].
  rewrite map_app. cbn [map fst snd]. rewrite <- (app_assoc (map _ _) [_]).
  cbn [app]. rewrite app_assoc.
  eapply Permutation_trans; [apply Permutation_sym, Permutation_middle|].
  rewrite <- app_assoc. apply Permutation_refl.
Qed.

Lemma entries_with_public c k h :
  Permutation
    (entries (Client.with_public c (Client._public_trades_streams c ++ [(k, h)])))
    ((GrpcStreamingHelper.NameOfPublicTradeFilter k,
      GrpcStreamingHelper.ReceivePublicTradesStream k, h)
       :: entries c).
Proof.
  unfold entries, Client.with_public.
  cbn [Client._gridpool_orders_streams Client._gridpool_trades_streams
       Client._public_trades_streams].
  rewrite map_app. cbn [map fst snd]. rewrite !app_assoc.
  apply Permutation_sym, Permutation_cons_append.
Qed.

Section OneRegistry.
Context {K : Type}
        (hashable : K -> bool) (eqb : K -> K -> bool)
        (registry : Client.t -> dict.t (K := K) (V := nat))
        (with_registry : Client.t -> dict.t (K := K) (V := nat) -> Client.t)
        (name : K -> GrpcStreamingHelper.StreamName)
        (method : K -> GrpcStreamingHelper.StreamMethod).
Hypothesis registry_with : forall c d, registry (with_registry c d) = d.
Hypothesis eqb_refl : forall k, eqb k k = true.
Hypothesis entries_with :
  forall c k h,
    Permutation (entries (with_registry c (registry c ++ [(k, h)])))
                ((name k, method k, h) :: entries c).

Lemma subscribe_correspond (k : K) (w : Client.World) :
  helpers_correspond (Client.self w) (Client.helper_objs w)
                     (next_id (Client.runtime w)) ->
  helpers_correspond
    (Client.self
       (snd (subscribe hashable eqb registry with_registry name method k w)))
    (Client.helper_objs
       (snd (subscribe hashable eqb registry with_registry name method k w)))
    (next_id
       (Client.runtime
          (snd (subscribe hashable eqb registry with_registry name method k w)))).
Proof.
  intro Hw. destruct (hashable k) eqn:Hh.
  - destruct (dict.lookup eqb (registry (Client.self w)) k) as [h|] eqn:Hl.
    + rewrite (subscribe_present hashable eqb registry with_registry name method
                 k h w Hh Hl).
      cbn [snd Client.self Client.helper_objs Client.runtime one_object_later next_id].
      apply correspond_update_helper; [apply add_receiver_keeps|].
      apply (correspond_later _ _ (next_id (Client.runtime w))); [lia | exact Hw].
    + rewrite (subscribe_absent hashable eqb registry with_registry name method
                 registry_with eqb_refl k w Hh Hl).
      cbn [snd Client.self Client.helper_objs Client.runtime next_id].
      apply correspond_update_helper; [apply add_receiver_keeps|].
      apply (correspond_later _ _ (S (next_id (Client.runtime w)))); [lia|].
      apply (correspond_new (Client.self w)); [exact Hw | apply entries_with].
  - rewrite (subscribe_unhashable hashable eqb registry with_registry name method
               k w Hh).
    exact Hw.
Qed.
End OneRegistry.

Lemma step_correspond (w : Client.World) (e : Event) :
  helpers_correspond (Client.self w) (Client.helper_objs w)
                     (next_id (Client.runtime w)) ->
  helpers_correspond (Client.self (step w e)) (Client.helper_objs (step w e))
                     (next_id (Client.runtime (step w e))).
Proof.
  intro Hw.
  destruct e as [g os ms da dp tg | g ts ti ms dp da | ss dp ba sa | h]; cbn [step].
  - change (Client.stream_gridpool_orders g os ms da dp tg)
      with (orders_subscribe
              (g, {| GridpoolOrderFilter.order_states := os;
                     GridpoolOrderFilter.side := ms;
                     GridpoolOrderFilter.delivery_period := dp;
                     GridpoolOrderFilter.delivery_area := da;
                     GridpoolOrderFilter.tag := tg |})).
    unfold orders_subscribe.
    apply subscribe_correspond;
      [reflexivity | apply orders_eq_refl | apply entries_with_orders | exact Hw].
  - change (Client.stream_gridpool_trades g ts ti ms dp da)
      with (trades_subscribe
              (g, {| GridpoolTradeFilter.trade_states := ts;
                     GridpoolTradeFilter.trade_id_lists := ti;
                     GridpoolTradeFilter.side := ms;
                     GridpoolTradeFilter.delivery_period := dp;
                     GridpoolTradeFilter.delivery_area := da |})).
    unfold trades_subscribe.
    apply subscribe_correspond;
      [reflexivity | apply trades_eq_refl | apply entries_with_trades | exact Hw].
  - change (Client.stream_public_trades ss dp ba sa)
      with (public_subscribe
              {| PublicTradeFilter.states := ss;
                 PublicTradeFilter.delivery_period := dp;
                 PublicTradeFilter.buy_delivery_area := ba;
                 PublicTradeFilter.sell_delivery_area := sa |}).
    unfold public_subscribe.
    apply subscribe_correspond;
      [reflexivity | apply PublicTradeFilter_eq_refl | apply entries_with_public
       | exact Hw].
  - cbn. apply correspond_update_helper; [apply stop_keeps | exact Hw].
Qed.

Lemma run_correspond (events : list Event) (w : Client.World) :
  helpers_correspond (Client.self w) (Client.helper_objs w)
                     (next_id (Client.runtime w)) ->
  helpers_correspond (Client.self (run events w)) (Client.helper_objs (run events w))
                     (next_id (Client.runtime (run events w))).
Proof.
  revert w. induction events as [|e events IH]; intros w Hw; cbn; [assumption|].
  apply IH, step_correspond, Hw.
Qed.

Lemma initial_correspond (stub : Client.Stub) :
  helpers_correspond (Client.self (Client.initial_world stub))
                     (Client.helper_objs (Client.initial_world stub))
                     (next_id (Client.runtime (Client.initial_world stub))).
Proof.
  cbn. repeat split; try constructor.
Qed.

Lemma reachable_correspond (stub : Client.Stub) (events : list Event) :
  helpers_correspond
    (Client.self (run events (Client.initial_world stub)))
    (Client.helper_objs (run events (Client.initial_world stub)))
    (next_id (Client.runtime (run events (Client.initial_world stub)))).
Proof. apply run_correspond, initial_correspond. Qed.
End Correspondence.

Section Served.
Context {L : PyLib}.

Lemma lookup_in {K V} (eqb : K -> K -> bool) (d : dict.t (K := K) (V := V)) k h :
  dict.lookup eqb d k = Some h -> exists k', In (k', h) d /\ eqb k' k = true.
Proof.
  unfold dict.lookup. destruct (find _ d) as [[k' v]|] eqn:Hf; [|discriminate].
  intro H. injection H as <-. apply find_some in Hf. now exists k'.
Qed.

Lemma helper_refs_by_registry (c : Client.t) :
  helper_refs c
  = map snd (Client._gridpool_orders_streams c)
    ++ map snd (Client._gridpool_trades_streams c)
    ++ map snd (Client._public_trades_streams c).
Proof.
  unfold helper_refs, entries. rewrite !map_app, !map_map. reflexivity.
Qed.

Lemma lookup_ref {K} (eqb : K -> K -> bool) (d : dict.t (K := K) (V := nat)) k h :
  dict.lookup eqb d k = Some h -> In h (map snd d).
Proof.
  intro H. apply lookup_in in H. destruct H as (a & Ha & _).
  apply (in_map snd) in Ha. exact Ha.
Qed.
(** The helper an entry refers to exists. *)
Lemma refs_constructed (w : Client.World) (h : nat) :
  helpers_correspond (Client.self w) (Client.helper_objs w)
                     (next_id (Client.runtime w)) ->
  In h (helper_refs (Client.self w)) -> In h (constructed w).
Proof.
  intros (_ & Hp & _) Hin. unfold constructed.
  eapply Permutation_in; [exact Hp | exact Hin].
Qed.

Lemma orders_served w k h :
  Client.orders_hashable k = true ->
  dict.lookup Client.orders_eq (Client._gridpool_orders_streams (Client.self w)) k
  = Some h ->
  exists r w', orders_call k w = (inr r, w')
               /\ receiver_of r = h /\ constructed w' = constructed w.
Proof.
  rewrite orders_call_subscribe.
  apply (subscribe_served Client.orders_hashable Client.orders_eq
           Client._gridpool_orders_streams Client.with_orders).
Qed.

Lemma trades_served w k h :
  Client.trades_hashable k = true ->
  dict.lookup Client.trades_eq (Client._gridpool_trades_streams (Client.self w)) k
  = Some h ->
  exists r w', trades_call k w = (inr r, w')
               /\ receiver_of r = h /\ constructed w' = constructed w.
Proof.
  rewrite trades_call_subscribe.
  apply (subscribe_served Client.trades_hashable Client.trades_eq
           Client._gridpool_trades_streams Client.with_trades).
Qed.

Lemma public_served w k h :
  PublicTradeFilter_hashable k = true ->
  dict.lookup PublicTradeFilter_eq (Client._public_trades_streams (Client.self w)) k
  = Some h ->
  exists r w', public_call k w = (inr r, w')
               /\ receiver_of r = h /\ constructed w' = constructed w.
Proof.
  rewrite public_call_subscribe.
  apply (subscribe_served PublicTradeFilter_hashable PublicTradeFilter_eq
           Client._public_trades_streams Client.with_public).
Qed.

Lemma orders_reuses_or_opens w k :
  helpers_correspond (Client.self w) (Client.helper_objs w)
                     (next_id (Client.runtime w)) ->
  Client.orders_hashable k = true ->
  call_reuses_or_opens Client.orders_eq Client._gridpool_orders_streams
                       orders_call w k.
Proof.
  intros Hw Hh. unfold call_reuses_or_opens. rewrite orders_call_subscribe.
  apply (subscribe_reuses_or_opens Client.orders_hashable Client.orders_eq
           Client._gridpool_orders_streams Client.with_orders _ _
           (fun _ _ => eq_refl) orders_eq_refl k w Hh).
  - intros h Hl. apply (refs_constructed w h Hw).
    rewrite helper_refs_by_registry. apply in_or_app. left.
    eapply lookup_ref. exact Hl.
  - apply Hw.
Qed.

Lemma trades_reuses_or_opens w k :
  helpers_correspond (Client.self w) (Client.helper_objs w)
                     (next_id (Client.runtime w)) ->
  Client.trades_hashable k = true ->
  call_reuses_or_opens Client.trades_eq Client._gridpool_trades_streams
                       trades_call w k.
Proof.
  intros Hw Hh. unfold call_reuses_or_opens. rewrite trades_call_subscribe.
  apply (subscribe_reuses_or_opens Client.trades_hashable Client.trades_eq
           Client._gridpool_trades_streams Client.with_trades _ _
           (fun _ _ => eq_refl) trades_eq_refl k w Hh).
  - intros h Hl. apply (refs_constructed w h Hw).
    rewrite helper_refs_by_registry. apply in_or_app. right.
    apply in_or_app. left. eapply lookup_ref. exact Hl.
  - apply Hw.
Qed.

Lemma public_reuses_or_opens w k :
  helpers_correspond (Client.self w) (Client.helper_objs w)
                     (next_id (Client.runtime w)) ->
  PublicTradeFilter_hashable k = true ->
  call_reuses_or_opens PublicTradeFilter_eq Client._public_trades_streams
                       public_call w k.
Proof.
  intros Hw Hh. unfold call_reuses_or_opens. rewrite public_call_subscribe.
  apply (subscribe_reuses_or_opens PublicTradeFilter_hashable PublicTradeFilter_eq
           Client._public_trades_streams Client.with_public _ _
           (fun _ _ => eq_refl) PublicTradeFilter_eq_refl k w Hh).
  - intros h Hl. apply (refs_constructed w h Hw).
    rewrite helper_refs_by_registry. apply in_or_app. right.
    apply in_or_app. right. eapply lookup_ref. exact Hl.
  - apply Hw.
Qed.
End Served.


(** C5. In a client reached from a new one by any sequence of [stream_*]
    calls and stream terminations, no registry holds two entries with equal
    keys, and a [stream_*] call with a hashable key constructs a helper
    exactly when the key has no entry: with an entry the call returns a
    new receiver of the helper of that entry (an object created by the
    call, one more among the receivers of the helper) and leaves the
    registry as it is, without one it binds the key to the one helper it
    constructs and returns a new receiver of it. *)
Theorem stream_registries_coalesce (L : PyLib) (stub : Client.Stub)
    (events : list Event) :
  let w := run events (Client.initial_world stub) in
  coalesces Client.orders_hashable Client.orders_eq
            Client._gridpool_orders_streams orders_call w
  /\ coalesces Client.trades_hashable Client.trades_eq
               Client._gridpool_trades_streams trades_call w
  /\ coalesces PublicTradeFilter_hashable PublicTradeFilter_eq
               Client._public_trades_streams public_call w.
Proof.
  intro w.
  destruct (run_at_most_one events (Client.initial_world stub)) as (Ho & Ht & Hp).
  { repeat split; apply at_most_one_nil. }
  pose proof (reachable_correspond stub events) as Hw.
  unfold coalesces. repeat split; try assumption; intros k Hk.
  - now apply orders_reuses_or_opens.
  - now apply trades_reuses_or_opens.
  - now apply public_reuses_or_opens.
Qed.

(** C6, as the code has it. The client never removes an entry: a key bound
    to a helper stays bound to that helper through any later [stream_*]
    calls and stream terminations, and a later call with the key returns a
    receiver of that helper and constructs none. *)
Theorem registry_entries_are_never_removed (L : PyLib) (w : Client.World)
    (events : list Event) :
  (forall k h,
      Client.orders_hashable k = true ->
      dict.lookup Client.orders_eq
        (Client._gridpool_orders_streams (Client.self w)) k = Some h ->
      entry_persists Client.orders_eq Client._gridpool_orders_streams orders_call
                     w events k h)
  /\ (forall k h,
         Client.trades_hashable k = true ->
         dict.lookup Client.trades_eq
           (Client._gridpool_trades_streams (Client.self w)) k = Some h ->
         entry_persists Client.trades_eq Client._gridpool_trades_streams trades_call
                        w events k h)
  /\ (forall k h,
         PublicTradeFilter_hashable k = true ->
         dict.lookup PublicTradeFilter_eq
           (Client._public_trades_streams (Client.self w)) k = Some h ->
         entry_persists PublicTradeFilter_eq Client._public_trades_streams public_call
                        w events k h).
Proof.
  unfold entry_persists. repeat split.
  - now apply run_lookup_orders.
  - pose proof (run_lookup_orders events w k h H0) as Hl.
    exact (orders_served (run events w) k h H Hl).
  - now apply run_lookup_trades.
  - pose proof (run_lookup_trades events w k h H0) as Hl.
    exact (trades_served (run events w) k h H Hl).
  - now apply run_lookup_public.
  - pose proof (run_lookup_public events w k h H0) as Hl.
    exact (public_served (run events w) k h H Hl).
Qed.

(** C6, as stated, fails: after [stream_public_trades()] on a new client
    the key is bound to helper 0; when the upstream stream of that helper
    has ended the key is still bound to it, and the next call with the key
    constructs no helper. *)
Lemma entry_kept_after_upstream_termination :
  let k := Examples.any_public_trade in
  let w0 := run [StreamPublicTrades None None None None] Examples.world0 in
  let w1 := step w0 (UpstreamTerminated 0) in
  dict.lookup PublicTradeFilter_eq (Client._public_trades_streams (Client.self w0)) k
  = Some 0%nat
  /\ dict.lookup PublicTradeFilter_eq (Client._public_trades_streams (Client.self w1)) k
     = Some 0%nat
  /\ constructed (snd (public_call k w1)) = [0%nat]
  /\ ~ entry_removed_on_termination PublicTradeFilter_eq
         Client._public_trades_streams public_call w0 k 0.
Proof.
  cbv zeta. repeat split.
  intros [H _]. vm_compute in H. discriminate H.
Qed.

(** C10. A [stream_*] call given a list of states raises the [TypeError] of
    hashing a list at the lookup in the registry: no helper is constructed,
    nothing is sent, the client is as before. *)
Theorem stream_with_state_list_raises_TypeError (L : PyLib) (w : Client.World)
    (gridpool_id : Z)
    (order_states : list OrderState.t) (trade_states states : list TradeState.t)
    (trade_ids : option (list Z)) (market_side : option MarketSide.t)
    (delivery_area buy_delivery_area sell_delivery_area : option DeliveryArea.t)
    (delivery_period : option DeliveryPeriod.t) (tag : option string) :
  Client.stream_gridpool_orders gridpool_id (Some order_states) market_side
    delivery_area delivery_period tag w
  = (inl (TypeError "unhashable type: 'list'"), w)
  /\ Client.stream_gridpool_trades gridpool_id (Some trade_states) trade_ids
       market_side delivery_period delivery_area w
     = (inl (TypeError "unhashable type: 'list'"), w)
  /\ Client.stream_public_trades (Some states) delivery_period buy_delivery_area
       sell_delivery_area w
     = (inl (TypeError "unhashable type: 'list'"), w).
Proof.
  repeat split.
Qed.

(** ** Keys that hold a delivery period *)

(** Two periods built one after the other are never equal to [==], whatever
    their start and duration. *)
Lemma periods_built_separately_differ start1 start2 m1 m2 rt p1 rt1 p2 rt2 :
  DeliveryPeriod.__init__ start1 (timedelta_minutes m1) rt = (inr p1, rt1) ->
  DeliveryPeriod.__init__ start2 (timedelta_minutes m2) rt1 = (inr p2, rt2) ->
  DeliveryPeriod_eq p1 p2 = false.
Proof.
  unfold DeliveryPeriod.__init__, bind, fresh_id, DeliveryPeriod_eq.
  intros H1 H2.
  repeat match type of H1 with
         | (if ?b then _ else _) _ = _ => destruct b
         end; inversion H1; subst; clear H1;
    repeat match type of H2 with
           | (if ?b then _ else _) _ = _ => destruct b
           end; inversion H2; subst; clear H2;
    cbn; apply Nat.eqb_neq; lia.
Qed.

(** [==] on the types of a key is equality of values, but for periods,
    where it is equality of the objects. *)
Section EqbSpec.
Context {A : Type} (eqb : A -> A -> bool) (R : A -> A -> Prop).
Hypothesis eqb_spec : forall a b, eqb a b = true <-> R a b.

Lemma option_eqb_spec (x y : option A) :
  option_eqb eqb x y = true <->
  match x, y with
  | Some a, Some b => R a b
  | None, None => True
  | _, _ => False
  end.
Proof.
  destruct x, y; cbn; try apply eqb_spec; split; auto; discriminate.
Qed.

Lemma list_eqb_spec (x y : list A) :
  list_eqb eqb x y = true <-> Forall2 R x y.
Proof.
  revert y. induction x as [|a x IH]; intros [|b y]; cbn.
  - split; auto.
  - split; [discriminate | intro H; inversion H].
  - split; [discriminate | intro H; inversion H].
  - rewrite andb_true_iff, eqb_spec, IH. split.
    + intros [H1 H2]. now constructor.
    + intro H. inversion H; subst. auto.
Qed.
End EqbSpec.

Lemma Forall2_eq {A} (x y : list A) : Forall2 eq x y <-> x = y.
Proof.
  split.
  - induction 1; congruence.
  - intros ->. induction y; constructor; auto.
Qed.

Lemma option_eqb_eq {A} (eqb : A -> A -> bool) :
  (forall a b, eqb a b = true <-> a = b) ->
  forall x y, option_eqb eqb x y = true <-> x = y.
Proof.
  intros H x y. rewrite (option_eqb_spec eqb eq H).
  destruct x, y; split; try congruence; try tauto.
Qed.

Lemma list_eqb_eq {A} (eqb : A -> A -> bool) :
  (forall a b, eqb a b = true <-> a = b) ->
  forall x y, list_eqb eqb x y = true <-> x = y.
Proof.
  intros H x y. rewrite (list_eqb_spec eqb eq H). apply Forall2_eq.
Qed.

Lemma OrderState_eqb_eq a b : OrderState_eqb a b = true <-> a = b.
Proof. destruct a, b; cbn; split; intro H; congruence. Qed.

Lemma TradeState_eqb_eq a b : TradeState_eqb a b = true <-> a = b.
Proof. destruct a, b; cbn; split; intro H; congruence. Qed.

Lemma MarketSide_eqb_eq a b : MarketSide_eqb a b = true <-> a = b.
Proof. destruct a, b; cbn; split; intro H; congruence. Qed.

Lemma EnergyMarketCodeType_eqb_eq a b :
  EnergyMarketCodeType_eqb a b = true <-> a = b.
Proof. destruct a, b; cbn; split; intro H; congruence. Qed.

Lemma DeliveryArea_eq_eq a b : DeliveryArea_eq a b = true <-> a = b.
Proof.
  unfold DeliveryArea_eq.
  rewrite andb_true_iff, String.eqb_eq, EnergyMarketCodeType_eqb_eq.
  destruct a, b; cbn. split; [intros [-> ->]; reflexivity | intros [= -> ->]; auto].
Qed.

Lemma option_period_eq_spec x y :
  option_eqb DeliveryPeriod_eq x y = true <-> same_period_object x y.
Proof.
  unfold same_period_object, DeliveryPeriod_eq.
  destruct x, y; cbn; try rewrite Nat.eqb_eq; split; try congruence; auto.
Qed.

Lemma GridpoolOrderFilter_eq_spec a b :
  GridpoolOrderFilter_eq a b = true <->
  GridpoolOrderFilter.order_states a = GridpoolOrderFilter.order_states b
  /\ GridpoolOrderFilter.side a = GridpoolOrderFilter.side b
  /\ same_period_object (GridpoolOrderFilter.delivery_period a)
                        (GridpoolOrderFilter.delivery_period b)
  /\ GridpoolOrderFilter.delivery_area a = GridpoolOrderFilter.delivery_area b
  /\ GridpoolOrderFilter.tag a = GridpoolOrderFilter.tag b.
Proof.
  unfold GridpoolOrderFilter_eq.
  rewrite !andb_true_iff.
  rewrite (option_eqb_eq _ (list_eqb_eq _ OrderState_eqb_eq)),
          (option_eqb_eq _ MarketSide_eqb_eq), option_period_eq_spec,
          (option_eqb_eq _ DeliveryArea_eq_eq), (option_eqb_eq _ String.eqb_eq).
  tauto.
Qed.

Lemma GridpoolTradeFilter_eq_spec a b :
  GridpoolTradeFilter_eq a b = true <->
  GridpoolTradeFilter.trade_states a = GridpoolTradeFilter.trade_states b
  /\ GridpoolTradeFilter.trade_id_lists a = GridpoolTradeFilter.trade_id_lists b
  /\ GridpoolTradeFilter.side a = GridpoolTradeFilter.side b
  /\ same_period_object (GridpoolTradeFilter.delivery_period a)
                        (GridpoolTradeFilter.delivery_period b)
  /\ GridpoolTradeFilter.delivery_area a = GridpoolTradeFilter.delivery_area b.
Proof.
  unfold GridpoolTradeFilter_eq.
  rewrite !andb_true_iff.
  rewrite (option_eqb_eq _ (list_eqb_eq _ TradeState_eqb_eq)),
          (option_eqb_eq _ (list_eqb_eq _ Z.eqb_eq)),
          (option_eqb_eq _ MarketSide_eqb_eq), option_period_eq_spec,
          (option_eqb_eq _ DeliveryArea_eq_eq).
  tauto.
Qed.

Lemma PublicTradeFilter_eq_spec a b :
  PublicTradeFilter_eq a b = true <->
  PublicTradeFilter.states a = PublicTradeFilter.states b
  /\ same_period_object (PublicTradeFilter.delivery_period a)
                        (PublicTradeFilter.delivery_period b)
  /\ PublicTradeFilter.buy_delivery_area a = PublicTradeFilter.buy_delivery_area b
  /\ PublicTradeFilter.sell_delivery_area a = PublicTradeFilter.sell_delivery_area b.
Proof.
  unfold PublicTradeFilter_eq.
  rewrite !andb_true_iff.
  rewrite (option_eqb_eq _ (list_eqb_eq _ TradeState_eqb_eq)),
          option_period_eq_spec, !(option_eqb_eq _ DeliveryArea_eq_eq).
  tauto.
Qed.

(** C4 at its failing input. Two periods with the same start and the same
    duration, built separately, make two stream keys that are not equal: the
    second subscription finds no entry, constructs a second helper and is
    served by it. *)
Theorem equal_periods_built_separately_open_two_streams :
  exists p1 p2 r1 r2 w,
    Examples.subscribe_with_two_equal_periods Examples.world0 = (inr (p1, p2, r1, r2), w)
    /\ DeliveryPeriod.start p1 = DeliveryPeriod.start p2
    /\ DeliveryPeriod.duration p1 = DeliveryPeriod.duration p2
    /\ DeliveryPeriod_eq p1 p2 = false
    /\ receiver_of r1 <> receiver_of r2
    /\ List.length (constructed w) = 2%nat
    /\ List.length (Client._gridpool_orders_streams (Client.self w)) = 2%nat.
Proof.
  do 5 eexists. split; [vm_compute; reflexivity|].
  repeat split. cbn. discriminate.
Qed.

(** ** Decoding an encoding *)

Lemma bind_ok {S A B} (m : StE S A) (k : A -> StE S B) (s s' : S) (a : A) :
  m s = (inr a, s') -> bind m k s = k a s'.
Proof. intro H. unfold bind. now rewrite H. Qed.

Section RoundTrip.
Context {L : PyLib} {C : PbConstants}.
Context (LL : PyLibLaws L) (CL : PbConstantsLaws C).

Lemma Decimal_call_str (d : Decimal) (rt : Runtime) :
  Decimal_call (Decimal_str d) rt = (inr d, rt).
Proof. unfold Decimal_call. now rewrite Decimal_new_str. Qed.

Lemma Price_from_pb_to_pb (v : Price.t) (rt : Runtime) :
  Price.from_pb (Price.to_pb v) rt = (inr v, rt).
Proof.
  destruct v as [a c]. unfold Price.from_pb, Price.to_pb. cbn [get
    price_pb2.Price.amount price_pb2.Price.currency decimal_pb2.Decimal.value
    Price.amount Price.currency].
  erewrite bind_ok by apply Decimal_call_str.
  erewrite bind_ok by (apply Currency_from_pb_to_pb, Currency_distinct).
  reflexivity.
Qed.

Lemma Energy_from_pb_to_pb (v : Energy.t) (rt : Runtime) :
  Energy.from_pb (Energy.to_pb v) rt = (inr v, rt).
Proof.
  destruct v as [m]. unfold Energy.from_pb, Energy.to_pb. cbn [get
    energy_pb2.Energy.mwh decimal_pb2.Decimal.value Energy.mwh].
  erewrite bind_ok by apply Decimal_call_str.
  reflexivity.
Qed.

Lemma DeliveryArea_from_pb_to_pb (v : DeliveryArea.t) (rt : Runtime) :
  DeliveryArea.from_pb (DeliveryArea.to_pb v) rt = (inr v, rt).
Proof.
  destruct v as [c t]. unfold DeliveryArea.from_pb, DeliveryArea.to_pb. cbn [get
    delivery_area_pb2.DeliveryArea.code delivery_area_pb2.DeliveryArea.code_type
    DeliveryArea.code DeliveryArea.code_type].
  erewrite bind_ok
    by (apply EnergyMarketCodeType_from_pb_to_pb, EnergyMarketCodeType_distinct).
  reflexivity.
Qed.

Lemma DeliveryPeriod_decoded (p : DeliveryPeriod.t) (rt : Runtime) :
  constructible p ->
  encodable (DeliveryPeriod.start p) ->
  DeliveryPeriod.from_pb (period_encoding p) rt =
  (inr (decoded_period (next_id rt) p), one_object_later rt).
Proof.
  intros Hp He.
  apply DeliveryPeriod_from_pb_encoding;
    [apply DeliveryDuration_distinct | exact Hp | exact He].
Qed.

Lemma DeliveryPeriod_rebuilt (p : DeliveryPeriod.t) (rt : Runtime) :
  Period_round_trips p ->
  decode_encoding DeliveryPeriod.to_pb DeliveryPeriod.from_pb p rt =
  (inr (rebuilt (next_id rt) p), one_object_later rt).
Proof.
  intros [Hp Hs]. rewrite <- (decoded_period_plain _ _ Hs).
  apply DeliveryPeriod_from_pb_to_pb;
    [apply DeliveryDuration_distinct | exact Hp | now apply plain_encodable].
Qed.

Lemma StateDetail_from_pb_to_pb (v : StateDetail.t) (rt : Runtime) :
  StateDetail.from_pb (StateDetail.to_pb v) rt = (inr v, rt).
Proof.
  destruct v as [s r a]. unfold StateDetail.from_pb, StateDetail.to_pb. cbn [get
    electricity_trading_pb2.StateDetail.state
    electricity_trading_pb2.StateDetail.state_reason
    electricity_trading_pb2.StateDetail.market_actor
    StateDetail.state StateDetail.state_reason StateDetail.market_actor].
  erewrite bind_ok by (apply OrderState_from_pb_to_pb, OrderState_distinct).
  erewrite bind_ok by (apply StateReason_from_pb_to_pb, StateReason_distinct).
  erewrite bind_ok by (apply MarketActor_from_pb_to_pb, MarketActor_distinct).
  reflexivity.
Qed.

Lemma OrderStates_from_pb_to_pb (l : list OrderState.t) (rt : Runtime) :
  list_map_m OrderState.from_pb (map wire_value l) rt = (inr l, rt).
Proof.
  induction l as [|e l IH]; cbn [map list_map_m]; [reflexivity|].
  erewrite bind_ok by (apply OrderState_from_pb_to_pb, OrderState_distinct).
  erewrite bind_ok by apply IH.
  reflexivity.
Qed.

Lemma TradeStates_from_pb_to_pb (l : list TradeState.t) (rt : Runtime) :
  list_map_m TradeState.from_pb (map wire_value l) rt = (inr l, rt).
Proof.
  induction l as [|e l IH]; cbn [map list_map_m]; [reflexivity|].
  erewrite bind_ok by (apply TradeState_from_pb_to_pb, TradeState_distinct).
  erewrite bind_ok by apply IH.
  reflexivity.
Qed.

(** A list that is not [None] is returned as it is, the empty list through
    an omitted field. *)
Lemma states_field {A} (f : A -> Z) (l : list A) :
  get [] (py_if list_bool (Some l) (map f)) = map f l.
Proof. destruct l; reflexivity. Qed.

Lemma ids_field (l : list Z) :
  get [] (py_if list_bool (Some l) (fun l => l)) = l.
Proof. destruct l; reflexivity. Qed.

Lemma tag_field (s : string) :
  get EmptyString (py_if str_bool (Some s) (fun s => s)) = s.
Proof. destruct s; reflexivity. Qed.
End RoundTrip.

Section RoundTripRecords.
Context {L : PyLib} {C : PbConstants}.
Context (LL : PyLibLaws L) (CL : PbConstantsLaws C).

Lemma optional_price (x : option Price.t) (rt : Runtime) :
  (if HasField (py_if always x Price.to_pb)
   then p <- Price.from_pb
               (get price_pb2.Price.default (py_if always x Price.to_pb)) ;;
        ret (Some p)
   else ret None) rt = (inr x, rt).
Proof.
  destruct x as [p|]; cbn [py_if always HasField get]; [|reflexivity].
  erewrite bind_ok by (apply Price_from_pb_to_pb; assumption).
  reflexivity.
Qed.

Lemma optional_energy (x : option Energy.t) (rt : Runtime) :
  (if HasField (py_if always x Energy.to_pb)
   then q <- Energy.from_pb
               (get energy_pb2.Energy.default (py_if always x Energy.to_pb)) ;;
        ret (Some q)
   else ret None) rt = (inr x, rt).
Proof.
  destruct x as [q|]; cbn [py_if always HasField get]; [|reflexivity].
  erewrite bind_ok by (apply Energy_from_pb_to_pb; assumption).
  reflexivity.
Qed.

Lemma optional_execution_option (x : option OrderExecutionOption.t) (rt : Runtime) :
  (if HasField (py_if always x wire_value)
   then o <- OrderExecutionOption.from_pb (get 0 (py_if always x wire_value)) ;;
        ret (Some o)
   else ret None) rt = (inr x, rt).
Proof.
  destruct x as [o|]; cbn [py_if always HasField get]; [|reflexivity].
  erewrite bind_ok
    by (apply OrderExecutionOption_from_pb_to_pb, OrderExecutionOption_distinct).
  reflexivity.
Qed.

Lemma ids_fit (field : IntField) (l : list Z) :
  forallb (int_fits field) l = true -> res_map (int_field field) l = inr l.
Proof.
  induction l as [|a l IH]; cbn [forallb res_map]; [reflexivity|].
  rewrite andb_true_iff. intros [Ha Hl]. unfold int_field at 1. rewrite Ha.
  cbn [res_bind]. now rewrite IH.
Qed.

(** The encoding of an order whose times [FromDatetime] accepts. *)
Lemma Order_to_pb_encodable (v : Order.t) :
  encodable (DeliveryPeriod.start (Order.delivery_period v)) ->
  (forall dt, Order.valid_until v = Some dt -> encodable dt) ->
  Order.to_pb v
  = inr {| electricity_trading_pb2.Order.delivery_area :=
             Some (DeliveryArea.to_pb (Order.delivery_area v));
           electricity_trading_pb2.Order.delivery_period :=
             Some (period_encoding (Order.delivery_period v));
           electricity_trading_pb2.Order.type := Some (wire_value (Order.type v));
           electricity_trading_pb2.Order.side := Some (wire_value (Order.side v));
           electricity_trading_pb2.Order.price := Some (Price.to_pb (Order.price v));
           electricity_trading_pb2.Order.quantity :=
             Some (Energy.to_pb (Order.quantity v));
           electricity_trading_pb2.Order.stop_price :=
             py_if always (Order.stop_price v) Price.to_pb;
           electricity_trading_pb2.Order.peak_price_delta :=
             py_if always (Order.peak_price_delta v) Price.to_pb;
           electricity_trading_pb2.Order.display_quantity :=
             py_if always (Order.display_quantity v) Energy.to_pb;
           electricity_trading_pb2.Order.execution_option :=
             py_if always (Order.execution_option v) wire_value;
           electricity_trading_pb2.Order.valid_until :=
             option_map filled_from (Order.valid_until v);
           electricity_trading_pb2.Order.payload :=
             py_if dict_bool (Order.payload v) Struct_new;
           electricity_trading_pb2.Order.tag :=
             py_if str_bool (Order.tag v) (fun s => s) |}.
Proof.
  intros Hs Hv. unfold Order.to_pb.
  rewrite valid_until_filled by exact Hv. cbn [res_bind].
  rewrite DeliveryPeriod_to_pb_encodable by exact Hs.
  reflexivity.
Qed.

(** Decoding the encoding of an order around a constructed period, with
    times [FromDatetime] accepts: three fields can change, and the times
    come back as [ToDatetime] returns them. *)
Lemma Order_decode_encoding (v : Order.t) (rt : Runtime) :
  constructible (Order.delivery_period v) ->
  encodable (DeliveryPeriod.start (Order.delivery_period v)) ->
  (forall dt, Order.valid_until v = Some dt -> encodable dt) ->
  exists valid_until payload tag,
    decode_encoding Order.to_pb Order.from_pb v rt
    = (inr {| Order.delivery_area := Order.delivery_area v;
              Order.delivery_period :=
                decoded_period (next_id rt) (Order.delivery_period v);
              Order.type := Order.type v;
              Order.side := Order.side v;
              Order.price := Order.price v;
              Order.quantity := Order.quantity v;
              Order.stop_price := Order.stop_price v;
              Order.peak_price_delta := Order.peak_price_delta v;
              Order.display_quantity := Order.display_quantity v;
              Order.execution_option := Order.execution_option v;
              Order.valid_until := valid_until;
              Order.payload := payload;
              Order.tag := tag |},
       one_object_later rt)
    /\ valid_until
       = Some (match Order.valid_until v with
               | Some dt => returned dt
               | None => epoch
               end)
    /\ tag = (if truthy str_bool (Order.tag v) then Order.tag v else None)
    /\ (Order.payload v = None -> payload = None).
Proof.
  intros Hp Hs Hv. unfold decode_encoding.
  erewrite bind_try_ok by (apply Order_to_pb_encodable; assumption).
  destruct v as [da dp ty sd pr qu sp pd dq eo vu pl tg].
  cbn [Order.delivery_area Order.delivery_period Order.type Order.side Order.price
       Order.quantity Order.stop_price Order.peak_price_delta Order.display_quantity
       Order.execution_option Order.valid_until Order.payload Order.tag] in *.
  unfold Order.from_pb.
  cbn [electricity_trading_pb2.Order.delivery_area
       electricity_trading_pb2.Order.delivery_period
       electricity_trading_pb2.Order.type electricity_trading_pb2.Order.side
       electricity_trading_pb2.Order.price electricity_trading_pb2.Order.quantity
       electricity_trading_pb2.Order.stop_price
       electricity_trading_pb2.Order.peak_price_delta
       electricity_trading_pb2.Order.display_quantity
       electricity_trading_pb2.Order.execution_option
       electricity_trading_pb2.Order.valid_until
       electricity_trading_pb2.Order.payload electricity_trading_pb2.Order.tag].
  cbn [get].
  erewrite bind_ok by apply (DeliveryArea_from_pb_to_pb CL).
  erewrite bind_ok by (apply (DeliveryPeriod_decoded CL); assumption).
  erewrite bind_ok by (apply OrderType_from_pb_to_pb, OrderType_distinct).
  erewrite bind_ok by (apply MarketSide_from_pb_to_pb, MarketSide_distinct).
  erewrite bind_ok by apply (Price_from_pb_to_pb LL CL).
  erewrite bind_ok by apply (Energy_from_pb_to_pb LL).
  erewrite bind_ok by apply optional_price.
  erewrite bind_ok by apply optional_price.
  erewrite bind_ok by apply optional_energy.
  erewrite bind_ok by apply optional_execution_option.
  cbv zeta. cbn [Timestamp.bool].
  assert (Htime :
    Timestamp.ToDatetime (get Timestamp.new (option_map filled_from vu))
    = inr (match vu with Some dt => returned dt | None => epoch end)).
  { destruct vu as [dt|]; cbn [option_map get]; [| reflexivity].
    apply Timestamp_ToDatetime_filled, Hv. reflexivity. }
  erewrite bind_ok
    by (erewrite bind_try_ok by exact Htime; reflexivity).
  unfold ret.
  eexists. eexists. eexists. split; [reflexivity|]. split; [reflexivity|]. split.
  - destruct tg as [[|a s]|]; reflexivity.
  - intros ->. cbn [py_if get]. now rewrite Struct_default_falsy.
Qed.

Lemma Order_from_pb_to_pb (v : Order.t) (rt : Runtime) :
  Order_round_trips v ->
  decode_encoding Order.to_pb Order.from_pb v rt =
  (inr (Order_with_period v (rebuilt (next_id rt) (Order.delivery_period v))),
   one_object_later rt).
Proof.
  intros ([Hp Hs] & (dt & Hdt & Hplain) & Hpl & Ht).
  destruct (Order_decode_encoding v rt Hp (plain_encodable _ Hs))
    as (vu & pl & tg & Hrun & -> & -> & Hnone).
  { intros dt' Hdt'. rewrite Hdt in Hdt'. injection Hdt' as <-.
    now apply plain_encodable. }
  rewrite Hrun, (Hnone Hpl), (decoded_period_plain _ _ Hs).
  unfold Order_with_period. rewrite Hdt, (returned_plain _ Hplain), Hpl.
  do 3 f_equal.
  destruct (Order.tag v) as [[|a s]|]; try reflexivity. now contradiction Ht.
Qed.

Lemma Trade_to_pb_encodable (v : Trade.t) :
  encodable (DeliveryPeriod.start (Trade.delivery_period v)) ->
  encodable (Trade.execution_time v) ->
  int_fits TradeId (Trade.id v) = true ->
  int_fits OrderId (Trade.order_id v) = true ->
  Trade.to_pb v
  = inr {| electricity_trading_pb2.Trade.id := Some (Trade.id v);
           electricity_trading_pb2.Trade.order_id := Some (Trade.order_id v);
           electricity_trading_pb2.Trade.side := Some (wire_value (Trade.side v));
           electricity_trading_pb2.Trade.delivery_area :=
             Some (DeliveryArea.to_pb (Trade.delivery_area v));
           electricity_trading_pb2.Trade.delivery_period :=
             Some (period_encoding (Trade.delivery_period v));
           electricity_trading_pb2.Trade.execution_time := None;
           electricity_trading_pb2.Trade.price := Some (Price.to_pb (Trade.price v));
           electricity_trading_pb2.Trade.quantity :=
             Some (Energy.to_pb (Trade.quantity v));
           electricity_trading_pb2.Trade.state :=
             Some (wire_value (Trade.state v)) |}.
Proof.
  intros Hs Ht Hi Ho. unfold Trade.to_pb.
  rewrite DeliveryPeriod_to_pb_encodable by exact Hs. cbn [res_bind].
  rewrite Timestamp_FromDatetime_encodable by exact Ht. cbn [res_bind snd].
  unfold int_field. rewrite Hi, Ho. reflexivity.
Qed.

(** The time of execution is not encoded: it decodes as the epoch. *)
Lemma Trade_decode_encoding (v : Trade.t) (rt : Runtime) :
  Trade_encodable v ->
  decode_encoding Trade.to_pb Trade.from_pb v rt =
  (inr (Trade_with v (decoded_period (next_id rt) (Trade.delivery_period v)) epoch),
   one_object_later rt).
Proof.
  intros (Hp & Hs & Ht & Hi & Ho). unfold decode_encoding.
  erewrite bind_try_ok by (apply Trade_to_pb_encodable; assumption).
  destruct v as [i oi sd da dp et pr qu st]. unfold Trade_with.
  cbn [Trade.id Trade.order_id Trade.side Trade.delivery_area Trade.delivery_period
       Trade.execution_time Trade.price Trade.quantity Trade.state] in *.
  unfold Trade.from_pb.
  cbn [electricity_trading_pb2.Trade.id electricity_trading_pb2.Trade.order_id
       electricity_trading_pb2.Trade.side
       electricity_trading_pb2.Trade.delivery_area
       electricity_trading_pb2.Trade.delivery_period
       electricity_trading_pb2.Trade.execution_time
       electricity_trading_pb2.Trade.price electricity_trading_pb2.Trade.quantity
       electricity_trading_pb2.Trade.state].
  cbn [get].
  erewrite bind_ok by (apply MarketSide_from_pb_to_pb, MarketSide_distinct).
  erewrite bind_ok by apply (DeliveryArea_from_pb_to_pb CL).
  erewrite bind_ok by (apply (DeliveryPeriod_decoded CL); assumption).
  erewrite bind_try_ok by apply Timestamp_ToDatetime_new.
  erewrite bind_ok by apply (Price_from_pb_to_pb LL CL).
  erewrite bind_ok by apply (Energy_from_pb_to_pb LL).
  erewrite bind_ok by (apply TradeState_from_pb_to_pb, TradeState_distinct).
  reflexivity.
Qed.

Lemma Trade_round_trips_encodable (v : Trade.t) :
  Trade_round_trips v -> Trade_encodable v.
Proof.
  intros ([Hp Hs] & Ht & Hi & Ho).
  repeat split; try assumption; now apply plain_encodable.
Qed.

Lemma Trade_from_pb_to_pb (v : Trade.t) (rt : Runtime) :
  Trade_round_trips v ->
  decode_encoding Trade.to_pb Trade.from_pb v rt =
  (inr (Trade_with v (rebuilt (next_id rt) (Trade.delivery_period v)) epoch),
   one_object_later rt).
Proof.
  intro Hv. rewrite <- (decoded_period_plain _ _ (proj2 (proj1 Hv))).
  now apply Trade_decode_encoding, Trade_round_trips_encodable.
Qed.

Lemma PublicTrade_from_pb_to_pb (v : PublicTrade.t) (rt : Runtime) :
  PublicTrade_round_trips v ->
  decode_encoding PublicTrade.to_pb PublicTrade.from_pb v rt =
  (inr (PublicTrade_with v (rebuilt (next_id rt) (PublicTrade.delivery_period v))
                         epoch),
   one_object_later rt).
Proof.
  intros ([Hp Hs] & Ht & Hi).
  rewrite <- (decoded_period_plain _ _ Hs).
  unfold decode_encoding, PublicTrade.to_pb.
  rewrite DeliveryPeriod_to_pb_encodable by (now apply plain_encodable).
  cbn [res_bind].
  rewrite Timestamp_FromDatetime_encodable by (now apply plain_encodable).
  cbn [res_bind snd]. unfold int_field. rewrite Hi. cbn [res_bind].
  erewrite bind_try_ok by reflexivity.
  destruct v as [i ba sa dp mt pr qu st]. unfold PublicTrade_with.
  cbn [PublicTrade.public_trade_id PublicTrade.buy_delivery_area
       PublicTrade.sell_delivery_area PublicTrade.delivery_period
       PublicTrade.modification_time PublicTrade.price PublicTrade.quantity
       PublicTrade.state] in *.
  unfold PublicTrade.from_pb.
  cbn [electricity_trading_pb2.PublicTrade.id
       electricity_trading_pb2.PublicTrade.buy_delivery_area
       electricity_trading_pb2.PublicTrade.sell_delivery_area
       electricity_trading_pb2.PublicTrade.delivery_period
       electricity_trading_pb2.PublicTrade.modification_time
       electricity_trading_pb2.PublicTrade.price
       electricity_trading_pb2.PublicTrade.quantity
       electricity_trading_pb2.PublicTrade.state].
  cbn [get].
  erewrite bind_ok by apply (DeliveryArea_from_pb_to_pb CL).
  erewrite bind_ok by apply (DeliveryArea_from_pb_to_pb CL).
  erewrite bind_ok
    by (apply (DeliveryPeriod_decoded CL); [assumption | now apply plain_encodable]).
  erewrite bind_try_ok by apply Timestamp_ToDatetime_new.
  erewrite bind_ok by apply (Price_from_pb_to_pb LL CL).
  erewrite bind_ok by apply (Energy_from_pb_to_pb LL).
  erewrite bind_ok by (apply TradeState_from_pb_to_pb, TradeState_distinct).
  reflexivity.
Qed.

Lemma OrderDetail_from_pb_to_pb (v : OrderDetail.t) (rt : Runtime) :
  OrderDetail_round_trips v ->
  decode_encoding OrderDetail.to_pb OrderDetail.from_pb v rt =
  (inr (OrderDetail_with v
          (Order_with_period (OrderDetail.order v)
             (rebuilt (next_id rt) (Order.delivery_period (OrderDetail.order v))))
          epoch epoch),
   one_object_later rt).
Proof.
  intros (Ho & Hc & Hm & Hi).
  pose proof (Order_from_pb_to_pb (OrderDetail.order v) rt Ho) as Horder.
  unfold decode_encoding in Horder.
  destruct (Order.to_pb (OrderDetail.order v)) as [e | order_pb] eqn:Hpb;
    [discriminate Horder|].
  erewrite bind_try_ok in Horder by reflexivity.
  unfold decode_encoding, OrderDetail.to_pb. rewrite Hpb. cbn [res_bind].
  rewrite Timestamp_FromDatetime_encodable by (now apply plain_encodable).
  cbn [res_bind].
  rewrite Timestamp_FromDatetime_encodable by (now apply plain_encodable).
  cbn [res_bind snd]. unfold int_field. rewrite Hi. cbn [res_bind].
  erewrite bind_try_ok by reflexivity.
  destruct v as [oi o sd oq fq ct mt]. unfold OrderDetail_with.
  cbn [OrderDetail.order_id OrderDetail.order OrderDetail.state_detail
       OrderDetail.open_quantity OrderDetail.filled_quantity
       OrderDetail.create_time OrderDetail.modification_time] in *.
  unfold OrderDetail.from_pb.
  cbn [electricity_trading_pb2.OrderDetail.order_id
       electricity_trading_pb2.OrderDetail.order
       electricity_trading_pb2.OrderDetail.state_detail
       electricity_trading_pb2.OrderDetail.open_quantity
       electricity_trading_pb2.OrderDetail.filled_quantity
       electricity_trading_pb2.OrderDetail.create_time
       electricity_trading_pb2.OrderDetail.modification_time].
  cbn [get].
  erewrite bind_ok by exact Horder.
  erewrite bind_ok by apply (StateDetail_from_pb_to_pb CL).
  erewrite bind_ok by apply (Energy_from_pb_to_pb LL).
  erewrite bind_ok by apply (Energy_from_pb_to_pb LL).
  erewrite bind_try_ok by apply Timestamp_ToDatetime_new.
  erewrite bind_try_ok by apply Timestamp_ToDatetime_new.
  reflexivity.
Qed.

Lemma GridpoolOrderFilter_from_pb_to_pb
      (order_states : list OrderState.t) (side : MarketSide.t)
      (delivery_period : DeliveryPeriod.t) (delivery_area : DeliveryArea.t)
      (tag : string) (rt : Runtime) :
  Period_round_trips delivery_period ->
  decode_encoding GridpoolOrderFilter.to_pb GridpoolOrderFilter.from_pb
    {| GridpoolOrderFilter.order_states := Some order_states;
       GridpoolOrderFilter.side := Some side;
       GridpoolOrderFilter.delivery_period := Some delivery_period;
       GridpoolOrderFilter.delivery_area := Some delivery_area;
       GridpoolOrderFilter.tag := Some tag |} rt =
  (inr {| GridpoolOrderFilter.order_states := Some order_states;
          GridpoolOrderFilter.side := Some side;
          GridpoolOrderFilter.delivery_period :=
            Some (rebuilt (next_id rt) delivery_period);
          GridpoolOrderFilter.delivery_area := Some delivery_area;
          GridpoolOrderFilter.tag := Some tag |},
   one_object_later rt).
Proof.
  intros [Hp Hs]. rewrite <- (decoded_period_plain _ _ Hs).
  unfold decode_encoding, GridpoolOrderFilter.to_pb.
  cbn [GridpoolOrderFilter.order_states GridpoolOrderFilter.side
       GridpoolOrderFilter.delivery_period GridpoolOrderFilter.delivery_area
       GridpoolOrderFilter.tag py_if_res always].
  rewrite DeliveryPeriod_to_pb_encodable by (now apply plain_encodable).
  cbn [res_bind]. erewrite bind_try_ok by reflexivity.
  unfold GridpoolOrderFilter.from_pb.
  cbn [electricity_trading_pb2.GridpoolOrderFilter.states
       electricity_trading_pb2.GridpoolOrderFilter.side
       electricity_trading_pb2.GridpoolOrderFilter.delivery_period
       electricity_trading_pb2.GridpoolOrderFilter.delivery_area
       electricity_trading_pb2.GridpoolOrderFilter.tag].
  rewrite states_field, tag_field. cbn [py_if always get].
  erewrite bind_ok by apply (OrderStates_from_pb_to_pb CL).
  erewrite bind_ok by (apply MarketSide_from_pb_to_pb, MarketSide_distinct).
  erewrite bind_ok
    by (apply (DeliveryPeriod_decoded CL); [assumption | now apply plain_encodable]).
  erewrite bind_ok by apply (DeliveryArea_from_pb_to_pb CL).
  reflexivity.
Qed.

Lemma GridpoolTradeFilter_from_pb_to_pb
      (trade_states : list TradeState.t) (trade_id_lists : list Z)
      (side : MarketSide.t) (delivery_period : DeliveryPeriod.t)
      (delivery_area : DeliveryArea.t) (rt : Runtime) :
  Period_round_trips delivery_period ->
  forallb (int_fits TradeId) trade_id_lists = true ->
  decode_encoding GridpoolTradeFilter.to_pb GridpoolTradeFilter.from_pb
    {| GridpoolTradeFilter.trade_states := Some trade_states;
       GridpoolTradeFilter.trade_id_lists := Some trade_id_lists;
       GridpoolTradeFilter.side := Some side;
       GridpoolTradeFilter.delivery_period := Some delivery_period;
       GridpoolTradeFilter.delivery_area := Some delivery_area |} rt =
  (inr {| GridpoolTradeFilter.trade_states := Some trade_states;
          GridpoolTradeFilter.trade_id_lists := Some trade_id_lists;
          GridpoolTradeFilter.side := Some side;
          GridpoolTradeFilter.delivery_period :=
            Some (rebuilt (next_id rt) delivery_period);
          GridpoolTradeFilter.delivery_area := Some delivery_area |},
   one_object_later rt).
Proof.
  intros [Hp Hs] Hids. rewrite <- (decoded_period_plain _ _ Hs).
  unfold decode_encoding, GridpoolTradeFilter.to_pb.
  cbn [GridpoolTradeFilter.trade_states GridpoolTradeFilter.trade_id_lists
       GridpoolTradeFilter.side GridpoolTradeFilter.delivery_period
       GridpoolTradeFilter.delivery_area py_if_res always].
  rewrite DeliveryPeriod_to_pb_encodable by (now apply plain_encodable).
  cbn [res_bind]. rewrite ids_field, (ids_fit _ _ Hids). cbn [res_bind].
  erewrite bind_try_ok by reflexivity.
  unfold GridpoolTradeFilter.from_pb.
  cbn [electricity_trading_pb2.GridpoolTradeFilter.states
       electricity_trading_pb2.GridpoolTradeFilter.trade_id_lists
       electricity_trading_pb2.GridpoolTradeFilter.side
       electricity_trading_pb2.GridpoolTradeFilter.delivery_period
       electricity_trading_pb2.GridpoolTradeFilter.delivery_area].
  rewrite states_field. cbn [py_if always get].
  erewrite bind_ok by apply (TradeStates_from_pb_to_pb CL).
  erewrite bind_ok by (apply MarketSide_from_pb_to_pb, MarketSide_distinct).
  erewrite bind_ok
    by (apply (DeliveryPeriod_decoded CL); [assumption | now apply plain_encodable]).
  erewrite bind_ok by apply (DeliveryArea_from_pb_to_pb CL).
  reflexivity.
Qed.

Lemma PublicTradeFilter_from_pb_to_pb
      (states : list TradeState.t) (delivery_period : DeliveryPeriod.t)
      (buy_delivery_area sell_delivery_area : DeliveryArea.t) (rt : Runtime) :
  Period_round_trips delivery_period ->
  decode_encoding PublicTradeFilter.to_pb PublicTradeFilter.from_pb
    {| PublicTradeFilter.states := Some states;
       PublicTradeFilter.delivery_period := Some delivery_period;
       PublicTradeFilter.buy_delivery_area := Some buy_delivery_area;
       PublicTradeFilter.sell_delivery_area := Some sell_delivery_area |} rt =
  (inr {| PublicTradeFilter.states := Some states;
          PublicTradeFilter.delivery_period :=
            Some (rebuilt (next_id rt) delivery_period);
          PublicTradeFilter.buy_delivery_area := Some buy_delivery_area;
          PublicTradeFilter.sell_delivery_area := Some sell_delivery_area |},
   one_object_later rt).
Proof.
  intros [Hp Hs]. rewrite <- (decoded_period_plain _ _ Hs).
  unfold decode_encoding, PublicTradeFilter.to_pb.
  cbn [PublicTradeFilter.states PublicTradeFilter.delivery_period
       PublicTradeFilter.buy_delivery_area PublicTradeFilter.sell_delivery_area
       py_if_res always].
  rewrite DeliveryPeriod_to_pb_encodable by (now apply plain_encodable).
  cbn [res_bind]. erewrite bind_try_ok by reflexivity.
  unfold PublicTradeFilter.from_pb.
  cbn [electricity_trading_pb2.PublicTradeFilter.states
       electricity_trading_pb2.PublicTradeFilter.delivery_period
       electricity_trading_pb2.PublicTradeFilter.buy_delivery_area
       electricity_trading_pb2.PublicTradeFilter.sell_delivery_area].
  rewrite states_field. cbn [py_if always get].
  erewrite bind_ok by apply (TradeStates_from_pb_to_pb CL).
  erewrite bind_ok
    by (apply (DeliveryPeriod_decoded CL); [assumption | now apply plain_encodable]).
  erewrite bind_ok by apply (DeliveryArea_from_pb_to_pb CL).
  erewrite bind_ok by apply (DeliveryArea_from_pb_to_pb CL).
  reflexivity.
Qed.
End RoundTripRecords.



(** ** Fields that are not set *)

(** Decoding the filter message in which nothing is set raises, whatever the
    constants are. *)
Lemma GridpoolOrderFilter_from_pb_default_raises (C : PbConstants)
      (CL : PbConstantsLaws C) (rt : Runtime) :
  exists rt',
    GridpoolOrderFilter.from_pb electricity_trading_pb2.GridpoolOrderFilter.default rt
    = (inl DeliveryPeriod.invalid_duration, rt').
Proof.
  unfold GridpoolOrderFilter.from_pb.
  cbn [electricity_trading_pb2.GridpoolOrderFilter.default
       electricity_trading_pb2.GridpoolOrderFilter.states
       electricity_trading_pb2.GridpoolOrderFilter.side
       electricity_trading_pb2.GridpoolOrderFilter.delivery_period
       electricity_trading_pb2.GridpoolOrderFilter.delivery_area
       electricity_trading_pb2.GridpoolOrderFilter.tag get list_map_m].
  erewrite bind_ok by reflexivity.
  destruct (decode_total MarketSide.members _ MarketSide.UNSPECIFIED
              "Unknown market side %s. Returning UNSPECIFIED."%string 0 rt)
    as (e & rt1 & He).
  change (MarketSide.from_pb 0 rt = (inr e, rt1)) in He.
  erewrite bind_ok by exact He.
  destruct (DeliveryPeriod_from_pb_invalid
              delivery_duration_pb2.DeliveryPeriod.default rt1 epoch eq_refl)
    as (rt2 & Hr).
  - cbn [delivery_duration_pb2.DeliveryPeriod.default
         delivery_duration_pb2.DeliveryPeriod.duration get].
    intros (m & Hm & Hw).
    rewrite <- DeliveryDuration_unspecified_zero in Hw.
    apply DeliveryDuration_distinct in Hw.
    destruct Hm as [-> | [-> | [-> | ->]]]; discriminate Hw.
  - exists rt2. unfold bind at 1. now rewrite Hr.
Qed.

(** C8 at its failing inputs. The filter with every field [None] encodes to
    the message with nothing set, and decoding that message raises instead
    of returning the filter; in a message with only the period set, the
    fields that are not set decode to an empty list, [UNSPECIFIED], an area
    with an empty code and an empty tag; and an order without time limit
    encodes with no [valid_until] and decodes with the epoch as time limit. *)
Theorem absent_fields_do_not_decode_to_None :
  GridpoolOrderFilter.to_pb (C := Schema.constants) Examples.any_gridpool_order
  = inr electricity_trading_pb2.GridpoolOrderFilter.default
  /\ fst (decode_encoding (GridpoolOrderFilter.to_pb (C := Schema.constants))
            (GridpoolOrderFilter.from_pb (C := Schema.constants))
            Examples.any_gridpool_order Examples.rt0)
     = inl DeliveryPeriod.invalid_duration
  /\ fst (GridpoolOrderFilter.from_pb (C := Schema.constants)
            Examples.period_only_filter_pb Examples.rt0)
     = inr {| GridpoolOrderFilter.order_states := Some [];
              GridpoolOrderFilter.side := Some MarketSide.UNSPECIFIED;
              GridpoolOrderFilter.delivery_period := Some Examples.period;
              GridpoolOrderFilter.delivery_area :=
                Some {| DeliveryArea.code := EmptyString;
                        DeliveryArea.code_type :=
                          EnergyMarketCodeType.UNSPECIFIED |};
              GridpoolOrderFilter.tag := Some EmptyString |}
  /\ (exists order_pb,
         Order.to_pb (C := Schema.constants) Examples.bare_order = inr order_pb
         /\ electricity_trading_pb2.Order.valid_until order_pb = None)
  /\ exists order,
      fst (decode_encoding (Order.to_pb (C := Schema.constants))
             (Order.from_pb (C := Schema.constants)) Examples.bare_order
             Examples.rt0) = inr order
      /\ Order.valid_until order = Some epoch
      /\ Order.tag order = None.
Proof.
  repeat match goal with |- _ /\ _ => split end; try reflexivity.
  - eexists. split; [vm_compute; reflexivity | reflexivity].
  - eexists. split; [vm_compute; reflexivity|]. split; reflexivity.
Qed.

(** * The properties on the example instance *)

Section OnTheSchema.
#[local] Existing Instance Schema.lib.
#[local] Existing Instance Schema.constants.

(** Enum classes: the constant of [EUR] decodes to [EUR] without a
    warning, an unknown number to [UNSPECIFIED] with one. *)
Example Currency_from_pb_examples :
  Currency.from_pb 3 Examples.rt0 = (inr Currency.EUR, Examples.rt0)
  /\ Currency.to_pb Currency.EUR = 3
  /\ Currency.from_pb 42 Examples.rt0
     = (inr Currency.UNSPECIFIED,
        {| next_id := 0;
           warnings := [{| log_fmt := "Unknown currency %s. Returning UNSPECIFIED.";
                           log_arg := 42 |}] |}).
Proof. repeat split. Qed.

(** A period of twenty minutes is refused, a wire duration no member has
    is refused, and a quarter of an hour is built and decoded again. *)
Lemma DeliveryPeriod_duration_validated_example :
  (exists rt',
      DeliveryPeriod.__init__ epoch (timedelta_minutes 20) Examples.rt0
      = (inl DeliveryPeriod.invalid_duration, rt'))
  /\ (exists rt',
         DeliveryPeriod.from_pb
           {| delivery_duration_pb2.DeliveryPeriod.start := None;
              delivery_duration_pb2.DeliveryPeriod.duration := Some 9 |}
           Examples.rt0
         = (inl DeliveryPeriod.invalid_duration, rt'))
  /\ (exists p rt1,
         DeliveryPeriod.__init__ (datetime.naive 1704067200000000)
                                 (timedelta_minutes 15) Examples.rt0 = (inr p, rt1)
         /\ DeliveryPeriod.start p = datetime.naive 1704067200000000
         /\ DeliveryPeriod.duration p = duration_of_minutes 15
         /\ exists q rt2,
             decode_encoding DeliveryPeriod.to_pb DeliveryPeriod.from_pb p rt1
             = (inr q, rt2)
             /\ DeliveryPeriod.duration q = DeliveryPeriod.duration p
             /\ DeliveryPeriod.start q = DeliveryPeriod.start p).
Proof.
  destruct (DeliveryPeriod_duration_validated Schema.constants
              (@DeliveryDuration_distinct _ Schema_constants_laws))
    as (Hinit & Hwire & Hvalid).
  split; [| split].
  - apply Hinit.
    intros (m & [-> | [-> | [-> | ->]]] & H); vm_compute in H; discriminate H.
  - apply (Hwire _ _ epoch); [reflexivity|].
    intros (m & [-> | [-> | [-> | ->]]] & H); vm_compute in H; discriminate H.
  - destruct (Hvalid (datetime.naive 1704067200000000) 15 Examples.rt0)
      as (p & rt1 & Hp & Hstart & Hduration & Hback);
      [right; left; reflexivity|].
    exists p, rt1. split; [exact Hp|]. split; [exact Hstart|].
    split; [exact Hduration|].
    destruct Hback as (q & rt2 & Hq & Hd & _ & Hs); [reflexivity|].
    exists q, rt2. split; [exact Hq|]. split; [exact Hd|].
    rewrite Hstart. apply Hs. split; reflexivity.
Defined.


(** The messages of the examples are the encodings of their values. *)
Example encodings_of_the_examples :
  DeliveryPeriod.to_pb Examples.period = inr Examples.period_pb
  /\ Trade.to_pb Examples.trade = inr Examples.trade_pb
  /\ OrderDetail.to_pb Examples.order_detail = inr Examples.order_detail_pb.
Proof. repeat split. Qed.

(** The time of execution of a trade is not encoded: it decodes as the
    epoch. *)
Example Trade_execution_time_example :
  (exists trade_pb,
      Trade.to_pb Examples.trade = inr trade_pb
      /\ electricity_trading_pb2.Trade.execution_time trade_pb = None)
  /\ exists trade,
      fst (decode_encoding Trade.to_pb Trade.from_pb Examples.trade Examples.rt0)
      = inr trade
      /\ Trade.execution_time trade = epoch.
Proof.
  split.
  - eexists. split; [vm_compute; reflexivity | reflexivity].
  - eexists. split; [vm_compute; reflexivity | reflexivity].
Qed.


(** An update that passes nothing is refused and sends nothing; one that
    passes [None] as price and a time limit sends a mask with both
    names. *)
Example update_gridpool_order_examples :
  Client.update_gridpool_order 1 12
    Client.NO_VALUE Client.NO_VALUE Client.NO_VALUE Client.NO_VALUE
    Client.NO_VALUE Client.NO_VALUE Client.NO_VALUE Client.NO_VALUE
    Client.NO_VALUE Examples.world0
  = (inl Client.nothing_to_update, Examples.world0)
  /\ (exists request,
         Client.rpc_log
           (snd (Client.update_gridpool_order 1 12
                   (Client.Passed None) Client.NO_VALUE Client.NO_VALUE
                   Client.NO_VALUE Client.NO_VALUE Client.NO_VALUE
                   (Client.Passed (Some (datetime.naive 1704068100000000)))
                   Client.NO_VALUE Client.NO_VALUE Examples.world0))
         = [request]
         /\ electricity_trading_pb2.UpdateGridpoolOrderRequest.update_mask request
            = Some ["price"%string; "valid_until"%string]).
Proof.
  split.
  - reflexivity.
  - eexists. split; [vm_compute; reflexivity | reflexivity].
Qed.

(** Two calls with no filter share one helper; a list of states cannot be
    a key. *)
Example stream_public_trades_examples :
  constructed (run [StreamPublicTrades None None None None;
                    StreamPublicTrades None None None None] Examples.world0)
  = [0%nat]
  /\ Client.receivers_of 0
       (Client.helper_objs
          (run [StreamPublicTrades None None None None;
                StreamPublicTrades None None None None] Examples.world0))
     = 2%nat
  /\ fst (Client.stream_public_trades (Some [TradeState.ACTIVE]) None None None
            Examples.world0)
     = inl dict.unhashable.
Proof. repeat split. Qed.
End OnTheSchema.

(** * Further properties *)

(** ** Decoders that always return *)

Lemma decode_returns {E} (members : list E) (V : WireValues E) (unspecified : E)
      (fmt : string) (w : Z) (rt : Runtime) :
  exists e ws,
    decode members V unspecified fmt w rt
    = (inr e, {| next_id := next_id rt; warnings := warnings rt ++ ws |})
    /\ (List.length ws <= 1)%nat.
Proof.
  unfold decode.
  destruct (any_value members wire_value w) eqn:Hany; cbn [negb].
  - apply any_value_recognized in Hany.
    destruct (by_value_recognized members V (S := Runtime) w Hany)
      as (e & _ & _ & Hrun).
    exists e, []. rewrite Hrun, app_nil_r. destruct rt. cbn. auto.
  - eexists. eexists. split; [reflexivity|]. cbn. lia.
Qed.

Lemma list_map_m_total {S A B} (f : A -> StE S B) (l : list A) :
  (forall a s, exists b s', f a s = (inr b, s')) ->
  forall s, exists bs s', list_map_m f l s = (inr bs, s').
Proof.
  intro Hf. induction l as [|a l IH]; intro s; cbn [list_map_m].
  - eexists. eexists. reflexivity.
  - destruct (Hf a s) as (b & s1 & Hb). destruct (IH s1) as (bs & s2 & Hbs).
    erewrite bind_ok by exact Hb. erewrite bind_ok by exact Hbs.
    eexists. eexists. reflexivity.
Qed.

Section TotalDecoders.
Context {C : PbConstants}.

Lemma MarketSide_from_pb_total w rt :
  exists e rt', MarketSide.from_pb w rt = (inr e, rt').
Proof.
  destruct (decode_returns MarketSide.members _ MarketSide.UNSPECIFIED
              "Unknown market side %s. Returning UNSPECIFIED."%string w rt)
    as (e & ws & H & _).
  eexists. eexists. exact H.
Qed.

Lemma OrderState_from_pb_total w rt :
  exists e rt', OrderState.from_pb w rt = (inr e, rt').
Proof.
  destruct (decode_returns OrderState.members _ OrderState.UNSPECIFIED
              "Unknown order state %s. Returning UNSPECIFIED."%string w rt)
    as (e & ws & H & _).
  eexists. eexists. exact H.
Qed.

Lemma TradeState_from_pb_total w rt :
  exists e rt', TradeState.from_pb w rt = (inr e, rt').
Proof.
  destruct (decode_returns TradeState.members _ TradeState.UNSPECIFIED
              "Unknown trade state %s. Returning UNSPECIFIED."%string w rt)
    as (e & ws & H & _).
  eexists. eexists. exact H.
Qed.

Lemma DeliveryArea_from_pb_returns (m : delivery_area_pb2.DeliveryArea.t) rt :
  exists v ws,
    DeliveryArea.from_pb m rt
    = (inr v, {| next_id := next_id rt; warnings := warnings rt ++ ws |})
    /\ (List.length ws <= 1)%nat.
Proof.
  unfold DeliveryArea.from_pb.
  destruct (decode_returns EnergyMarketCodeType.members _
              EnergyMarketCodeType.UNSPECIFIED
              "Unknown energy market code type %s. Returning UNSPECIFIED."%string
              (get 0 (delivery_area_pb2.DeliveryArea.code_type m)) rt)
    as (e & ws & H & Hlen).
  change (EnergyMarketCodeType.from_pb
            (get 0 (delivery_area_pb2.DeliveryArea.code_type m)) rt
          = (inr e, {| next_id := next_id rt; warnings := warnings rt ++ ws |})) in H.
  erewrite bind_ok by exact H.
  eexists. exists ws. split; [reflexivity | exact Hlen].
Qed.

Lemma DeliveryArea_from_pb_total (m : delivery_area_pb2.DeliveryArea.t) rt :
  exists v rt', DeliveryArea.from_pb m rt = (inr v, rt').
Proof.
  destruct (DeliveryArea_from_pb_returns m rt) as (v & ws & H & _).
  eexists. eexists. exact H.
Qed.

Lemma StateDetail_from_pb_returns (m : electricity_trading_pb2.StateDetail.t) rt :
  exists v ws,
    StateDetail.from_pb m rt
    = (inr v, {| next_id := next_id rt; warnings := warnings rt ++ ws |})
    /\ (List.length ws <= 3)%nat.
Proof.
  unfold StateDetail.from_pb.
  destruct (decode_returns OrderState.members _ OrderState.UNSPECIFIED
              "Unknown order state %s. Returning UNSPECIFIED."%string
              (get 0 (electricity_trading_pb2.StateDetail.state m)) rt)
    as (e1 & ws1 & H1 & Hl1).
  change (OrderState.from_pb (get 0 (electricity_trading_pb2.StateDetail.state m)) rt
          = (inr e1, {| next_id := next_id rt; warnings := warnings rt ++ ws1 |}))
    in H1.
  erewrite bind_ok by exact H1.
  match goal with |- context [bind _ _ ?r] => set (rt1 := r) end.
  destruct (decode_returns StateReason.members _ StateReason.UNSPECIFIED
              "Unknown state reason %s. Returning UNSPECIFIED."%string
              (get 0 (electricity_trading_pb2.StateDetail.state_reason m)) rt1)
    as (e2 & ws2 & H2 & Hl2).
  change (StateReason.from_pb
            (get 0 (electricity_trading_pb2.StateDetail.state_reason m)) rt1
          = (inr e2, {| next_id := next_id rt1; warnings := warnings rt1 ++ ws2 |}))
    in H2.
  erewrite bind_ok by exact H2.
  match goal with |- context [bind _ _ ?r] => set (rt2 := r) end.
  destruct (decode_returns MarketActor.members _ MarketActor.UNSPECIFIED
              "Unknown market actor %s. Returning UNSPECIFIED."%string
              (get 0 (electricity_trading_pb2.StateDetail.market_actor m)) rt2)
    as (e3 & ws3 & H3 & Hl3).
  change (MarketActor.from_pb
            (get 0 (electricity_trading_pb2.StateDetail.market_actor m)) rt2
          = (inr e3, {| next_id := next_id rt2; warnings := warnings rt2 ++ ws3 |}))
    in H3.
  erewrite bind_ok by exact H3.
  eexists. exists (ws1 ++ ws2 ++ ws3). split.
  - unfold ret. subst rt2 rt1. cbn. now rewrite <- !app_assoc.
  - rewrite !length_app. lia.
Qed.
End TotalDecoders.

(** X1. [DeliveryArea.from_pb] and [StateDetail.from_pb] return on every
    message, whatever numbers its enum fields hold: they create no object
    and log at most one warning for an area and at most three for a state
    detail. *)
Theorem area_and_state_detail_always_decode (C : PbConstants) (rt : Runtime) :
  (forall m : delivery_area_pb2.DeliveryArea.t,
      exists v ws,
        DeliveryArea.from_pb m rt
        = (inr v, {| next_id := next_id rt; warnings := warnings rt ++ ws |})
        /\ (List.length ws <= 1)%nat)
  /\ (forall m : electricity_trading_pb2.StateDetail.t,
         exists v ws,
           StateDetail.from_pb m rt
           = (inr v, {| next_id := next_id rt; warnings := warnings rt ++ ws |})
           /\ (List.length ws <= 3)%nat).
Proof.
  split; intro m.
  - apply DeliveryArea_from_pb_returns.
  - apply StateDetail_from_pb_returns.
Qed.

(** ** Partial updates on the wire *)

Section UpdateEncoding.
Context {L : PyLib} {C : PbConstants}.

Lemma encodable_or_not (dt : datetime) : encodable dt \/ ~ encodable dt.
Proof.
  unfold encodable. destruct (datetime.in_range (datetime.utc dt));
    [now left | right; discriminate].
Qed.

(** The encoding of an update whose time limit [FromDatetime] accepts. *)
Lemma UpdateOrder_to_pb_encodable (v : UpdateOrder.t) :
  (forall dt, UpdateOrder.valid_until v = Some dt -> encodable dt) ->
  UpdateOrder.to_pb v
  = inr {| electricity_trading_pb2.UpdateOrder.price :=
             py_if always (UpdateOrder.price v) Price.to_pb;
           electricity_trading_pb2.UpdateOrder.quantity :=
             py_if always (UpdateOrder.quantity v) Energy.to_pb;
           electricity_trading_pb2.UpdateOrder.stop_price :=
             py_if always (UpdateOrder.stop_price v) Price.to_pb;
           electricity_trading_pb2.UpdateOrder.peak_price_delta :=
             py_if always (UpdateOrder.peak_price_delta v) Price.to_pb;
           electricity_trading_pb2.UpdateOrder.display_quantity :=
             py_if always (UpdateOrder.display_quantity v) Energy.to_pb;
           electricity_trading_pb2.UpdateOrder.execution_option :=
             py_if always (UpdateOrder.execution_option v) wire_value;
           electricity_trading_pb2.UpdateOrder.valid_until :=
             option_map filled_from (UpdateOrder.valid_until v);
           electricity_trading_pb2.UpdateOrder.payload :=
             py_if dict_bool (UpdateOrder.payload v) Struct_new;
           electricity_trading_pb2.UpdateOrder.tag :=
             py_if str_bool (UpdateOrder.tag v) (fun s => s) |}.
Proof.
  intro Hv. unfold UpdateOrder.to_pb.
  rewrite valid_until_filled by exact Hv. cbn [res_bind].
  destruct (UpdateOrder.valid_until v); reflexivity.
Qed.

(** A time limit [FromDatetime] refuses. *)
Lemma UpdateOrder_to_pb_overflow (v : UpdateOrder.t) (dt : datetime) :
  UpdateOrder.valid_until v = Some dt -> ~ encodable dt ->
  UpdateOrder.to_pb v = inl OverflowError.
Proof.
  intros Hdt Hn. unfold UpdateOrder.to_pb. rewrite Hdt.
  now rewrite (valid_until_overflow dt Hn).
Qed.

Lemma UpdateOrder_to_pb_cases (v : UpdateOrder.t) :
  UpdateOrder.to_pb v = inl OverflowError
  \/ (forall dt, UpdateOrder.valid_until v = Some dt -> encodable dt).
Proof.
  destruct (UpdateOrder.valid_until v) as [dt|] eqn:Hdt.
  - destruct (encodable_or_not dt) as [He | Hn].
    + right. intros dt' H. now injection H as <-.
    + left. now apply (UpdateOrder_to_pb_overflow v dt).
  - right. intros dt' H. discriminate H.
Qed.
End UpdateEncoding.



(** ** A period that does not decode *)

Lemma bind_raise {S A B} (m : StE S A) (k : A -> StE S B) (s s' : S) (e : PyExc) :
  m s = (inl e, s') -> bind m k s = (inl e, s').
Proof. intro H. unfold bind. now rewrite H. Qed.

Section InvalidPeriod.
Context {L : PyLib} {C : PbConstants}.

Lemma period_field_refused
      (field : option delivery_duration_pb2.DeliveryPeriod.t) (rt : Runtime) :
  period_refused field ->
  exists rt',
    DeliveryPeriod.from_pb (get delivery_duration_pb2.DeliveryPeriod.default field) rt
    = (inl (period_error field), rt').
Proof.
  unfold period_refused, period_error, readable, wire_start_of.
  destruct (Timestamp.ToDatetime
              (get Timestamp.new
                 (delivery_duration_pb2.DeliveryPeriod.start
                    (get delivery_duration_pb2.DeliveryPeriod.default field))))
    as [e | start] eqn:Hs.
  - intros _. exists rt. now apply DeliveryPeriod_from_pb_overflow.
  - intros [Hn | Hd]; [exfalso; apply Hn; now exists start |].
    now apply (DeliveryPeriod_from_pb_invalid _ rt start).
Qed.

Lemma invalid_duration_refused
      (field : option delivery_duration_pb2.DeliveryPeriod.t) :
  ~ valid_wire_duration (wire_duration_of field) -> period_refused field.
Proof. intro H. now right. Qed.

Lemma Order_from_pb_refused_period (m : electricity_trading_pb2.Order.t) rt :
  period_refused (electricity_trading_pb2.Order.delivery_period m) ->
  exists rt',
    Order.from_pb m rt
    = (inl (period_error (electricity_trading_pb2.Order.delivery_period m)), rt').
Proof.
  intro H. unfold Order.from_pb.
  destruct (DeliveryArea_from_pb_total
              (get delivery_area_pb2.DeliveryArea.default
                 (electricity_trading_pb2.Order.delivery_area m)) rt)
    as (a & rt1 & Ha).
  erewrite bind_ok by exact Ha.
  destruct (period_field_refused _ rt1 H) as (rt2 & Hp).
  erewrite bind_raise by exact Hp.
  eexists. reflexivity.
Qed.

Lemma Trade_from_pb_refused_period (m : electricity_trading_pb2.Trade.t) rt :
  period_refused (electricity_trading_pb2.Trade.delivery_period m) ->
  exists rt',
    Trade.from_pb m rt
    = (inl (period_error (electricity_trading_pb2.Trade.delivery_period m)), rt').
Proof.
  intro H. unfold Trade.from_pb.
  destruct (MarketSide_from_pb_total
              (get 0 (electricity_trading_pb2.Trade.side m)) rt) as (s & rt0 & Hs).
  erewrite bind_ok by exact Hs.
  destruct (DeliveryArea_from_pb_total
              (get delivery_area_pb2.DeliveryArea.default
                 (electricity_trading_pb2.Trade.delivery_area m)) rt0)
    as (a & rt1 & Ha).
  erewrite bind_ok by exact Ha.
  destruct (period_field_refused _ rt1 H) as (rt2 & Hp).
  erewrite bind_raise by exact Hp.
  eexists. reflexivity.
Qed.

Lemma PublicTrade_from_pb_refused_period (m : electricity_trading_pb2.PublicTrade.t) rt :
  period_refused (electricity_trading_pb2.PublicTrade.delivery_period m) ->
  exists rt',
    PublicTrade.from_pb m rt
    = (inl (period_error (electricity_trading_pb2.PublicTrade.delivery_period m)),
       rt').
Proof.
  intro H. unfold PublicTrade.from_pb.
  destruct (DeliveryArea_from_pb_total
              (get delivery_area_pb2.DeliveryArea.default
                 (electricity_trading_pb2.PublicTrade.buy_delivery_area m)) rt)
    as (a & rt0 & Ha).
  erewrite bind_ok by exact Ha.
  destruct (DeliveryArea_from_pb_total
              (get delivery_area_pb2.DeliveryArea.default
                 (electricity_trading_pb2.PublicTrade.sell_delivery_area m)) rt0)
    as (b & rt1 & Hb).
  erewrite bind_ok by exact Hb.
  destruct (period_field_refused _ rt1 H) as (rt2 & Hp).
  erewrite bind_raise by exact Hp.
  eexists. reflexivity.
Qed.

Lemma OrderDetail_from_pb_refused_period (m : electricity_trading_pb2.OrderDetail.t) rt :
  period_refused (period_of_detail m) ->
  exists rt', OrderDetail.from_pb m rt = (inl (period_error (period_of_detail m)), rt').
Proof.
  intro H. unfold OrderDetail.from_pb.
  destruct (Order_from_pb_refused_period _ rt H) as (rt1 & Ho).
  erewrite bind_raise by exact Ho.
  eexists. reflexivity.
Qed.

Lemma GridpoolOrderFilter_from_pb_refused_period
      (m : electricity_trading_pb2.GridpoolOrderFilter.t) rt :
  period_refused (electricity_trading_pb2.GridpoolOrderFilter.delivery_period m) ->
  exists rt',
    GridpoolOrderFilter.from_pb m rt
    = (inl (period_error
              (electricity_trading_pb2.GridpoolOrderFilter.delivery_period m)), rt').
Proof.
  intro H. unfold GridpoolOrderFilter.from_pb.
  destruct (list_map_m_total OrderState.from_pb
              (electricity_trading_pb2.GridpoolOrderFilter.states m)
              OrderState_from_pb_total rt) as (ss & rt0 & Hss).
  erewrite bind_ok by exact Hss.
  destruct (MarketSide_from_pb_total
              (get 0 (electricity_trading_pb2.GridpoolOrderFilter.side m)) rt0)
    as (s & rt1 & Hs).
  erewrite bind_ok by exact Hs.
  destruct (period_field_refused _ rt1 H) as (rt2 & Hp).
  erewrite bind_raise by exact Hp.
  eexists. reflexivity.
Qed.

Lemma GridpoolTradeFilter_from_pb_refused_period
      (m : electricity_trading_pb2.GridpoolTradeFilter.t) rt :
  period_refused (electricity_trading_pb2.GridpoolTradeFilter.delivery_period m) ->
  exists rt',
    GridpoolTradeFilter.from_pb m rt
    = (inl (period_error
              (electricity_trading_pb2.GridpoolTradeFilter.delivery_period m)), rt').
Proof.
  intro H. unfold GridpoolTradeFilter.from_pb.
  destruct (list_map_m_total TradeState.from_pb
              (electricity_trading_pb2.GridpoolTradeFilter.states m)
              TradeState_from_pb_total rt) as (ss & rt0 & Hss).
  erewrite bind_ok by exact Hss.
  destruct (MarketSide_from_pb_total
              (get 0 (electricity_trading_pb2.GridpoolTradeFilter.side m)) rt0)
    as (s & rt1 & Hs).
  erewrite bind_ok by exact Hs.
  destruct (period_field_refused _ rt1 H) as (rt2 & Hp).
  erewrite bind_raise by exact Hp.
  eexists. reflexivity.
Qed.

Lemma PublicTradeFilter_from_pb_refused_period
      (m : electricity_trading_pb2.PublicTradeFilter.t) rt :
  period_refused (electricity_trading_pb2.PublicTradeFilter.delivery_period m) ->
  exists rt',
    PublicTradeFilter.from_pb m rt
    = (inl (period_error
              (electricity_trading_pb2.PublicTradeFilter.delivery_period m)), rt').
Proof.
  intro H. unfold PublicTradeFilter.from_pb.
  destruct (list_map_m_total TradeState.from_pb
              (electricity_trading_pb2.PublicTradeFilter.states m)
              TradeState_from_pb_total rt) as (ss & rt0 & Hss).
  erewrite bind_ok by exact Hss.
  destruct (period_field_refused _ rt0 H) as (rt2 & Hp).
  erewrite bind_raise by exact Hp.
  eexists. reflexivity.
Qed.

(** The period field of the order of an order detail, set or not. *)
Lemma unset_period_invalid :
  wire_value DeliveryDuration.UNSPECIFIED = 0 ->
  distinct_values DeliveryDuration_values ->
  ~ valid_wire_duration (wire_duration_of None).
Proof.
  intros H0 Hd (m & Hm & Hw). cbn in Hw. rewrite <- H0 in Hw. apply Hd in Hw.
  destruct Hm as [-> | [-> | [-> | ->]]]; discriminate.
Qed.
End InvalidPeriod.

(** X3. Every decoder of a message with a delivery period raises the
    error of the period when the period field, set or not, is refused:
    the [OverflowError] of [ToDatetime] when the start it reads from the
    field is out of the range of [datetime], and otherwise the
    [ValueError] of the period when the duration it reads is not the
    constant of 5, 15, 30 or 60 minutes. Whatever the other fields hold,
    no value is returned and no other error is reported. *)
Theorem invalid_period_fails_every_decoder (L : PyLib) (C : PbConstants) (rt : Runtime) :
  (forall m,
      period_refused (electricity_trading_pb2.Order.delivery_period m) ->
      exists rt',
        Order.from_pb m rt
        = (inl (period_error (electricity_trading_pb2.Order.delivery_period m)), rt'))
  /\ (forall m,
         period_refused (electricity_trading_pb2.Trade.delivery_period m) ->
         exists rt',
           Trade.from_pb m rt
           = (inl (period_error (electricity_trading_pb2.Trade.delivery_period m)),
              rt'))
  /\ (forall m,
         period_refused (electricity_trading_pb2.PublicTrade.delivery_period m) ->
         exists rt',
           PublicTrade.from_pb m rt
           = (inl (period_error
                     (electricity_trading_pb2.PublicTrade.delivery_period m)), rt'))
  /\ (forall m,
         period_refused (period_of_detail m) ->
         exists rt',
           OrderDetail.from_pb m rt = (inl (period_error (period_of_detail m)), rt'))
  /\ (forall m,
         period_refused
           (electricity_trading_pb2.GridpoolOrderFilter.delivery_period m) ->
         exists rt',
           GridpoolOrderFilter.from_pb m rt
           = (inl (period_error
                     (electricity_trading_pb2.GridpoolOrderFilter.delivery_period m)),
              rt'))
  /\ (forall m,
         period_refused
           (electricity_trading_pb2.GridpoolTradeFilter.delivery_period m) ->
         exists rt',
           GridpoolTradeFilter.from_pb m rt
           = (inl (period_error
                     (electricity_trading_pb2.GridpoolTradeFilter.delivery_period m)),
              rt'))
  /\ (forall m,
         period_refused (electricity_trading_pb2.PublicTradeFilter.delivery_period m) ->
         exists rt',
           PublicTradeFilter.from_pb m rt
           = (inl (period_error
                     (electricity_trading_pb2.PublicTradeFilter.delivery_period m)),
              rt'))
  /\ (forall field,
         period_error field = OverflowError /\ ~ readable (wire_start_of field)
         \/ period_error field = DeliveryPeriod.invalid_duration
            /\ readable (wire_start_of field)).
Proof.
  repeat match goal with |- _ /\ _ => split end; try intros m H.
  - now apply Order_from_pb_refused_period.
  - now apply Trade_from_pb_refused_period.
  - now apply PublicTrade_from_pb_refused_period.
  - now apply OrderDetail_from_pb_refused_period.
  - now apply GridpoolOrderFilter_from_pb_refused_period.
  - now apply GridpoolTradeFilter_from_pb_refused_period.
  - now apply PublicTradeFilter_from_pb_refused_period.
  - intro field. unfold period_error, readable.
    pose proof (ToDatetime_raises_only (wire_start_of field)) as Hcases.
    destruct (Timestamp.ToDatetime (wire_start_of field)) as [e | dt].
    + left. split; [now apply Hcases |]. intros (dt & H). discriminate H.
    + right. split; [reflexivity | now exists dt].
Qed.

Lemma invalid_period_fails_every_decoder_example :
  (exists rt',
      Order.from_pb (C := Schema.constants)
        (electricity_trading_pb2.Order.default (L := Schema.lib)) Examples.rt0
      = (inl DeliveryPeriod.invalid_duration, rt'))
  /\ (exists rt',
         GridpoolOrderFilter.from_pb (C := Schema.constants)
           {| electricity_trading_pb2.GridpoolOrderFilter.states := [];
              electricity_trading_pb2.GridpoolOrderFilter.side := None;
              electricity_trading_pb2.GridpoolOrderFilter.delivery_period :=
                Some {| delivery_duration_pb2.DeliveryPeriod.start :=
                          Some {| Timestamp.seconds := 253402300800;
                                  Timestamp.nanos := 0 |};
                        delivery_duration_pb2.DeliveryPeriod.duration := Some 2 |};
              electricity_trading_pb2.GridpoolOrderFilter.delivery_area := None;
              electricity_trading_pb2.GridpoolOrderFilter.tag := None |}
           Examples.rt0
         = (inl OverflowError, rt')).
Proof.
  destruct (invalid_period_fails_every_decoder Schema.lib Schema.constants
              Examples.rt0) as (HOrder & _ & _ & _ & HFilter & _).
  split.
  - apply (HOrder electricity_trading_pb2.Order.default).
    right. apply (unset_period_invalid (C := Schema.constants)).
    + reflexivity.
    + apply (@DeliveryDuration_distinct _ Schema_constants_laws).
  - apply (HFilter
             {| electricity_trading_pb2.GridpoolOrderFilter.states := [];
                electricity_trading_pb2.GridpoolOrderFilter.side := None;
                electricity_trading_pb2.GridpoolOrderFilter.delivery_period :=
                  Some {| delivery_duration_pb2.DeliveryPeriod.start :=
                            Some {| Timestamp.seconds := 253402300800;
                                    Timestamp.nanos := 0 |};
                          delivery_duration_pb2.DeliveryPeriod.duration := Some 2 |};
                electricity_trading_pb2.GridpoolOrderFilter.delivery_area := None;
                electricity_trading_pb2.GridpoolOrderFilter.tag := None |}).
    left. intros (dt & H). vm_compute in H. discriminate H.
Defined.

(** ** The calls that decode a response *)

Lemma list_map_m_fails {S A B} (f : A -> StE S B) (a : A) (l : list A) :
  (forall s, exists e s', f a s = (inl e, s')) ->
  In a l ->
  forall s, exists e s', list_map_m f l s = (inl e, s').
Proof.
  intros Hf. induction l as [|x l IH]; intros Hin s; [contradiction|].
  cbn [list_map_m]. destruct (f x s) as [[e|b] s1] eqn:Hx.
  - erewrite bind_raise by exact Hx. eexists. eexists. reflexivity.
  - destruct Hin as [-> | Hin].
    + destruct (Hf s) as (e & s' & He). congruence.
    + erewrite bind_ok by exact Hx.
      destruct (IH Hin s1) as (e & s' & He).
      erewrite bind_raise by exact He. eexists. eexists. reflexivity.
Qed.

Section DecodingCalls.
Context {L : PyLib} {C : PbConstants}.

Lemma await_inr {A} (response : A) (rt : Runtime) :
  Calls.await (inr response) rt = (inr response, rt).
Proof. reflexivity. Qed.

(** A request that is not built is not sent: the error is raised. *)
Lemma try_cases {A B} (r : Res A) (k : A -> Py B) (rt : Runtime) :
  (exists e, r = inl e /\ bind (try r) k rt = (inl e, rt))
  \/ (exists a, r = inr a /\ bind (try r) k rt = k a rt).
Proof. destruct r as [e | a]; [left | right]; eexists; split; reflexivity. Qed.

End DecodingCalls.



(** X5. [list_gridpool_orders] and [list_gridpool_trades] return no list
    at all when one element of the response holds no delivery period with
    a duration of 5, 15, 30 or 60 minutes: the elements that decode are
    not returned either. *)
Theorem list_calls_return_nothing_on_invalid_period (L : PyLib) (C : PbConstants)
        (_stub : Calls.Stub) (rt : Runtime) :
  (forall gridpool_id order_states side delivery_period delivery_area tag
          max_nr_orders page_token response order_detail,
      (forall request, Calls.ListGridpoolOrders _stub request = inr response) ->
      In order_detail
         (electricity_trading_pb2.ListGridpoolOrdersResponse.order_detail_lists
            response) ->
      ~ valid_wire_duration
          (wire_duration_of
             (electricity_trading_pb2.Order.delivery_period
                (get electricity_trading_pb2.Order.default
                   (electricity_trading_pb2.OrderDetail.order order_detail)))) ->
      exists e rt',
        Calls.list_gridpool_orders _stub gridpool_id order_states side delivery_period
          delivery_area tag max_nr_orders page_token rt = (inl e, rt'))
  /\ (forall gridpool_id trade_states trade_id_lists market_side delivery_period
             delivery_area max_nr_orders page_token response trade,
         (forall request, Calls.ListGridpoolTrades _stub request = inr response) ->
         In trade
            (electricity_trading_pb2.ListGridpoolTradesResponse.trade_lists response) ->
         ~ valid_wire_duration
             (wire_duration_of (electricity_trading_pb2.Trade.delivery_period trade)) ->
         exists e rt',
           Calls.list_gridpool_trades _stub gridpool_id trade_states trade_id_lists
             market_side delivery_period delivery_area max_nr_orders page_token rt
           = (inl e, rt')).
Proof.
  split.
  - intros gridpool_id order_states side delivery_period delivery_area tag
           max_nr_orders page_token response order_detail Hanswer Hin Hinvalid.
    unfold Calls.list_gridpool_orders. cbv zeta.
    match goal with
    | |- context [bind (try ?r) ?k rt] =>
        destruct (try_cases r k rt) as [(e & _ & ->) | (request & _ & ->)]
    end; [eexists; eexists; reflexivity |].
    rewrite Hanswer.
    erewrite bind_ok by apply await_inr.
    apply (list_map_m_fails OrderDetail.from_pb order_detail); [|exact Hin].
    intro s.
    destruct (OrderDetail_from_pb_refused_period order_detail s
                (invalid_duration_refused _ Hinvalid)) as (s' & Hs).
    eexists. eexists. exact Hs.
  - intros gridpool_id trade_states trade_id_lists market_side delivery_period
           delivery_area max_nr_orders page_token response trade Hanswer Hin Hinvalid.
    unfold Calls.list_gridpool_trades. cbv zeta.
    match goal with
    | |- context [bind (try ?r) ?k rt] =>
        destruct (try_cases r k rt) as [(e & _ & ->) | (request & _ & ->)]
    end; [eexists; eexists; reflexivity |].
    rewrite Hanswer.
    erewrite bind_ok by apply await_inr.
    apply (list_map_m_fails Trade.from_pb trade); [|exact Hin].
    intro s.
    destruct (Trade_from_pb_refused_period trade s
                (invalid_duration_refused _ Hinvalid)) as (s' & Hs).
    eexists. eexists. exact Hs.
Qed.

Lemma list_calls_return_nothing_on_invalid_period_example :
  exists e rt',
    Calls.list_gridpool_orders (C := Schema.constants)
      (Answers.service [] [Examples.order_detail_pb;
                           electricity_trading_pb2.OrderDetail.default])
      1 None None None None None None None Examples.rt0
    = (inl e, rt').
Proof.
  assert (H : ~ valid_wire_duration (C := Schema.constants) (wire_duration_of None)).
  { apply (unset_period_invalid (C := Schema.constants)).
    - reflexivity.
    - apply (@DeliveryDuration_distinct _ Schema_constants_laws). }
  exact (proj1 (list_calls_return_nothing_on_invalid_period
                  Schema.lib Schema.constants
                  (Answers.service [] [Examples.order_detail_pb;
                                       electricity_trading_pb2.OrderDetail.default])
                  Examples.rt0)
           1 None None None None None None None
           {| electricity_trading_pb2.ListGridpoolOrdersResponse.order_detail_lists :=
                [Examples.order_detail_pb;
                 electricity_trading_pb2.OrderDetail.default] |}
           electricity_trading_pb2.OrderDetail.default
           (fun _ => eq_refl) (or_intror (or_introl eq_refl)) H).
Defined.

Section ListedTrades.
Context {L : PyLib} {C : PbConstants}.
Context (LL : PyLibLaws L) (CL : PbConstantsLaws C).

Lemma objects_later_one (n : nat) (rt : Runtime) :
  objects_later n (one_object_later rt) = objects_later (S n) rt.
Proof.
  unfold objects_later, one_object_later. cbn. now rewrite Nat.add_succ_r.
Qed.

Lemma Trades_from_pb_to_pb (vs : list Trade.t) :
  Forall Trade_encodable vs ->
  forall ms rt,
    res_map Trade.to_pb vs = inr ms ->
    list_map_m Trade.from_pb ms rt
    = (inr (Trades_decoded (next_id rt) vs), objects_later (List.length vs) rt).
Proof.
  induction 1 as [|v vs Hv _ IH]; intros ms rt Hms;
    cbn [res_map list_map_m Trades_decoded List.length] in *.
  - injection Hms as <-. destruct rt. reflexivity.
  - pose proof (Trade_decode_encoding LL CL v rt Hv) as Hone.
    unfold decode_encoding in Hone.
    destruct (Trade.to_pb v) as [e | m]; [discriminate Hms|].
    cbn [res_bind] in Hms.
    destruct (res_map Trade.to_pb vs) as [e | ms']; [discriminate Hms|].
    injection Hms as <-. cbn [list_map_m].
    erewrite bind_try_ok in Hone by reflexivity.
    erewrite bind_ok by exact Hone.
    erewrite bind_ok by (apply IH; reflexivity).
    unfold ret. now rewrite objects_later_one.
Qed.
End ListedTrades.



(** ** What an update request carries *)

Section MaskCoversFields.
Context {L : PyLib} {C : PbConstants}.

Lemma name_if_set_within {A B} (truth : A -> bool) (f : A -> B) (name : string)
      (a : Client.Arg A) :
  incl (name_if_set name (py_if truth (Client.None_if_NO_VALUE a) f))
       (if Client.is_NO_VALUE a then [] else [name]).
Proof.
  destruct a as [|[v|]]; cbn; try destruct (truth v); cbn;
    auto using incl_refl, incl_nil_l.
Qed.

Lemma valid_until_within (name : string) (a : Client.Arg datetime) :
  incl (name_if_set name (option_map filled_from (Client.None_if_NO_VALUE a)))
       (if Client.is_NO_VALUE a then [] else [name]).
Proof.
  destruct a as [|[v|]]; cbn; auto using incl_refl, incl_nil_l.
Qed.

Lemma something_passed_flags
      (price : Client.Arg Price.t) (quantity : Client.Arg Energy.t)
      (stop_price peak_price_delta : Client.Arg Price.t)
      (display_quantity : Client.Arg Energy.t)
      (execution_option : Client.Arg OrderExecutionOption.t)
      (valid_until : Client.Arg datetime)
      (payload : Client.Arg PyDict)
      (tag : Client.Arg string) :
  ~ nothing_passed price quantity stop_price peak_price_delta display_quantity
      execution_option valid_until payload tag ->
  Client.is_NO_VALUE price
  && (Client.is_NO_VALUE quantity
  && (Client.is_NO_VALUE stop_price
  && (Client.is_NO_VALUE peak_price_delta
  && (Client.is_NO_VALUE display_quantity
  && (Client.is_NO_VALUE execution_option
  && (Client.is_NO_VALUE valid_until
  && (Client.is_NO_VALUE payload
  && (Client.is_NO_VALUE tag && true)))))))) = false.
Proof.
  intro Hn.
  destruct price; [|reflexivity]. destruct quantity; [|reflexivity].
  destruct stop_price; [|reflexivity]. destruct peak_price_delta; [|reflexivity].
  destruct display_quantity; [|reflexivity].
  destruct execution_option; [|reflexivity].
  destruct valid_until; [|reflexivity]. destruct payload; [|reflexivity].
  destruct tag; [|reflexivity].
  exfalso. apply Hn. repeat split.
Qed.
End MaskCoversFields.

(** X7. Every field [update_gridpool_order] sets in the [UpdateOrder]
    message of a request is named in the mask of that request, so the mask
    never hides a value that is sent; when nothing is sent the log of
    requests is as it was. *)
Theorem update_request_fields_within_mask (L : PyLib) (C : PbConstants)
    (gridpool_id order_id : Z)
    (price : Client.Arg Price.t) (quantity : Client.Arg Energy.t)
    (stop_price peak_price_delta : Client.Arg Price.t)
    (display_quantity : Client.Arg Energy.t)
    (execution_option : Client.Arg OrderExecutionOption.t)
    (valid_until : Client.Arg datetime)
    (payload : Client.Arg PyDict)
    (tag : Client.Arg string)
    (w : Client.World) :
  let run :=
    Client.update_gridpool_order gridpool_id order_id price quantity stop_price
      peak_price_delta display_quantity execution_option valid_until payload tag w in
  Client.rpc_log (snd run) = Client.rpc_log w
  \/ exists request update_order mask,
      Client.rpc_log (snd run) = Client.rpc_log w ++ [request]
      /\ electricity_trading_pb2.UpdateGridpoolOrderRequest.update_order_fields request
         = Some update_order
      /\ electricity_trading_pb2.UpdateGridpoolOrderRequest.update_mask request
         = Some mask
      /\ incl (set_fields update_order) mask.
Proof.
  intro run. subst run. unfold Client.update_gridpool_order. cbv zeta.
  match goal with |- context [if ?b then _ else _] => destruct b end.
  - left. reflexivity.
  - match goal with
    | |- context [UpdateOrder.to_pb ?u] =>
        destruct (UpdateOrder_to_pb_cases u) as [Hover | Hfits]
    end.
    + rewrite Hover. left. reflexivity.
    + rewrite (UpdateOrder_to_pb_encodable _ Hfits). cbn [res_bind].
      unfold int_field.
      destruct (int_fits GridpoolId gridpool_id); [| left; reflexivity].
      destruct (int_fits OrderId order_id); [| left; reflexivity].
      cbn [res_bind]. erewrite bind_try_ok by reflexivity.
      right. eexists. eexists. eexists. split; [apply call_then_rpc_log|].
      cbn [electricity_trading_pb2.UpdateGridpoolOrderRequest.update_order_fields
           electricity_trading_pb2.UpdateGridpoolOrderRequest.update_mask].
      split; [reflexivity|]. split; [reflexivity|].
      rewrite paths_of_flags. unfold set_fields.
      cbn [UpdateOrder.price UpdateOrder.quantity UpdateOrder.stop_price
           UpdateOrder.peak_price_delta UpdateOrder.display_quantity
           UpdateOrder.execution_option UpdateOrder.valid_until UpdateOrder.payload
           UpdateOrder.tag
           electricity_trading_pb2.UpdateOrder.price
           electricity_trading_pb2.UpdateOrder.quantity
           electricity_trading_pb2.UpdateOrder.stop_price
           electricity_trading_pb2.UpdateOrder.peak_price_delta
           electricity_trading_pb2.UpdateOrder.display_quantity
           electricity_trading_pb2.UpdateOrder.execution_option
           electricity_trading_pb2.UpdateOrder.valid_until
           electricity_trading_pb2.UpdateOrder.payload
           electricity_trading_pb2.UpdateOrder.tag].
      repeat apply incl_app_app;
        first [apply name_if_set_within | apply valid_until_within].
Qed.



(** ** Registries and the helpers behind them *)

(** X9. In a client reached from a new one by any sequence of [stream_*]
    calls and stream terminations, every entry of a registry refers to a
    helper that exists and was constructed with the stream name and the
    stream method of the key of the entry; every helper constructed is
    referred to by one entry of the three registries and by no other, so
    no helper is shared between two keys or two registries and none is
    left without an entry; and the helpers were created before the next
    object. *)
Theorem registries_and_helpers_correspond (L : PyLib) (stub : Client.Stub)
        (events : list Event) :
  let w := run events (Client.initial_world stub) in
  entries_backed (Client.self w) (Client.helper_objs w)
  /\ Permutation (helper_refs (Client.self w)) (constructed w)
  /\ NoDup (helper_refs (Client.self w))
  /\ Forall (fun h => (h < next_id (Client.runtime w))%nat) (constructed w).
Proof.
  intro w. subst w.
  destruct (reachable_correspond stub events) as (Hb & Hp & Hd & Hlt).
  split; [exact Hb|]. split; [exact Hp|]. split.
  - eapply Permutation_NoDup; [apply Permutation_sym; exact Hp | exact Hd].
  - unfold constructed. apply Forall_map. exact Hlt.
Qed.

Section DistinctHelpers.
Context {L : PyLib}.

Lemma NoDup_snd_key {K V} (d : list (K * V)) a b h :
  NoDup (map snd d) -> In (a, h) d -> In (b, h) d -> a = b.
Proof.
  induction d as [|[k v] d IH]; cbn; [contradiction|].
  intros Hd Ha Hb. apply NoDup_cons_iff in Hd. destruct Hd as [Hn Hd].
  destruct Ha as [Ha | Ha], Hb as [Hb | Hb].
  - congruence.
  - injection Ha as -> ->. exfalso. apply Hn.
    apply (in_map snd) in Hb. exact Hb.
  - injection Hb as -> ->. exfalso. apply Hn.
    apply (in_map snd) in Ha. exact Ha.
  - now apply IH.
Qed.

Lemma NoDup_app_disjoint {A} (l1 l2 : list A) a :
  NoDup (l1 ++ l2) -> In a l1 -> In a l2 -> False.
Proof.
  induction l1 as [|x l1 IH]; cbn; [contradiction|].
  intros Hd [-> | H1] H2; apply NoDup_cons_iff in Hd; destruct Hd as [Hn Hd].
  - apply Hn, in_or_app. now right.
  - now apply IH.
Qed.

Lemma same_period_object_trans x y z :
  same_period_object x y -> same_period_object x z -> same_period_object y z.
Proof. unfold same_period_object. congruence. Qed.

Lemma GridpoolOrderFilter_eq_common a b c :
  GridpoolOrderFilter_eq a b = true -> GridpoolOrderFilter_eq a c = true ->
  GridpoolOrderFilter_eq b c = true.
Proof.
  rewrite !GridpoolOrderFilter_eq_spec.
  intros (H1 & H2 & H3 & H4 & H5) (G1 & G2 & G3 & G4 & G5).
  repeat split;
    first [congruence | eapply same_period_object_trans; eassumption].
Qed.

Lemma GridpoolTradeFilter_eq_common a b c :
  GridpoolTradeFilter_eq a b = true -> GridpoolTradeFilter_eq a c = true ->
  GridpoolTradeFilter_eq b c = true.
Proof.
  rewrite !GridpoolTradeFilter_eq_spec.
  intros (H1 & H2 & H3 & H4 & H5) (G1 & G2 & G3 & G4 & G5).
  repeat split;
    first [congruence | eapply same_period_object_trans; eassumption].
Qed.

Lemma PublicTradeFilter_eq_common a b c :
  PublicTradeFilter_eq a b = true -> PublicTradeFilter_eq a c = true ->
  PublicTradeFilter_eq b c = true.
Proof.
  rewrite !PublicTradeFilter_eq_spec.
  intros (H1 & H2 & H3 & H4) (G1 & G2 & G3 & G4).
  repeat split;
    first [congruence | eapply same_period_object_trans; eassumption].
Qed.

Lemma key_eq_common {F} (filter_eq : F -> F -> bool) :
  (forall a b c, filter_eq a b = true -> filter_eq a c = true -> filter_eq b c = true) ->
  forall a b c, key_eq filter_eq a b = true -> key_eq filter_eq a c = true ->
                key_eq filter_eq b c = true.
Proof.
  intros Hf a b c. unfold key_eq. rewrite !andb_true_iff, !Z.eqb_eq.
  intros [H1 H2] [G1 G2]. split; [congruence | eauto].
Qed.

(** Two entries of one dictionary that refer to the same value have keys
    equal to a common stored key. *)
Lemma lookups_of_one_value {K} (eqb : K -> K -> bool)
      (d : dict.t (K := K) (V := nat)) k1 k2 h :
  (forall a b c, eqb a b = true -> eqb a c = true -> eqb b c = true) ->
  NoDup (map snd d) ->
  dict.lookup eqb d k1 = Some h -> dict.lookup eqb d k2 = Some h ->
  eqb k1 k2 = true.
Proof.
  intros Hc Hd H1 H2.
  apply lookup_in in H1. destruct H1 as (a & Ha & Ea).
  apply lookup_in in H2. destruct H2 as (b & Hb & Eb).
  assert (a = b) by (eapply NoDup_snd_key; eassumption). subst b.
  eapply Hc; eassumption.
Qed.

End DistinctHelpers.

(** X10. In a client reached from a new one by any sequence of
    [stream_*] calls and stream terminations, two keys of a registry that
    are not equal are bound to different helpers, and so are two keys of
    different registries: a stream is shared only by subscriptions with
    equal keys. *)
Theorem unequal_keys_have_different_helpers (L : PyLib) (stub : Client.Stub)
        (events : list Event) :
  let c := Client.self (run events (Client.initial_world stub)) in
  (forall k1 k2 h1 h2,
      dict.lookup Client.orders_eq (Client._gridpool_orders_streams c) k1 = Some h1 ->
      dict.lookup Client.orders_eq (Client._gridpool_orders_streams c) k2 = Some h2 ->
      Client.orders_eq k1 k2 = false -> h1 <> h2)
  /\ (forall k1 k2 h1 h2,
         dict.lookup Client.trades_eq (Client._gridpool_trades_streams c) k1 = Some h1 ->
         dict.lookup Client.trades_eq (Client._gridpool_trades_streams c) k2 = Some h2 ->
         Client.trades_eq k1 k2 = false -> h1 <> h2)
  /\ (forall k1 k2 h1 h2,
         dict.lookup PublicTradeFilter_eq (Client._public_trades_streams c) k1 = Some h1 ->
         dict.lookup PublicTradeFilter_eq (Client._public_trades_streams c) k2 = Some h2 ->
         PublicTradeFilter_eq k1 k2 = false -> h1 <> h2)
  /\ (forall k1 k2 h1 h2,
         dict.lookup Client.orders_eq (Client._gridpool_orders_streams c) k1 = Some h1 ->
         dict.lookup Client.trades_eq (Client._gridpool_trades_streams c) k2 = Some h2 ->
         h1 <> h2)
  /\ (forall k1 k2 h1 h2,
         dict.lookup Client.orders_eq (Client._gridpool_orders_streams c) k1 = Some h1 ->
         dict.lookup PublicTradeFilter_eq (Client._public_trades_streams c) k2 = Some h2 ->
         h1 <> h2)
  /\ (forall k1 k2 h1 h2,
         dict.lookup Client.trades_eq (Client._gridpool_trades_streams c) k1 = Some h1 ->
         dict.lookup PublicTradeFilter_eq (Client._public_trades_streams c) k2 = Some h2 ->
         h1 <> h2).
Proof.
  intro c.
  destruct (reachable_correspond stub events) as (_ & Hp & Hd & _).
  fold c in Hp.
  assert (Hn : NoDup (helper_refs c))
    by (eapply Permutation_NoDup; [apply Permutation_sym; exact Hp | exact Hd]).
  rewrite helper_refs_by_registry in Hn.
  pose proof (NoDup_app_remove_r _ _ Hn) as Ho.
  pose proof (NoDup_app_remove_l _ _ Hn) as Htp.
  pose proof (NoDup_app_remove_r _ _ Htp) as Ht.
  pose proof (NoDup_app_remove_l _ _ Htp) as Hpu.
  repeat split.
  - intros k1 k2 h1 h2 H1 H2 Hne ->.
    rewrite (lookups_of_one_value Client.orders_eq _ k1 k2 h2
               (key_eq_common _ GridpoolOrderFilter_eq_common) Ho H1 H2) in Hne.
    discriminate.
  - intros k1 k2 h1 h2 H1 H2 Hne ->.
    rewrite (lookups_of_one_value Client.trades_eq _ k1 k2 h2
               (key_eq_common _ GridpoolTradeFilter_eq_common) Ht H1 H2) in Hne.
    discriminate.
  - intros k1 k2 h1 h2 H1 H2 Hne ->.
    rewrite (lookups_of_one_value PublicTradeFilter_eq _ k1 k2 h2
               PublicTradeFilter_eq_common Hpu H1 H2) in Hne.
    discriminate.
  - intros k1 k2 h1 h2 H1 H2 ->.
    apply lookup_ref in H1, H2.
    apply (NoDup_app_disjoint _ _ h2 Hn H1). apply in_or_app. now left.
  - intros k1 k2 h1 h2 H1 H2 ->.
    apply lookup_ref in H1, H2.
    apply (NoDup_app_disjoint _ _ h2 Hn H1). apply in_or_app. now right.
  - intros k1 k2 h1 h2 H1 H2 ->.
    apply lookup_ref in H1, H2.
    apply (NoDup_app_disjoint _ _ h2 Htp H1 H2).
Qed.

(** ** What a method leaves alone *)

Section Frames.
Context {L : PyLib}.

Section OneRegistryFrame.
Context {K : Type}
        (hashable : K -> bool) (eqb : K -> K -> bool)
        (registry : Client.t -> dict.t (K := K) (V := nat))
        (with_registry : Client.t -> dict.t (K := K) (V := nat) -> Client.t)
        (name : K -> GrpcStreamingHelper.StreamName)
        (method : K -> GrpcStreamingHelper.StreamMethod).
Hypothesis registry_with : forall c d, registry (with_registry c d) = d.
Hypothesis eqb_refl : forall k, eqb k k = true.

Lemma subscribe_quiet (k : K) (w : Client.World) :
  Client.rpc_log
    (snd (subscribe hashable eqb registry with_registry name method k w))
  = Client.rpc_log w
  /\ warnings
       (Client.runtime
          (snd (subscribe hashable eqb registry with_registry name method k w)))
     = warnings (Client.runtime w).
Proof.
  destruct (hashable k) eqn:Hh.
  - destruct (dict.lookup eqb (registry (Client.self w)) k) as [h|] eqn:Hl.
    + rewrite (subscribe_present hashable eqb registry with_registry name method
                 k h w Hh Hl). split; reflexivity.
    + rewrite (subscribe_absent hashable eqb registry with_registry name method
                 registry_with eqb_refl k w Hh Hl). split; reflexivity.
  - rewrite (subscribe_unhashable hashable eqb registry with_registry name method
               k w Hh). split; reflexivity.
Qed.

Lemma subscribe_other {X} (other : Client.t -> X) (k : K) (w : Client.World) :
  (forall c d, other (with_registry c d) = other c) ->
  other (Client.self
           (snd (subscribe hashable eqb registry with_registry name method k w)))
  = other (Client.self w).
Proof.
  intro Ho.
  destruct (subscribe_self hashable eqb registry with_registry name method
              registry_with eqb_refl k w) as [-> | [_ ->]]; [reflexivity | apply Ho].
Qed.
End OneRegistryFrame.

Lemma orders_frame g os ms da dp tg (w : Client.World) :
  let w' := snd (Client.stream_gridpool_orders g os ms da dp tg w) in
  (Client.rpc_log w' = Client.rpc_log w
   /\ warnings (Client.runtime w') = warnings (Client.runtime w))
  /\ Client._stub (Client.self w') = Client._stub (Client.self w)
  /\ Client._gridpool_trades_streams (Client.self w')
     = Client._gridpool_trades_streams (Client.self w)
  /\ Client._public_trades_streams (Client.self w')
     = Client._public_trades_streams (Client.self w).
Proof.
  change (Client.stream_gridpool_orders g os ms da dp tg)
    with (orders_subscribe
            (g, {| GridpoolOrderFilter.order_states := os;
                   GridpoolOrderFilter.side := ms;
                   GridpoolOrderFilter.delivery_period := dp;
                   GridpoolOrderFilter.delivery_area := da;
                   GridpoolOrderFilter.tag := tg |})).
  unfold orders_subscribe. cbv zeta. split; [|repeat split].
  - apply subscribe_quiet; [reflexivity | apply orders_eq_refl].
  - apply (subscribe_other Client.orders_hashable Client.orders_eq
             Client._gridpool_orders_streams Client.with_orders _ _
             (fun _ _ => eq_refl) orders_eq_refl
             Client._stub); reflexivity.
  - apply (subscribe_other Client.orders_hashable Client.orders_eq
             Client._gridpool_orders_streams Client.with_orders _ _
             (fun _ _ => eq_refl) orders_eq_refl
             Client._gridpool_trades_streams); reflexivity.
  - apply (subscribe_other Client.orders_hashable Client.orders_eq
             Client._gridpool_orders_streams Client.with_orders _ _
             (fun _ _ => eq_refl) orders_eq_refl
             Client._public_trades_streams); reflexivity.
Qed.

Lemma trades_frame g ts ti ms dp da (w : Client.World) :
  let w' := snd (Client.stream_gridpool_trades g ts ti ms dp da w) in
  (Client.rpc_log w' = Client.rpc_log w
   /\ warnings (Client.runtime w') = warnings (Client.runtime w))
  /\ Client._stub (Client.self w') = Client._stub (Client.self w)
  /\ Client._gridpool_orders_streams (Client.self w')
     = Client._gridpool_orders_streams (Client.self w)
  /\ Client._public_trades_streams (Client.self w')
     = Client._public_trades_streams (Client.self w).
Proof.
  change (Client.stream_gridpool_trades g ts ti ms dp da)
    with (trades_subscribe
            (g, {| GridpoolTradeFilter.trade_states := ts;
                   GridpoolTradeFilter.trade_id_lists := ti;
                   GridpoolTradeFilter.side := ms;
                   GridpoolTradeFilter.delivery_period := dp;
                   GridpoolTradeFilter.delivery_area := da |})).
  unfold trades_subscribe. cbv zeta. split; [|repeat split].
  - apply subscribe_quiet; [reflexivity | apply trades_eq_refl].
  - apply (subscribe_other Client.trades_hashable Client.trades_eq
             Client._gridpool_trades_streams Client.with_trades _ _
             (fun _ _ => eq_refl) trades_eq_refl
             Client._stub); reflexivity.
  - apply (subscribe_other Client.trades_hashable Client.trades_eq
             Client._gridpool_trades_streams Client.with_trades _ _
             (fun _ _ => eq_refl) trades_eq_refl
             Client._gridpool_orders_streams); reflexivity.
  - apply (subscribe_other Client.trades_hashable Client.trades_eq
             Client._gridpool_trades_streams Client.with_trades _ _
             (fun _ _ => eq_refl) trades_eq_refl
             Client._public_trades_streams); reflexivity.
Qed.

Lemma public_frame ss dp ba sa (w : Client.World) :
  let w' := snd (Client.stream_public_trades ss dp ba sa w) in
  (Client.rpc_log w' = Client.rpc_log w
   /\ warnings (Client.runtime w') = warnings (Client.runtime w))
  /\ Client._stub (Client.self w') = Client._stub (Client.self w)
  /\ Client._gridpool_orders_streams (Client.self w')
     = Client._gridpool_orders_streams (Client.self w)
  /\ Client._gridpool_trades_streams (Client.self w')
     = Client._gridpool_trades_streams (Client.self w).
Proof.
  change (Client.stream_public_trades ss dp ba sa)
    with (public_subscribe
            {| PublicTradeFilter.states := ss;
               PublicTradeFilter.delivery_period := dp;
               PublicTradeFilter.buy_delivery_area := ba;
               PublicTradeFilter.sell_delivery_area := sa |}).
  unfold public_subscribe. cbv zeta. split; [|repeat split].
  - apply subscribe_quiet; [reflexivity | apply PublicTradeFilter_eq_refl].
  - apply (subscribe_other PublicTradeFilter_hashable PublicTradeFilter_eq
             Client._public_trades_streams Client.with_public _ _
             (fun _ _ => eq_refl) PublicTradeFilter_eq_refl
             Client._stub); reflexivity.
  - apply (subscribe_other PublicTradeFilter_hashable PublicTradeFilter_eq
             Client._public_trades_streams Client.with_public _ _
             (fun _ _ => eq_refl) PublicTradeFilter_eq_refl
             Client._gridpool_orders_streams); reflexivity.
  - apply (subscribe_other PublicTradeFilter_hashable PublicTradeFilter_eq
             Client._public_trades_streams Client.with_public _ _
             (fun _ _ => eq_refl) PublicTradeFilter_eq_refl
             Client._gridpool_trades_streams); reflexivity.
Qed.

Lemma lift_py_client {A} (m : Py A) (w : Client.World) :
  Client.self (snd (Client.lift_py m w)) = Client.self w
  /\ Client.helper_objs (snd (Client.lift_py m w)) = Client.helper_objs w.
Proof.
  unfold Client.lift_py. destruct (m (Client.runtime w)). split; reflexivity.
Qed.

Lemma call_then_client {A} request
      (k : electricity_trading_pb2.UpdateGridpoolOrderResponse.t -> Py A)
      (w : Client.World) :
  let w' := snd (bind (Client.call_UpdateGridpoolOrder request)
                      (fun response => Client.lift_py (k response)) w) in
  Client.self w' = Client.self w /\ Client.helper_objs w' = Client.helper_objs w.
Proof.
  cbv zeta. unfold bind, Client.call_UpdateGridpoolOrder.
  destruct (Client.UpdateGridpoolOrder (Client._stub (Client.self w)) request).
  - split; reflexivity.
  - match goal with |- context [Client.lift_py ?m ?w1] =>
      exact (lift_py_client m w1)
    end.
Qed.
End Frames.

(** X11. Each [stream_*] method changes no registry but its own, and
    none of them sends a request through the stub, logs a warning or
    replaces the stub; [update_gridpool_order], whatever it is passed and
    whatever the service answers, leaves the three registries and every
    helper as they were. *)
Theorem methods_touch_only_their_own_state (L : PyLib) (C : PbConstants)
        (w : Client.World) :
  (forall gridpool_id order_states market_side delivery_area delivery_period tag,
      let w' := snd (Client.stream_gridpool_orders gridpool_id order_states market_side
                       delivery_area delivery_period tag w) in
      (Client.rpc_log w' = Client.rpc_log w
       /\ warnings (Client.runtime w') = warnings (Client.runtime w))
      /\ Client._stub (Client.self w') = Client._stub (Client.self w)
      /\ Client._gridpool_trades_streams (Client.self w')
         = Client._gridpool_trades_streams (Client.self w)
      /\ Client._public_trades_streams (Client.self w')
         = Client._public_trades_streams (Client.self w))
  /\ (forall gridpool_id trade_states trade_ids market_side delivery_period
             delivery_area,
         let w' := snd (Client.stream_gridpool_trades gridpool_id trade_states
                          trade_ids market_side delivery_period delivery_area w) in
         (Client.rpc_log w' = Client.rpc_log w
          /\ warnings (Client.runtime w') = warnings (Client.runtime w))
         /\ Client._stub (Client.self w') = Client._stub (Client.self w)
         /\ Client._gridpool_orders_streams (Client.self w')
            = Client._gridpool_orders_streams (Client.self w)
         /\ Client._public_trades_streams (Client.self w')
            = Client._public_trades_streams (Client.self w))
  /\ (forall states delivery_period buy_delivery_area sell_delivery_area,
         let w' := snd (Client.stream_public_trades states delivery_period
                          buy_delivery_area sell_delivery_area w) in
         (Client.rpc_log w' = Client.rpc_log w
          /\ warnings (Client.runtime w') = warnings (Client.runtime w))
         /\ Client._stub (Client.self w') = Client._stub (Client.self w)
         /\ Client._gridpool_orders_streams (Client.self w')
            = Client._gridpool_orders_streams (Client.self w)
         /\ Client._gridpool_trades_streams (Client.self w')
            = Client._gridpool_trades_streams (Client.self w))
  /\ (forall gridpool_id order_id price quantity stop_price peak_price_delta
             display_quantity execution_option valid_until payload tag,
         let w' := snd (Client.update_gridpool_order gridpool_id order_id price
                          quantity stop_price peak_price_delta display_quantity
                          execution_option valid_until payload tag w) in
         Client.self w' = Client.self w
         /\ Client.helper_objs w' = Client.helper_objs w).
Proof.
  split; [|split; [|split]].
  - intros. apply orders_frame.
  - intros. apply trades_frame.
  - intros. apply public_frame.
  - intros. subst w'. unfold Client.update_gridpool_order. cbv zeta.
    match goal with |- context [if ?b then _ else _] => destruct b end.
    + split; reflexivity.
    + match goal with
      | |- context [bind (try ?r) ?k w] => destruct r as [e | request]
      end.
      * split; reflexivity.
      * erewrite bind_try_ok by reflexivity. apply call_then_client.
Qed.

(** ** Unequal keys that ask for the same stream *)

Lemma lookup_app_other {K V} (eqb : K -> K -> bool)
      (d : dict.t (K := K) (V := V)) (k k' : K) (v : V) :
  dict.lookup eqb d k' = None -> eqb k k' = false ->
  dict.lookup eqb (d ++ [(k, v)]) k' = None.
Proof.
  unfold dict.lookup. induction d as [|[a b] d IH]; cbn.
  - intros _ ->. reflexivity.
  - destruct (eqb a k'); [discriminate | auto].
Qed.

(** X12. Two filters that are not equal to [==] and encode to the same
    message, as with a tag that is [None] and one that is the empty
    string or with two periods of the same start and length, open two
    streams for one gridpool: when neither key has an entry, the two
    calls construct two helpers, one after the other, each bound to its
    key, and the two helpers send the same request. *)
Theorem one_request_through_two_helpers (L : PyLib) (C : PbConstants)
        (w : Client.World) (gridpool_id : Z) (f f' : GridpoolOrderFilter.t) :
  GridpoolOrderFilter_hashable f = true ->
  GridpoolOrderFilter_hashable f' = true ->
  GridpoolOrderFilter_eq f f' = false ->
  GridpoolOrderFilter.to_pb f = GridpoolOrderFilter.to_pb f' ->
  dict.lookup Client.orders_eq
    (Client._gridpool_orders_streams (Client.self w)) (gridpool_id, f) = None ->
  dict.lookup Client.orders_eq
    (Client._gridpool_orders_streams (Client.self w)) (gridpool_id, f') = None ->
  exists r w1 r' w2,
    orders_call (gridpool_id, f) w = (inr r, w1)
    /\ orders_call (gridpool_id, f') w1 = (inr r', w2)
    /\ receiver_of r <> receiver_of r'
    /\ constructed w2 = constructed w ++ [receiver_of r; receiver_of r']
    /\ Client._gridpool_orders_streams (Client.self w2)
       = Client._gridpool_orders_streams (Client.self w)
         ++ [((gridpool_id, f), receiver_of r); ((gridpool_id, f'), receiver_of r')]
    /\ backed_by (Client.helper_objs w2) (receiver_of r)
         (GrpcStreamingHelper.NameOfOrdersKey (gridpool_id, f))
         (GrpcStreamingHelper.ReceiveGridpoolOrdersStream gridpool_id f)
    /\ backed_by (Client.helper_objs w2) (receiver_of r')
         (GrpcStreamingHelper.NameOfOrdersKey (gridpool_id, f'))
         (GrpcStreamingHelper.ReceiveGridpoolOrdersStream gridpool_id f')
    /\ Calls.stream_request
         (GrpcStreamingHelper.ReceiveGridpoolOrdersStream gridpool_id f)
       = Calls.stream_request
           (GrpcStreamingHelper.ReceiveGridpoolOrdersStream gridpool_id f').
Proof.
  intros Hh Hh' Hne Hpb Hl Hl'.
  pose proof (subscribe_absent Client.orders_hashable Client.orders_eq
                Client._gridpool_orders_streams Client.with_orders
                GrpcStreamingHelper.NameOfOrdersKey
                (fun k => GrpcStreamingHelper.ReceiveGridpoolOrdersStream (fst k) (snd k))
                (fun _ _ => eq_refl) orders_eq_refl (gridpool_id, f) w Hh Hl) as H1.
  cbv zeta in H1.
  match type of H1 with _ = (inr ?r, ?w1) =>
    assert (Hl1 : dict.lookup Client.orders_eq
                    (Client._gridpool_orders_streams (Client.self w1))
                    (gridpool_id, f') = None)
  end.
  { cbn [Client.self Client.with_orders Client._gridpool_orders_streams].
    apply lookup_app_other; [exact Hl'|].
    unfold Client.orders_eq, key_eq. cbn [fst snd].
    now rewrite Z.eqb_refl, Hne. }
  match type of H1 with _ = (inr ?r, ?w1) =>
    pose proof (subscribe_absent Client.orders_hashable Client.orders_eq
                  Client._gridpool_orders_streams Client.with_orders
                  GrpcStreamingHelper.NameOfOrdersKey
                  (fun k => GrpcStreamingHelper.ReceiveGridpoolOrdersStream
                              (fst k) (snd k))
                  (fun _ _ => eq_refl) orders_eq_refl (gridpool_id, f') w1 Hh' Hl1)
      as H2
  end.
  cbv zeta in H2.
  eexists. eexists. eexists. eexists.
  split; [rewrite orders_call_subscribe; exact H1|].
  split; [rewrite orders_call_subscribe; exact H2|].
  cbn [receiver_of Client.self Client.runtime Client.helper_objs next_id
       Client.with_orders Client._gridpool_orders_streams fst snd].
  split; [lia|].
  split.
  { unfold constructed. cbn [Client.helper_objs].
    rewrite constructed_update_helper by reflexivity.
    rewrite map_app.
    rewrite constructed_update_helper by reflexivity.
    rewrite map_app. cbn. now rewrite <- app_assoc. }
  split; [now rewrite <- app_assoc|].
  split.
  { apply backed_by_update_helper; [apply add_receiver_keeps|].
    apply backed_by_app.
    apply backed_by_update_helper; [apply add_receiver_keeps|].
    eexists. split; [apply in_or_app; right; left; reflexivity|].
    repeat split. }
  split.
  { apply backed_by_update_helper; [apply add_receiver_keeps|].
    eexists. split; [apply in_or_app; right; left; reflexivity|].
    repeat split. }
  cbn [Calls.stream_request]. now rewrite Hpb.
Qed.

Lemma one_request_through_two_helpers_example :
  exists r w1 r' w2,
    orders_call (1, Examples.any_gridpool_order) Examples.world0 = (inr r, w1)
    /\ orders_call
         (1, {| GridpoolOrderFilter.order_states := None;
                GridpoolOrderFilter.side := None;
                GridpoolOrderFilter.delivery_period := None;
                GridpoolOrderFilter.delivery_area := None;
                GridpoolOrderFilter.tag := Some EmptyString |}) w1 = (inr r', w2)
    /\ receiver_of r <> receiver_of r'
    /\ List.length (constructed w2) = 2%nat.
Proof.
  destruct (one_request_through_two_helpers Schema.lib Schema.constants
              Examples.world0 1 Examples.any_gridpool_order
              {| GridpoolOrderFilter.order_states := None;
                 GridpoolOrderFilter.side := None;
                 GridpoolOrderFilter.delivery_period := None;
                 GridpoolOrderFilter.delivery_area := None;
                 GridpoolOrderFilter.tag := Some EmptyString |}
              eq_refl eq_refl eq_refl eq_refl eq_refl eq_refl)
    as (r & w1 & r' & w2 & H1 & H2 & Hne & Hc & _).
  exists r, w1, r', w2. repeat split; try assumption.
  rewrite Hc. reflexivity.
Defined.

(** ** A decoded filter as a stream key *)

Lemma bind_inr {S A B} (m : StE S A) (k : A -> StE S B) (s s' : S) (b : B) :
  bind m k s = (inr b, s') -> exists a s1, m s = (inr a, s1) /\ k a s1 = (inr b, s').
Proof.
  unfold bind. destruct (m s) as [[e|a] s1]; intro H; [discriminate | eauto].
Qed.

(** X13. A filter returned by [from_pb] holds a list of states, so it is
    not hashable: every [stream_*] call made with the fields of a decoded
    filter raises [TypeError] and leaves the client as it was. *)
Theorem decoded_filters_are_no_stream_keys (L : PyLib) (C : PbConstants)
        (w : Client.World) :
  (forall m rt f rt' gridpool_id,
      GridpoolOrderFilter.from_pb m rt = (inr f, rt') ->
      orders_call (gridpool_id, f) w = (inl dict.unhashable, w))
  /\ (forall m rt f rt' gridpool_id,
         GridpoolTradeFilter.from_pb m rt = (inr f, rt') ->
         trades_call (gridpool_id, f) w = (inl dict.unhashable, w))
  /\ (forall m rt f rt',
         PublicTradeFilter.from_pb m rt = (inr f, rt') ->
         public_call f w = (inl dict.unhashable, w)).
Proof.
  split; [|split].
  - intros m rt f rt' gridpool_id H. unfold GridpoolOrderFilter.from_pb in H.
    repeat (apply bind_inr in H; destruct H as (? & ? & _ & H)).
    unfold ret in H. injection H as <- _.
    rewrite orders_call_subscribe. now apply subscribe_unhashable.
  - intros m rt f rt' gridpool_id H. unfold GridpoolTradeFilter.from_pb in H.
    repeat (apply bind_inr in H; destruct H as (? & ? & _ & H)).
    unfold ret in H. injection H as <- _.
    rewrite trades_call_subscribe. now apply subscribe_unhashable.
  - intros m rt f rt' H. unfold PublicTradeFilter.from_pb in H.
    repeat (apply bind_inr in H; destruct H as (? & ? & _ & H)).
    unfold ret in H. injection H as <- _.
    rewrite public_call_subscribe. now apply subscribe_unhashable.
Qed.

Lemma decoded_filters_are_no_stream_keys_example :
  exists f rt',
    GridpoolOrderFilter.from_pb (C := Schema.constants)
      Examples.period_only_filter_pb Examples.rt0 = (inr f, rt')
    /\ orders_call (1, f) Examples.world0 = (inl dict.unhashable, Examples.world0).
Proof.
  eexists. eexists. split; [vm_compute; reflexivity|].
  refine (proj1 (decoded_filters_are_no_stream_keys Schema.lib Schema.constants
                   Examples.world0)
            Examples.period_only_filter_pb Examples.rt0 _ _ 1 _).
  vm_compute. reflexivity.
Defined.

(** ** The exceptions a decoder can raise *)

Section Raises.
Context {S : Type}.

Lemma raises_only_ret {A} (l : list PyExc) (a : A) : raises_only (S := S) l (ret a).
Proof. intro s. exact I. Qed.

Lemma raises_only_raise {A} (l : list PyExc) (e : PyExc) :
  In e l -> raises_only (S := S) (A := A) l (raise e).
Proof. intros H s. exact H. Qed.

Lemma raises_only_bind {A B} (l : list PyExc) (m : StE S A) (k : A -> StE S B) :
  raises_only l m -> (forall a, raises_only l (k a)) -> raises_only l (bind m k).
Proof.
  intros Hm Hk s. unfold bind. specialize (Hm s).
  destruct (m s) as [[e|a] s1]; cbn in *; [exact Hm | apply Hk].
Qed.

Lemma raises_only_total {A} (l : list PyExc) (m : StE S A) :
  (forall s, exists a s', m s = (inr a, s')) -> raises_only l m.
Proof. intros H s. destruct (H s) as (a & s' & ->). exact I. Qed.

Lemma raises_only_list_map_m {A B} (l : list PyExc) (f : A -> StE S B) (xs : list A) :
  (forall a, raises_only l (f a)) -> raises_only l (list_map_m f xs).
Proof.
  intro Hf. induction xs as [|x xs IH]; cbn [list_map_m].
  - apply raises_only_ret.
  - apply raises_only_bind; [apply Hf|]. intro b.
    apply raises_only_bind; [apply IH|]. intro bs. apply raises_only_ret.
Qed.

Lemma raises_only_try {A} (l : list PyExc) (r : Res A) :
  fails_only l r -> raises_only (S := S) l (try r).
Proof. intros H s. destruct r as [e|a]; cbn; [now apply H | exact I]. Qed.

End Raises.

Section Fails.
Lemma fails_only_inr {A} (l : list PyExc) (a : A) : fails_only l (inr a).
Proof. intros e H. discriminate H. Qed.

Lemma fails_only_bind {A B} (l : list PyExc) (r : Res A) (k : A -> Res B) :
  fails_only l r -> (forall a, fails_only l (k a)) -> fails_only l (res_bind r k).
Proof.
  intros Hr Hk e. destruct r as [e'|a]; cbn [res_bind].
  - intro H. injection H as <-. now apply Hr.
  - apply Hk.
Qed.

Lemma ToDatetime_fails (l : list PyExc) (ts : Timestamp.t) :
  In OverflowError l -> fails_only l (Timestamp.ToDatetime ts).
Proof. intros H e He. now rewrite (ToDatetime_raises_only ts e He). Qed.

Lemma FromDatetime_fails (l : list PyExc) (dt : datetime) :
  In OverflowError l -> fails_only l (Timestamp.FromDatetime Timestamp.new dt).
Proof. intros H e He. now rewrite (FromDatetime_raises_only dt e He). Qed.

Lemma int_field_fails {C : PbConstants} (l : list PyExc) (field : IntField) (value : Z) :
  In (out_of_range value) l -> fails_only l (int_field field value).
Proof.
  intros H e. unfold int_field. destruct (int_fits field value); [discriminate|].
  intro He. now injection He as <-.
Qed.

Lemma res_map_fails {A B} (l : list PyExc) (f : A -> Res B) (xs : list A) :
  (forall a, In a xs -> fails_only l (f a)) -> fails_only l (res_map f xs).
Proof.
  induction xs as [|x xs IH]; intro Hf; cbn [res_map].
  - apply fails_only_inr.
  - apply fails_only_bind; [apply Hf; now left|]. intro b.
    apply fails_only_bind; [apply IH; intros a Ha; apply Hf; now right|].
    intro bs. apply fails_only_inr.
Qed.

Lemma py_if_res_fails {A B} (l : list PyExc) (truth : A -> bool) (x : option A)
      (f : A -> Res B) :
  (forall a, fails_only l (f a)) -> fails_only l (py_if_res truth x f).
Proof.
  intro Hf. destruct x as [a|]; cbn [py_if_res]; [|apply fails_only_inr].
  destruct (truth a); [|apply fails_only_inr].
  apply fails_only_bind; [apply Hf|]. intro b. apply fails_only_inr.
Qed.
End Fails.

Section EncoderExceptions.
Context {L : PyLib} {C : PbConstants}.

Lemma DeliveryPeriod_to_pb_fails (l : list PyExc) (p : DeliveryPeriod.t) :
  In OverflowError l -> fails_only l (DeliveryPeriod.to_pb p).
Proof.
  intro H. unfold DeliveryPeriod.to_pb.
  apply fails_only_bind; [now apply FromDatetime_fails|]. intro.
  apply fails_only_inr.
Qed.

Lemma valid_until_fails (l : list PyExc) (x : option datetime) :
  In OverflowError l ->
  fails_only l
    (py_if_res always x
       (fun dt => filled <~ Timestamp.FromDatetime Timestamp.new dt ;;
                  inr (fst filled))).
Proof.
  intro H. apply py_if_res_fails. intro dt.
  apply fails_only_bind; [now apply FromDatetime_fails|]. intro.
  apply fails_only_inr.
Qed.

Lemma Order_to_pb_fails (l : list PyExc) (v : Order.t) :
  In OverflowError l -> fails_only l (Order.to_pb v).
Proof.
  intro H. unfold Order.to_pb.
  apply fails_only_bind; [now apply valid_until_fails|]. intro.
  apply fails_only_bind; [now apply DeliveryPeriod_to_pb_fails|]. intro.
  apply fails_only_inr.
Qed.

Lemma UpdateOrder_to_pb_fails (l : list PyExc) (v : UpdateOrder.t) :
  In OverflowError l -> fails_only l (UpdateOrder.to_pb v).
Proof.
  intro H. unfold UpdateOrder.to_pb.
  apply fails_only_bind; [now apply valid_until_fails|]. intro.
  apply fails_only_inr.
Qed.

Lemma GridpoolOrderFilter_to_pb_fails (l : list PyExc) (v : GridpoolOrderFilter.t) :
  In OverflowError l -> fails_only l (GridpoolOrderFilter.to_pb v).
Proof.
  intro H. unfold GridpoolOrderFilter.to_pb.
  apply fails_only_bind;
    [apply py_if_res_fails; intro; now apply DeliveryPeriod_to_pb_fails|].
  intro. apply fails_only_inr.
Qed.

Lemma GridpoolTradeFilter_to_pb_fails (l : list PyExc) (v : GridpoolTradeFilter.t) :
  In OverflowError l ->
  incl (map out_of_range (ids_of (GridpoolTradeFilter.trade_id_lists v))) l ->
  fails_only l (GridpoolTradeFilter.to_pb v).
Proof.
  intros H Hids. unfold GridpoolTradeFilter.to_pb.
  apply fails_only_bind;
    [apply py_if_res_fails; intro; now apply DeliveryPeriod_to_pb_fails|].
  intro. apply fails_only_bind; [|intro; apply fails_only_inr].
  apply res_map_fails. intros id Hid. apply int_field_fails. apply Hids.
  apply in_map. unfold ids_of.
  destruct (GridpoolTradeFilter.trade_id_lists v) as [[|i ids]|]; cbn in *;
    first [contradiction | exact Hid].
Qed.

Lemma PaginationParams_to_pb_fails (l : list PyExc) (v : PaginationParams.t) :
  incl (map out_of_range (size_of (PaginationParams.page_size v))) l ->
  fails_only l (PaginationParams.to_pb v).
Proof.
  intro H. unfold PaginationParams.to_pb.
  apply fails_only_bind; [|intro; apply fails_only_inr].
  destruct (PaginationParams.page_size v) as [n|]; cbn [optional_field];
    [|apply fails_only_inr].
  apply fails_only_bind; [|intro; apply fails_only_inr].
  apply int_field_fails. apply H. now left.
Qed.
End EncoderExceptions.

Section DecoderExceptions.
Context {L : PyLib} {C : PbConstants}.

Lemma Decimal_call_raises (l : list PyExc) (s : string) :
  In InvalidOperation l -> raises_only l (Decimal_call s).
Proof.
  intros H rt. unfold Decimal_call. destruct (Decimal_new s); [exact I | exact H].
Qed.

Lemma enum_raises {E} (members : list E) (V : WireValues E) (unspecified : E)
      (fmt : string) (l : list PyExc) (w : Z) :
  raises_only l (decode members V unspecified fmt w).
Proof.
  apply raises_only_total. intro rt.
  destruct (decode_returns members V unspecified fmt w rt) as (e & ws & H & _).
  eexists. eexists. exact H.
Qed.

Lemma ToDatetime_raises (l : list PyExc) (ts : Timestamp.t) :
  In OverflowError l -> raises_only (S := Runtime) l (try (Timestamp.ToDatetime ts)).
Proof. intro H. now apply raises_only_try, ToDatetime_fails. Qed.

Lemma Price_raises (l : list PyExc) (m : price_pb2.Price.t) :
  In InvalidOperation l -> raises_only l (Price.from_pb m).
Proof.
  intro H. unfold Price.from_pb.
  apply raises_only_bind; [now apply Decimal_call_raises|]. intro a.
  apply raises_only_bind; [apply enum_raises|]. intro c. apply raises_only_ret.
Qed.

Lemma Energy_raises (l : list PyExc) (m : energy_pb2.Energy.t) :
  In InvalidOperation l -> raises_only l (Energy.from_pb m).
Proof.
  intro H. unfold Energy.from_pb.
  apply raises_only_bind; [now apply Decimal_call_raises|]. intro a.
  apply raises_only_ret.
Qed.

Lemma DeliveryArea_raises (l : list PyExc) (m : delivery_area_pb2.DeliveryArea.t) :
  raises_only l (DeliveryArea.from_pb m).
Proof. apply raises_only_total. intro rt. apply DeliveryArea_from_pb_total. Qed.

Lemma StateDetail_raises (l : list PyExc) (m : electricity_trading_pb2.StateDetail.t) :
  raises_only l (StateDetail.from_pb m).
Proof.
  apply raises_only_total. intro rt.
  destruct (StateDetail_from_pb_returns m rt) as (v & ws & H & _).
  eexists. eexists. exact H.
Qed.

Lemma DeliveryPeriod_init_raises (l : list PyExc) start duration :
  In DeliveryPeriod.invalid_duration l ->
  raises_only l (DeliveryPeriod.__init__ start duration).
Proof.
  intros H rt. unfold DeliveryPeriod.__init__, bind, fresh_id.
  repeat match goal with |- context [if ?b then _ else _] => destruct b end;
    first [exact I | exact H].
Qed.

Lemma DeliveryPeriod_raises (l : list PyExc)
      (m : delivery_duration_pb2.DeliveryPeriod.t) :
  In DeliveryPeriod.invalid_duration l -> In OverflowError l ->
  raises_only l (DeliveryPeriod.from_pb m).
Proof.
  intros H Ho. unfold DeliveryPeriod.from_pb. cbv zeta.
  apply raises_only_bind; [now apply ToDatetime_raises|]. intro start.
  apply raises_only_bind; [apply enum_raises|]. intro e.
  apply raises_only_bind.
  - destruct e; first [apply raises_only_ret | now apply raises_only_raise].
  - intro d. now apply DeliveryPeriod_init_raises.
Qed.

Lemma optional_Price_raises (l : list PyExc) (x : option price_pb2.Price.t) :
  In InvalidOperation l ->
  raises_only l
    (if HasField x
     then p <- Price.from_pb (get price_pb2.Price.default x) ;; ret (Some p)
     else ret None).
Proof.
  intro H. destruct (HasField x); [|apply raises_only_ret].
  apply raises_only_bind; [now apply Price_raises|]. intro p. apply raises_only_ret.
Qed.

Lemma optional_Energy_raises (l : list PyExc) (x : option energy_pb2.Energy.t) :
  In InvalidOperation l ->
  raises_only l
    (if HasField x
     then q <- Energy.from_pb (get energy_pb2.Energy.default x) ;; ret (Some q)
     else ret None).
Proof.
  intro H. destruct (HasField x); [|apply raises_only_ret].
  apply raises_only_bind; [now apply Energy_raises|]. intro p. apply raises_only_ret.
Qed.

Lemma optional_option_raises (l : list PyExc) (x : option Z) :
  raises_only l
    (if HasField x
     then o <- OrderExecutionOption.from_pb (get 0 x) ;; ret (Some o)
     else ret None).
Proof.
  destruct (HasField x); [|apply raises_only_ret].
  apply raises_only_bind; [apply enum_raises|]. intro p. apply raises_only_ret.
Qed.

Lemma optional_time_raises (l : list PyExc) (b : bool) (ts : Timestamp.t) :
  In OverflowError l ->
  raises_only (S := Runtime) l
    (if b then d <- try (Timestamp.ToDatetime ts) ;; ret (Some d) else ret None).
Proof.
  intro H. destruct b; [|apply raises_only_ret].
  apply raises_only_bind; [now apply ToDatetime_raises|]. intro.
  apply raises_only_ret.
Qed.

Lemma Order_raises (l : list PyExc) (m : electricity_trading_pb2.Order.t) :
  In DeliveryPeriod.invalid_duration l -> In InvalidOperation l ->
  In OverflowError l ->
  raises_only l (Order.from_pb m).
Proof.
  intros Hd Hi Ho. unfold Order.from_pb.
  apply raises_only_bind; [apply DeliveryArea_raises|]. intro.
  apply raises_only_bind; [now apply DeliveryPeriod_raises|]. intro.
  apply raises_only_bind; [apply enum_raises|]. intro.
  apply raises_only_bind; [apply enum_raises|]. intro.
  apply raises_only_bind; [now apply Price_raises|]. intro.
  apply raises_only_bind; [now apply Energy_raises|]. intro.
  apply raises_only_bind; [now apply optional_Price_raises|]. intro.
  apply raises_only_bind; [now apply optional_Price_raises|]. intro.
  apply raises_only_bind; [now apply optional_Energy_raises|]. intro.
  apply raises_only_bind; [apply optional_option_raises|]. intro.
  cbv zeta.
  apply raises_only_bind; [now apply optional_time_raises|]. intro.
  apply raises_only_ret.
Qed.

Lemma Trade_raises (l : list PyExc) (m : electricity_trading_pb2.Trade.t) :
  In DeliveryPeriod.invalid_duration l -> In InvalidOperation l ->
  In OverflowError l ->
  raises_only l (Trade.from_pb m).
Proof.
  intros Hd Hi Ho. unfold Trade.from_pb.
  apply raises_only_bind; [apply enum_raises|]. intro.
  apply raises_only_bind; [apply DeliveryArea_raises|]. intro.
  apply raises_only_bind; [now apply DeliveryPeriod_raises|]. intro.
  apply raises_only_bind; [now apply ToDatetime_raises|]. intro.
  apply raises_only_bind; [now apply Price_raises|]. intro.
  apply raises_only_bind; [now apply Energy_raises|]. intro.
  apply raises_only_bind; [apply enum_raises|]. intro.
  apply raises_only_ret.
Qed.

Lemma PublicTrade_raises (l : list PyExc) (m : electricity_trading_pb2.PublicTrade.t) :
  In DeliveryPeriod.invalid_duration l -> In InvalidOperation l ->
  In OverflowError l ->
  raises_only l (PublicTrade.from_pb m).
Proof.
  intros Hd Hi Ho. unfold PublicTrade.from_pb.
  apply raises_only_bind; [apply DeliveryArea_raises|]. intro.
  apply raises_only_bind; [apply DeliveryArea_raises|]. intro.
  apply raises_only_bind; [now apply DeliveryPeriod_raises|]. intro.
  apply raises_only_bind; [now apply ToDatetime_raises|]. intro.
  apply raises_only_bind; [now apply Price_raises|]. intro.
  apply raises_only_bind; [now apply Energy_raises|]. intro.
  apply raises_only_bind; [apply enum_raises|]. intro.
  apply raises_only_ret.
Qed.

Lemma OrderDetail_raises (l : list PyExc) (m : electricity_trading_pb2.OrderDetail.t) :
  In DeliveryPeriod.invalid_duration l -> In InvalidOperation l ->
  In OverflowError l ->
  raises_only l (OrderDetail.from_pb m).
Proof.
  intros Hd Hi Ho. unfold OrderDetail.from_pb.
  apply raises_only_bind; [now apply Order_raises|]. intro.
  apply raises_only_bind; [apply StateDetail_raises|]. intro.
  apply raises_only_bind; [now apply Energy_raises|]. intro.
  apply raises_only_bind; [now apply Energy_raises|]. intro.
  apply raises_only_bind; [now apply ToDatetime_raises|]. intro.
  apply raises_only_bind; [now apply ToDatetime_raises|]. intro.
  apply raises_only_ret.
Qed.

Lemma UpdateOrder_raises (l : list PyExc) (m : electricity_trading_pb2.UpdateOrder.t) :
  In InvalidOperation l -> In OverflowError l ->
  raises_only l (UpdateOrder.from_pb m).
Proof.
  intros Hi Ho. unfold UpdateOrder.from_pb.
  apply raises_only_bind; [now apply optional_Price_raises|]. intro.
  apply raises_only_bind; [now apply optional_Energy_raises|]. intro.
  apply raises_only_bind; [now apply optional_Price_raises|]. intro.
  apply raises_only_bind; [now apply optional_Price_raises|]. intro.
  apply raises_only_bind; [now apply optional_Energy_raises|]. intro.
  apply raises_only_bind; [apply optional_option_raises|]. intro.
  apply raises_only_bind; [now apply optional_time_raises|]. intro.
  apply raises_only_ret.
Qed.

Lemma GridpoolOrderFilter_raises (l : list PyExc)
      (m : electricity_trading_pb2.GridpoolOrderFilter.t) :
  In DeliveryPeriod.invalid_duration l -> In OverflowError l ->
  raises_only l (GridpoolOrderFilter.from_pb m).
Proof.
  intros Hd Ho. unfold GridpoolOrderFilter.from_pb.
  apply raises_only_bind;
    [apply raises_only_list_map_m; intro; apply enum_raises|]. intro.
  apply raises_only_bind; [apply enum_raises|]. intro.
  apply raises_only_bind; [now apply DeliveryPeriod_raises|]. intro.
  apply raises_only_bind; [apply DeliveryArea_raises|]. intro.
  apply raises_only_ret.
Qed.

Lemma GridpoolTradeFilter_raises (l : list PyExc)
      (m : electricity_trading_pb2.GridpoolTradeFilter.t) :
  In DeliveryPeriod.invalid_duration l -> In OverflowError l ->
  raises_only l (GridpoolTradeFilter.from_pb m).
Proof.
  intros Hd Ho. unfold GridpoolTradeFilter.from_pb.
  apply raises_only_bind;
    [apply raises_only_list_map_m; intro; apply enum_raises|]. intro.
  apply raises_only_bind; [apply enum_raises|]. intro.
  apply raises_only_bind; [now apply DeliveryPeriod_raises|]. intro.
  apply raises_only_bind; [apply DeliveryArea_raises|]. intro.
  apply raises_only_ret.
Qed.

Lemma PublicTradeFilter_raises (l : list PyExc)
      (m : electricity_trading_pb2.PublicTradeFilter.t) :
  In DeliveryPeriod.invalid_duration l -> In OverflowError l ->
  raises_only l (PublicTradeFilter.from_pb m).
Proof.
  intros Hd Ho. unfold PublicTradeFilter.from_pb.
  apply raises_only_bind;
    [apply raises_only_list_map_m; intro; apply enum_raises|]. intro.
  apply raises_only_bind; [now apply DeliveryPeriod_raises|]. intro.
  apply raises_only_bind; [apply DeliveryArea_raises|]. intro.
  apply raises_only_bind; [apply DeliveryArea_raises|]. intro.
  apply raises_only_ret.
Qed.
End DecoderExceptions.


(** ** The exceptions a method of the client can raise *)

Section MethodExceptions.
Context {L : PyLib} {C : PbConstants}.

Lemma raises_within_bind {S A B} (P : PyExc -> Prop) (m : StE S A)
      (k : A -> StE S B) :
  raises_within P m -> (forall a, raises_within P (k a)) -> raises_within P (bind m k).
Proof.
  intros Hm Hk s. unfold bind. specialize (Hm s).
  destruct (m s) as [[e|a] s1]; cbn in *; [exact Hm | apply Hk].
Qed.

Lemma raises_within_only {S A} (P : PyExc -> Prop) (l : list PyExc) (m : StE S A) :
  (forall e, In e l -> P e) -> raises_only l m -> raises_within P m.
Proof.
  intros Hl Hm s. specialize (Hm s). destruct (fst (m s)); [now apply Hl | exact I].
Qed.

Lemma await_raises {Req Resp} (P : PyExc -> Prop)
      (call : Req -> PyExc + Resp) (request : Req) :
  (forall e, answered_with call e -> P e) ->
  raises_within P (Calls.await (call request)).
Proof.
  intros H rt. destruct (call request) as [e|a] eqn:Hc; cbn; [|exact I].
  apply H. now exists request.
Qed.

Lemma subscribe_raises {K : Type}
      (hashable : K -> bool) (eqb : K -> K -> bool)
      (registry : Client.t -> dict.t (K := K) (V := nat))
      (with_registry : Client.t -> dict.t (K := K) (V := nat) -> Client.t)
      (name : K -> GrpcStreamingHelper.StreamName)
      (method : K -> GrpcStreamingHelper.StreamMethod) (k : K) :
  (forall c d, registry (with_registry c d) = d) ->
  (forall k, eqb k k = true) ->
  raises_only [dict.unhashable]
    (subscribe hashable eqb registry with_registry name method k).
Proof.
  intros registry_with eqb_refl w.
  destruct (hashable k) eqn:Hh.
  - destruct (dict.lookup eqb (registry (Client.self w)) k) as [h|] eqn:Hl.
    + now rewrite (subscribe_present hashable eqb registry with_registry name method
                     k h w Hh Hl).
    + now rewrite (subscribe_absent hashable eqb registry with_registry name method
                     registry_with eqb_refl k w Hh Hl).
  - rewrite (subscribe_unhashable hashable eqb registry with_registry name method
               k w Hh). now left.
Qed.

(** A method that builds a request, sends it and decodes the response. *)
Lemma call_raises {Req Resp A} (building : list PyExc) (r : Res Req)
      (call : Req -> PyExc + Resp) (decoder : Resp -> Py A) :
  fails_only (building ++ conversion_errors) r ->
  (forall response, raises_only conversion_errors (decoder response)) ->
  raises_within
    (fun e => In e (building ++ conversion_errors) \/ answered_with call e)
    (request <- try r ;; response <- Calls.await (call request) ;; decoder response).
Proof.
  intros Hr Hd.
  apply raises_within_bind.
  - apply (raises_within_only _ (building ++ conversion_errors));
      [intros e He; now left | now apply raises_only_try].
  - intro request. apply raises_within_bind.
    + apply await_raises. intros e He. now right.
    + intro response.
      apply (raises_within_only _ conversion_errors); [|apply Hd].
      intros e He. left. apply in_or_app. now right.
Qed.

Lemma OrderDetail_conversion (m : electricity_trading_pb2.OrderDetail.t) :
  raises_only conversion_errors (OrderDetail.from_pb m).
Proof.
  apply OrderDetail_raises; [now left | right; now left | right; right; now left].
Qed.

Lemma Trade_conversion (m : electricity_trading_pb2.Trade.t) :
  raises_only conversion_errors (Trade.from_pb m).
Proof.
  apply Trade_raises; [now left | right; now left | right; right; now left].
Qed.

Lemma Overflow_conversion (building : list PyExc) :
  In OverflowError (building ++ conversion_errors).
Proof. apply in_or_app. right. right. right. now left. Qed.
End MethodExceptions.



(** ** A period that decodes *)

Section ValidPeriod.
Context {L : PyLib} {C : PbConstants}.
Hypothesis Hd : distinct_values DeliveryDuration_values.

Lemma DeliveryPeriod_from_pb_valid
      (m : delivery_duration_pb2.DeliveryPeriod.t) (start : datetime) (rt : Runtime) :
  Timestamp.ToDatetime
    (get Timestamp.new (delivery_duration_pb2.DeliveryPeriod.start m)) = inr start ->
  valid_wire_duration (get 0 (delivery_duration_pb2.DeliveryPeriod.duration m)) ->
  exists p,
    DeliveryPeriod.from_pb m rt = (inr p, one_object_later rt)
    /\ DeliveryPeriod.oid p = next_id rt
    /\ DeliveryPeriod.start p = start
    /\ DeliveryDuration.to_pb (DeliveryPeriod.duration p)
       = get 0 (delivery_duration_pb2.DeliveryPeriod.duration m).
Proof.
  intros Hs (mins & Hm & Hw). unfold DeliveryPeriod.from_pb. cbv zeta. rewrite Hw.
  erewrite bind_try_ok by exact Hs.
  erewrite bind_ok
    by (apply (DeliveryDuration_from_pb_to_pb (duration_of_minutes mins) rt Hd)).
  destruct Hm as [-> | [-> | [-> | ->]]]; cbn [duration_of_minutes Z.eqb Pos.eqb];
    (erewrite bind_ok by reflexivity);
    eexists; (split; [reflexivity|]); repeat split.
Qed.

Lemma period_field_valid
      (field : option delivery_duration_pb2.DeliveryPeriod.t) (rt : Runtime) :
  period_accepted field ->
  exists p,
    DeliveryPeriod.from_pb (get delivery_duration_pb2.DeliveryPeriod.default field) rt
    = (inr p, one_object_later rt).
Proof.
  intros [(start & Hs) H].
  destruct (DeliveryPeriod_from_pb_valid _ start rt Hs H) as (p & Hp & _).
  now exists p.
Qed.

Lemma GridpoolOrderFilter_from_pb_valid
      (m : electricity_trading_pb2.GridpoolOrderFilter.t) (rt : Runtime) :
  period_accepted (electricity_trading_pb2.GridpoolOrderFilter.delivery_period m) ->
  exists f rt',
    GridpoolOrderFilter.from_pb m rt = (inr f, rt')
    /\ GridpoolOrderFilter.order_states f <> None
    /\ GridpoolOrderFilter.side f <> None
    /\ GridpoolOrderFilter.delivery_period f <> None
    /\ GridpoolOrderFilter.delivery_area f <> None
    /\ GridpoolOrderFilter.tag f <> None.
Proof.
  intro H. unfold GridpoolOrderFilter.from_pb.
  destruct (list_map_m_total OrderState.from_pb
              (electricity_trading_pb2.GridpoolOrderFilter.states m)
              OrderState_from_pb_total rt) as (ss & rt0 & Hss).
  erewrite bind_ok by exact Hss.
  destruct (MarketSide_from_pb_total
              (get 0 (electricity_trading_pb2.GridpoolOrderFilter.side m)) rt0)
    as (s & rt1 & Hs).
  erewrite bind_ok by exact Hs.
  destruct (period_field_valid _ rt1 H) as (p & Hp).
  erewrite bind_ok by exact Hp.
  destruct (DeliveryArea_from_pb_total
              (get delivery_area_pb2.DeliveryArea.default
                 (electricity_trading_pb2.GridpoolOrderFilter.delivery_area m))
              (one_object_later rt1)) as (a & rt2 & Ha).
  erewrite bind_ok by exact Ha.
  eexists. eexists. split; [reflexivity|]. repeat split; discriminate.
Qed.

Lemma GridpoolTradeFilter_from_pb_valid
      (m : electricity_trading_pb2.GridpoolTradeFilter.t) (rt : Runtime) :
  period_accepted (electricity_trading_pb2.GridpoolTradeFilter.delivery_period m) ->
  exists f rt',
    GridpoolTradeFilter.from_pb m rt = (inr f, rt')
    /\ GridpoolTradeFilter.trade_states f <> None
    /\ GridpoolTradeFilter.trade_id_lists f <> None
    /\ GridpoolTradeFilter.side f <> None
    /\ GridpoolTradeFilter.delivery_period f <> None
    /\ GridpoolTradeFilter.delivery_area f <> None.
Proof.
  intro H. unfold GridpoolTradeFilter.from_pb.
  destruct (list_map_m_total TradeState.from_pb
              (electricity_trading_pb2.GridpoolTradeFilter.states m)
              TradeState_from_pb_total rt) as (ss & rt0 & Hss).
  erewrite bind_ok by exact Hss.
  destruct (MarketSide_from_pb_total
              (get 0 (electricity_trading_pb2.GridpoolTradeFilter.side m)) rt0)
    as (s & rt1 & Hs).
  erewrite bind_ok by exact Hs.
  destruct (period_field_valid _ rt1 H) as (p & Hp).
  erewrite bind_ok by exact Hp.
  destruct (DeliveryArea_from_pb_total
              (get delivery_area_pb2.DeliveryArea.default
                 (electricity_trading_pb2.GridpoolTradeFilter.delivery_area m))
              (one_object_later rt1)) as (a & rt2 & Ha).
  erewrite bind_ok by exact Ha.
  eexists. eexists. split; [reflexivity|]. repeat split; discriminate.
Qed.

Lemma PublicTradeFilter_from_pb_valid
      (m : electricity_trading_pb2.PublicTradeFilter.t) (rt : Runtime) :
  period_accepted (electricity_trading_pb2.PublicTradeFilter.delivery_period m) ->
  exists f rt',
    PublicTradeFilter.from_pb m rt = (inr f, rt')
    /\ PublicTradeFilter.states f <> None
    /\ PublicTradeFilter.delivery_period f <> None
    /\ PublicTradeFilter.buy_delivery_area f <> None
    /\ PublicTradeFilter.sell_delivery_area f <> None.
Proof.
  intro H. unfold PublicTradeFilter.from_pb.
  destruct (list_map_m_total TradeState.from_pb
              (electricity_trading_pb2.PublicTradeFilter.states m)
              TradeState_from_pb_total rt) as (ss & rt0 & Hss).
  erewrite bind_ok by exact Hss.
  destruct (period_field_valid _ rt0 H) as (p & Hp).
  erewrite bind_ok by exact Hp.
  destruct (DeliveryArea_from_pb_total
              (get delivery_area_pb2.DeliveryArea.default
                 (electricity_trading_pb2.PublicTradeFilter.buy_delivery_area m))
              (one_object_later rt0)) as (a & rt2 & Ha).
  erewrite bind_ok by exact Ha.
  destruct (DeliveryArea_from_pb_total
              (get delivery_area_pb2.DeliveryArea.default
                 (electricity_trading_pb2.PublicTradeFilter.sell_delivery_area m))
              rt2) as (b & rt3 & Hb).
  erewrite bind_ok by exact Hb.
  eexists. eexists. split; [reflexivity|]. repeat split; discriminate.
Qed.
End ValidPeriod.

(** X17. A period message whose start is within the range of [datetime]
    and whose duration is the constant of 5, 15, 30 or 60 minutes
    decodes: to a new period object with that duration and the start
    [ToDatetime] returns for the start of the message, the epoch when the
    start is not set. A filter message whose period field holds such a
    start and such a duration decodes whatever its other fields hold, and
    the filter returned has no field that is [None]. *)
Theorem valid_period_decodes (L : PyLib) (C : PbConstants)
        (Hd : distinct_values DeliveryDuration_values) (rt : Runtime) :
  (forall m start,
      Timestamp.ToDatetime
        (get Timestamp.new (delivery_duration_pb2.DeliveryPeriod.start m))
      = inr start ->
      valid_wire_duration (get 0 (delivery_duration_pb2.DeliveryPeriod.duration m)) ->
      exists p,
        DeliveryPeriod.from_pb m rt = (inr p, one_object_later rt)
        /\ DeliveryPeriod.oid p = next_id rt
        /\ DeliveryPeriod.start p = start
        /\ DeliveryDuration.to_pb (DeliveryPeriod.duration p)
           = get 0 (delivery_duration_pb2.DeliveryPeriod.duration m))
  /\ (forall start, Timestamp.ToDatetime Timestamp.new = inr start -> start = epoch)
  /\ (forall m,
         period_accepted (electricity_trading_pb2.GridpoolOrderFilter.delivery_period m) ->
         exists f rt',
           GridpoolOrderFilter.from_pb m rt = (inr f, rt')
           /\ GridpoolOrderFilter.order_states f <> None
           /\ GridpoolOrderFilter.side f <> None
           /\ GridpoolOrderFilter.delivery_period f <> None
           /\ GridpoolOrderFilter.delivery_area f <> None
           /\ GridpoolOrderFilter.tag f <> None)
  /\ (forall m,
         period_accepted (electricity_trading_pb2.GridpoolTradeFilter.delivery_period m) ->
         exists f rt',
           GridpoolTradeFilter.from_pb m rt = (inr f, rt')
           /\ GridpoolTradeFilter.trade_states f <> None
           /\ GridpoolTradeFilter.trade_id_lists f <> None
           /\ GridpoolTradeFilter.side f <> None
           /\ GridpoolTradeFilter.delivery_period f <> None
           /\ GridpoolTradeFilter.delivery_area f <> None)
  /\ (forall m,
         period_accepted (electricity_trading_pb2.PublicTradeFilter.delivery_period m) ->
         exists f rt',
           PublicTradeFilter.from_pb m rt = (inr f, rt')
           /\ PublicTradeFilter.states f <> None
           /\ PublicTradeFilter.delivery_period f <> None
           /\ PublicTradeFilter.buy_delivery_area f <> None
           /\ PublicTradeFilter.sell_delivery_area f <> None).
Proof.
  split; [|split; [|split; [|split]]].
  - intros m start Hs H. now apply DeliveryPeriod_from_pb_valid.
  - intros start Hs. rewrite Timestamp_ToDatetime_new in Hs. now injection Hs as <-.
  - intros m H. now apply GridpoolOrderFilter_from_pb_valid.
  - intros m H. now apply GridpoolTradeFilter_from_pb_valid.
  - intros m H. now apply PublicTradeFilter_from_pb_valid.
Qed.

Lemma valid_period_decodes_example :
  exists f rt',
      GridpoolOrderFilter.from_pb (C := Schema.constants)
        Examples.period_only_filter_pb Examples.rt0 = (inr f, rt')
      /\ GridpoolOrderFilter.order_states f <> None
      /\ GridpoolOrderFilter.side f <> None
      /\ GridpoolOrderFilter.delivery_period f <> None
      /\ GridpoolOrderFilter.delivery_area f <> None
      /\ GridpoolOrderFilter.tag f <> None.
Proof.
  apply (proj1 (proj2 (proj2 (valid_period_decodes Schema.lib Schema.constants
                                (@DeliveryDuration_distinct _ Schema_constants_laws)
                                Examples.rt0)))
           Examples.period_only_filter_pb).
  split.
  - eexists. reflexivity.
  - exists 15. split; [right; left; reflexivity | reflexivity].
Defined.

(** ** The identity of a period *)

Section NewPeriods.
Context {C : PbConstants}.

Lemma DeliveryPeriod_init_new start duration rt p rt' :
  DeliveryPeriod.__init__ start duration rt = (inr p, rt') ->
  DeliveryPeriod.oid p = next_id rt /\ next_id rt' = S (next_id rt).
Proof.
  unfold DeliveryPeriod.__init__, bind, fresh_id.
  repeat match goal with |- context [if ?b then _ else _] => destruct b end;
    unfold ret, raise; intro H; inversion H; subst; split; reflexivity.
Qed.

Lemma DeliveryPeriod_from_pb_new m rt p rt' :
  DeliveryPeriod.from_pb m rt = (inr p, rt') ->
  DeliveryPeriod.oid p = next_id rt /\ next_id rt' = S (next_id rt).
Proof.
  unfold DeliveryPeriod.from_pb. cbv zeta. intro H.
  apply bind_inr in H. destruct H as (start & rt0 & Hstart & H).
  assert (rt0 = rt)
    by (unfold try in Hstart; destruct (Timestamp.ToDatetime _);
        inversion Hstart; reflexivity).
  subst rt0.
  apply bind_inr in H. destruct H as (e & rt1 & He & H).
  apply bind_inr in H. destruct H as (d & rt2 & Hdur & H).
  destruct (decode_returns DeliveryDuration.members _ DeliveryDuration.UNSPECIFIED
              "Unknown delivery duration %s. Returning UNSPECIFIED."%string
              (get 0 (delivery_duration_pb2.DeliveryPeriod.duration m)) rt)
    as (e' & ws & He' & _).
  change (DeliveryDuration.from_pb
            (get 0 (delivery_duration_pb2.DeliveryPeriod.duration m)) rt
          = (inr e', {| next_id := next_id rt; warnings := warnings rt ++ ws |}))
    in He'.
  rewrite He in He'. injection He' as _ Hrt1.
  assert (Hrt2 : rt2 = rt1)
    by (destruct e; unfold ret, raise in Hdur; inversion Hdur; reflexivity).
  apply DeliveryPeriod_init_new in H. subst rt2 rt1. exact H.
Qed.
End NewPeriods.

(** X18. A period returned by the constructor or by [from_pb] is a new
    object: it is not equal to [==] to any period that existed before,
    whatever their starts and durations. So the period decoded from the
    encoding of a period is never equal to it. *)
Theorem built_periods_are_new_objects (C : PbConstants) (rt : Runtime)
        (p : DeliveryPeriod.t) (rt' : Runtime) :
  (exists start duration, DeliveryPeriod.__init__ start duration rt = (inr p, rt'))
  \/ (exists m, DeliveryPeriod.from_pb m rt = (inr p, rt')) ->
  next_id rt' = S (next_id rt)
  /\ forall q, (DeliveryPeriod.oid q < next_id rt)%nat ->
               DeliveryPeriod_eq p q = false /\ DeliveryPeriod_eq q p = false.
Proof.
  intro H.
  assert (Hnew : DeliveryPeriod.oid p = next_id rt /\ next_id rt' = S (next_id rt)).
  { destruct H as [(start & duration & H) | (m & H)].
    - eapply DeliveryPeriod_init_new; exact H.
    - eapply DeliveryPeriod_from_pb_new; exact H. }
  destruct Hnew as [Hoid Hnext]. split; [exact Hnext|].
  intros q Hq. unfold DeliveryPeriod_eq. rewrite Hoid.
  split; apply Nat.eqb_neq; lia.
Qed.

Lemma built_periods_are_new_objects_example :
  exists p rt',
    DeliveryPeriod.from_pb (C := Schema.constants) Examples.period_pb
      (one_object_later Examples.rt0) = (inr p, rt')
    /\ DeliveryPeriod.start p = DeliveryPeriod.start Examples.period
    /\ DeliveryPeriod.duration p = DeliveryPeriod.duration Examples.period
    /\ DeliveryPeriod_eq p Examples.period = false.
Proof.
  eexists. eexists. split; [vm_compute; reflexivity|].
  split; [reflexivity|]. split; [reflexivity|].
  refine (proj1 (proj2 (built_periods_are_new_objects Schema.constants
                          (one_object_later Examples.rt0) _ _
                          (or_intror (ex_intro _ Examples.period_pb _)))
                   Examples.period _)).
  - vm_compute. reflexivity.
  - cbn. lia.
Defined.

(** ** What an order keeps on the wire *)


